(** * Gerador de escala de diaconos: embedding and verification

    A shallow embedding of [src/gerador_escala.py].  The class
    [GeradorEscalaDiaconos] becomes a record of its instance fields, the
    module-level generator of Python's [random] becomes an explicit random
    source, and every method becomes a function in a state-and-exception
    monad: a raised exception keeps the mutations made before it, exactly as
    a Python [raise] does.

    The text rendering ([exibir_escala], [_obter_nome_dia_semana]) and the
    command-line entry point carry no property studied here and are not
    embedded. *)

From Stdlib Require Import ZArith List String Bool Arith Lia Permutation.
Import ListNotations.

Set Implicit Arguments.
Open Scope string_scope.
Open Scope list_scope.

(* ================================================================== *)
(** ** Exceptions and results *)

(** The Python exceptions the program can raise.  [LacoSemFim] is not a
    Python exception: it is what the fuel-bounded model of the [while] loop
    answers when its fuel runs out (lemma [_calcular_datas_ano_termina] shows
    that it never does). *)
Inductive excecao : Type :=
| ValueError (msg : string)
| OverflowError (msg : string)
| IndexError (msg : string)
| KeyError
| LacoSemFim.

Inductive resultado (A : Type) : Type :=
| Ok (a : A)
| Raise (e : excecao).
Arguments Ok {A} a.
Arguments Raise {A} e.

(** The messages of the source, without their accents. *)
Definition msg_lista_vazia : string := "A lista de diaconos nao pode estar vazia".
Definition msg_sem_disponiveis : string := "Nao ha diaconos disponiveis para sorteio".
Definition msg_fora_do_intervalo : string := "date value out of range".
Definition msg_escolha_vazia : string := "Cannot choose from an empty sequence".
Definition msg_remove : string := "list.remove(x): x not in list".

(* ================================================================== *)
(** ** datetime.date *)

Module Calendario.
Local Open Scope Z_scope.

(** A [datetime.date] is represented by its proleptic Gregorian ordinal
    ([date.toordinal()]): 1 is January 1 of year 1.  Comparison, hashing and
    equality of dates agree with those of their ordinals. *)
Definition date : Type := Z.

Definition MINYEAR : Z := 1.
Definition MAXYEAR : Z := 9999.
Definition MAXORDINAL : Z := 3652059.

Definition is_leap (year : Z) : bool :=
  (year mod 4 =? 0) && (negb (year mod 100 =? 0) || (year mod 400 =? 0)).

Definition days_before_year (year : Z) : Z :=
  let y := year - 1 in y * 365 + y / 4 - y / 100 + y / 400.

Definition days_in_month (year month : Z) : Z :=
  if month =? 2 then (if is_leap year then 29 else 28)
  else if (month =? 4) || (month =? 6) || (month =? 9) || (month =? 11) then 30
  else 31.

Definition days_before_month (year month : Z) : Z :=
  nth (Z.to_nat month) [0; 0; 31; 59; 90; 120; 151; 181; 212; 243; 273; 304; 334] 0
  + (if (2 <? month) && is_leap year then 1 else 0).

(** [date(year, month, day)]: [ValueError] outside the supported range. *)
Definition mk_date (year month day : Z) : resultado date :=
  if negb ((MINYEAR <=? year) && (year <=? MAXYEAR)) then
    Raise (ValueError "year is out of range")
  else if negb ((1 <=? month) && (month <=? 12)) then
    Raise (ValueError "month must be in 1..12")
  else if negb ((1 <=? day) && (day <=? days_in_month year month)) then
    Raise (ValueError "day is out of range for month")
  else Ok (days_before_year year + days_before_month year month + day).

(** [d.weekday()]: 0 = Monday, ..., 6 = Sunday. *)
Definition weekday (d : date) : Z := (d + 6) mod 7.

(** [d + timedelta(days=n)]: [OverflowError] when the result leaves
    [date.min .. date.max]. *)
Definition add_days (d : date) (n : Z) : resultado date :=
  let o := d + n in
  if (0 <? o) && (o <=? MAXORDINAL) then Ok o
  else Raise (OverflowError msg_fora_do_intervalo).

End Calendario.
Export Calendario.

(* ================================================================== *)
(** ** Python dictionaries

    A [dict] keeps its keys in insertion order ([.items()] iterates in that
    order), so it is an association list without repeated keys. *)

Section Dict.
Variables (K V : Type) (eqb : K -> K -> bool).

Definition dict : Type := list (K * V).

(** [k in d] *)
Fixpoint dict_in (k : K) (d : dict) : bool :=
  match d with
  | [] => false
  | (k', _) :: r => eqb k' k || dict_in k r
  end.

(** [d[k]]: [KeyError] when the key is absent. *)
Fixpoint dict_get (k : K) (d : dict) : resultado V :=
  match d with
  | [] => Raise KeyError
  | (k', v) :: r => if eqb k' k then Ok v else dict_get k r
  end.

(** [d[k] = v] *)
Fixpoint dict_set (k : K) (v : V) (d : dict) : dict :=
  match d with
  | [] => [(k, v)]
  | (k', v') :: r => if eqb k' k then (k', v) :: r else (k', v') :: dict_set k v r
  end.
End Dict.

(** [d[k].append(x)] on a dictionary of lists. *)
Fixpoint dict_append {K A : Type} (eqb : K -> K -> bool) (k : K) (x : A)
    (d : dict K (list A)) : resultado (dict K (list A)) :=
  match d with
  | [] => Raise KeyError
  | (k', l) :: r =>
      if eqb k' k then Ok ((k', l ++ [x]) :: r)
      else match dict_append eqb k x r with
           | Ok r' => Ok ((k', l) :: r')
           | Raise e => Raise e
           end
  end.

(* ================================================================== *)
(** ** The random source

    The Mersenne Twister behind [random] is abstracted by the stream of raw
    numbers it will deliver: the k-th draw below [n] is the k-th raw number
    reduced below [n].  Every sequence of indices the real generator can
    return is produced by some stream, so a property proved for every stream
    holds for every seed. *)
Record Random : Type := { fluxo : nat -> nat; posicao : nat }.

Definition randbelow (n : nat) (g : Random) : nat * Random :=
  (fluxo g (posicao g) mod n, {| fluxo := fluxo g; posicao := S (posicao g) |}).

(* ================================================================== *)
(** ** Data model *)

Record DiaconoEscala : Type := {
  nome : string;
  funcao : string;        (* 'chave' ou 'oferta' *)
  dia : string;
  data : option date      (* Data do evento *)
}.

Record GeradorEscalaDiaconos : Type := {
  lista_diaconos : list string;
  escala_gerada : list DiaconoEscala;
  _chaves_usadas : list string;
  _chave_semanal : dict date string
}.

(** The state a method runs in: the instance and the process-wide random
    generator. *)
Record Estado : Type := { self : GeradorEscalaDiaconos; random : Random }.

Definition DIAS_ESCALA : list string := ["domingo"; "quarta"; "sabado"]%string.

Definition MAPA_DIAS_SEMANA : dict string Z :=
  [("domingo", 6); ("quarta", 2); ("sabado", 5)]%string%Z.

(* ================================================================== *)
(** ** The monad of methods *)

Definition M (A : Type) : Type := Estado -> resultado A * Estado.

Definition ret {A} (a : A) : M A := fun st => (Ok a, st).
Definition raise {A} (e : excecao) : M A := fun st => (Raise e, st).
Definition bind {A B} (m : M A) (f : A -> M B) : M B :=
  fun st => match m st with
            | (Ok a, st') => f a st'
            | (Raise e, st') => (Raise e, st')
            end.
Definition lift {A} (r : resultado A) : M A := fun st => (r, st).

Notation "x <- m ;; k" := (bind m (fun x => k))
  (at level 61, m at next level, right associativity).
Notation "m ;;; k" := (bind m (fun _ => k))
  (at level 61, right associativity).

Definition get_self : M GeradorEscalaDiaconos := fun st => (Ok (self st), st).

Definition set_escala_gerada (v : list DiaconoEscala) : M unit := fun st =>
  (Ok tt, {| self := {| lista_diaconos := lista_diaconos (self st);
                        escala_gerada := v;
                        _chaves_usadas := _chaves_usadas (self st);
                        _chave_semanal := _chave_semanal (self st) |};
             random := random st |}).

Definition set_chaves_usadas (v : list string) : M unit := fun st =>
  (Ok tt, {| self := {| lista_diaconos := lista_diaconos (self st);
                        escala_gerada := escala_gerada (self st);
                        _chaves_usadas := v;
                        _chave_semanal := _chave_semanal (self st) |};
             random := random st |}).

Definition set_chave_semanal (v : dict date string) : M unit := fun st =>
  (Ok tt, {| self := {| lista_diaconos := lista_diaconos (self st);
                        escala_gerada := escala_gerada (self st);
                        _chaves_usadas := _chaves_usadas (self st);
                        _chave_semanal := v |};
             random := random st |}).

(** [self.escala_gerada.append(r)] *)
Definition escala_append (r : DiaconoEscala) : M unit :=
  g <- get_self ;; set_escala_gerada (escala_gerada g ++ [r]).

(** [for x in l: corpo(x)] *)
Fixpoint para_cada {A} (l : list A) (corpo : A -> M unit) : M unit :=
  match l with
  | [] => ret tt
  | x :: r => corpo x ;;; para_cada r corpo
  end.

(** [random.choice(seq)] *)
Definition random_choice (seq : list string) : M string := fun st =>
  match seq with
  | [] => (Raise (IndexError msg_escolha_vazia), st)
  | d :: _ =>
      let (i, g) := randbelow (List.length seq) (random st) in
      (Ok (nth i seq d), {| self := self st; random := g |})
  end.

(* ================================================================== *)
(** ** Methods of [GeradorEscalaDiaconos] *)

(** [__init__]: runs against the process-wide random generator [g] and
    returns the new instance together with the generator it leaves behind.
    [semear s] is the state [random.seed(s)] puts the generator in. *)
Definition __init__ (semear : Z -> Random)
    (lista : list string) (seed : option Z) (g : Random)
  : resultado GeradorEscalaDiaconos * Random :=
  match lista with
  | [] => (Raise (ValueError msg_lista_vazia), g)
  | _ =>
      (Ok {| lista_diaconos := lista;
             escala_gerada := [];
             _chaves_usadas := [];
             _chave_semanal := [] |},
       match seed with
       | Some s => semear s
       | None => g
       end)
  end.

Definition _sortear_diacono (diaconos_disponiveis : list string) : M string :=
  match diaconos_disponiveis with
  | [] => raise (ValueError msg_sem_disponiveis)
  | _ => random_choice diaconos_disponiveis
  end.

Definition _remover_diacono (lista : list string) (nome : string) : list string :=
  filter (fun d => negb (String.eqb d nome)) lista.

(** [lista.remove(x)]: drops the first occurrence, [ValueError] if none. *)
Fixpoint list_remove (x : string) (lista : list string) : resultado (list string) :=
  match lista with
  | [] => Raise (ValueError msg_remove)
  | y :: r =>
      if String.eqb y x then Ok r
      else match list_remove x r with
           | Ok r' => Ok (y :: r')
           | Raise e => Raise e
           end
  end.

Definition datas_vazias : dict string (list date) :=
  [("domingo", []); ("quarta", []); ("sabado", [])]%string.

(** The [while data_atual <= data_fim] loop of [_calcular_datas_ano]. *)
Fixpoint laco_datas (fuel : nat) (data_atual data_fim : date)
    (datas_por_dia : dict string (list date)) : M (dict string (list date)) :=
  match fuel with
  | O => raise LacoSemFim
  | S fuel' =>
      if (data_atual <=? data_fim)%Z then
        let dia_semana := weekday data_atual in
        datas_por_dia' <-
          (dom <- lift (dict_get String.eqb "domingo" MAPA_DIAS_SEMANA) ;;
           if (dia_semana =? dom)%Z then
             lift (dict_append String.eqb "domingo" data_atual datas_por_dia)
           else
             qua <- lift (dict_get String.eqb "quarta" MAPA_DIAS_SEMANA) ;;
             if (dia_semana =? qua)%Z then
               lift (dict_append String.eqb "quarta" data_atual datas_por_dia)
             else
               sab <- lift (dict_get String.eqb "sabado" MAPA_DIAS_SEMANA) ;;
               if (dia_semana =? sab)%Z then
                 lift (dict_append String.eqb "sabado" data_atual datas_por_dia)
               else ret datas_por_dia) ;;
        proxima <- lift (add_days data_atual 1) ;;
        laco_datas fuel' proxima data_fim datas_por_dia'
      else ret datas_por_dia
  end.

(** A year has at most 366 days, so the loop body runs at most 366 times and
    the test once more. *)
Definition combustivel_ano : nat := 367.

Definition _calcular_datas_ano (ano : Z) : M (dict string (list date)) :=
  data_atual <- lift (mk_date ano 1 1) ;;
  data_fim <- lift (mk_date ano 12 31) ;;
  laco_datas combustivel_ano data_atual data_fim datas_vazias.

Definition membro (d : string) (l : list string) : bool :=
  existsb (String.eqb d) l.

Definition _obter_proximo_chave_circular : M string :=
  g <- get_self ;;
  (if (List.length (lista_diaconos g) <=? List.length (_chaves_usadas g))%nat
   then set_chaves_usadas [] else ret tt) ;;;
  g <- get_self ;;
  let diaconos_disponiveis :=
    filter (fun d => negb (membro d (_chaves_usadas g))) (lista_diaconos g) in
  diaconos_disponiveis <-
    (match diaconos_disponiveis with
     | [] => set_chaves_usadas [] ;;; ret (lista_diaconos g)
     | _ => ret diaconos_disponiveis
     end) ;;
  escolhido <- random_choice diaconos_disponiveis ;;
  g <- get_self ;;
  set_chaves_usadas (_chaves_usadas g ++ [escolhido]) ;;;
  ret escolhido.

Definition _encontrar_sabado_semana (data_evento : date) : M (option date) :=
  let dia_semana := weekday data_evento in
  if (dia_semana =? 6)%Z then
    sabado <- lift (add_days data_evento (-1)) ;; ret (Some sabado)
  else if (dia_semana =? 2)%Z then
    sabado <- lift (add_days data_evento (-4)) ;; ret (Some sabado)
  else ret None.

Definition _adicionar_escala_dia_anual (dia : string) (data_evento : date) : M unit :=
  sabado_semana <- _encontrar_sabado_semana data_evento ;;
  g <- get_self ;;
  diacono_chave <-
    (match sabado_semana with
     | Some sabado =>
         if dict_in Z.eqb sabado (_chave_semanal g)
         then lift (dict_get Z.eqb sabado (_chave_semanal g))
         else _obter_proximo_chave_circular
     | None => _obter_proximo_chave_circular
     end) ;;
  escala_append {| nome := diacono_chave; funcao := "chave"; dia := dia;
                   data := Some data_evento |}.

Definition _adicionar_escala_sabado_anual (data_evento : date) : M unit :=
  diacono_chave <- _obter_proximo_chave_circular ;;
  g <- get_self ;;
  set_chave_semanal (dict_set Z.eqb data_evento diacono_chave (_chave_semanal g)) ;;;
  escala_append {| nome := diacono_chave; funcao := "chave"; dia := "sabado";
                   data := Some data_evento |} ;;;
  para_cada (seq 0 2) (fun _ =>
    g <- get_self ;;
    diacono_oferta <- _sortear_diacono (lista_diaconos g) ;;
    escala_append {| nome := diacono_oferta; funcao := "oferta"; dia := "sabado";
                     data := Some data_evento |}).

(** [todas_datas.sort(key=lambda x: x[0])]: Python's sort is stable, and a
    stable sort is determined by its input, so insertion sort stands for it. *)
Fixpoint inserir_por_data (x : date * string) (l : list (date * string))
  : list (date * string) :=
  match l with
  | [] => [x]
  | y :: r => if (fst x <=? fst y)%Z then x :: y :: r
              else y :: inserir_por_data x r
  end.

Definition sort_por_data (l : list (date * string)) : list (date * string) :=
  fold_right inserir_por_data [] l.

(** The two nested [for] loops that fill [todas_datas]. *)
Definition juntar_datas (datas_por_dia : dict string (list date))
  : list (date * string) :=
  flat_map (fun item => map (fun data => (data, fst item)) (snd item)) datas_por_dia.

Definition processar_data (evento : date * string) : M unit :=
  let (data_evento, dia_semana) := evento in
  if String.eqb dia_semana "sabado" then _adicionar_escala_sabado_anual data_evento
  else _adicionar_escala_dia_anual dia_semana data_evento.

Definition gerar_escala_anual (ano : Z) : M (list DiaconoEscala) :=
  set_escala_gerada [] ;;;
  set_chaves_usadas [] ;;;
  set_chave_semanal [] ;;;
  datas_por_dia <- _calcular_datas_ano ano ;;
  let todas_datas := sort_por_data (juntar_datas datas_por_dia) in
  para_cada todas_datas processar_data ;;;
  g <- get_self ;;
  ret (escala_gerada g).

(** Legacy weekly mode.  [diaconos_disponiveis] is a parameter of the
    callee: the assignment [diaconos_disponiveis = self._remover_diacono(...)]
    rebinds the callee's local name to a new list, and the later
    [.remove(...)] mutates that new list, so the caller's list is never
    changed and the methods return nothing. *)
Definition _adicionar_escala_dia (dia : string)
    (diaconos_disponiveis : list string) (evitar_repeticao : bool) : M unit :=
  diacono_chave <- _sortear_diacono diaconos_disponiveis ;;
  escala_append {| nome := diacono_chave; funcao := "chave"; dia := dia;
                   data := None |} ;;;
  let diaconos_disponiveis :=
    if evitar_repeticao then _remover_diacono diaconos_disponiveis diacono_chave
    else diaconos_disponiveis in
  diacono_oferta <- _sortear_diacono diaconos_disponiveis ;;
  escala_append {| nome := diacono_oferta; funcao := "oferta"; dia := dia;
                   data := None |} ;;;
  if evitar_repeticao then
    lift (list_remove diacono_oferta diaconos_disponiveis) ;;; ret tt
  else ret tt.

(** The [for _ in range(2)] loop of [_adicionar_escala_sabado]; the local
    pool is rebound at the end of each round. *)
Fixpoint laco_ofertas_sabado (rodadas : nat) (diaconos_disponiveis : list string)
    (evitar_repeticao : bool) : M unit :=
  match rodadas with
  | O => ret tt
  | S rodadas' =>
      diacono_oferta <- _sortear_diacono diaconos_disponiveis ;;
      escala_append {| nome := diacono_oferta; funcao := "oferta"; dia := "sabado";
                       data := None |} ;;;
      laco_ofertas_sabado rodadas'
        (if evitar_repeticao
         then _remover_diacono diaconos_disponiveis diacono_oferta
         else diaconos_disponiveis)
        evitar_repeticao
  end.

Definition _adicionar_escala_sabado
    (diaconos_disponiveis : list string) (evitar_repeticao : bool) : M unit :=
  diacono_chave <- _sortear_diacono diaconos_disponiveis ;;
  escala_append {| nome := diacono_chave; funcao := "chave"; dia := "sabado";
                   data := None |} ;;;
  laco_ofertas_sabado 2
    (if evitar_repeticao then _remover_diacono diaconos_disponiveis diacono_chave
     else diaconos_disponiveis)
    evitar_repeticao.

Definition gerar_escala_semanal (evitar_repeticao : bool) : M (list DiaconoEscala) :=
  set_escala_gerada [] ;;;
  set_chaves_usadas [] ;;;
  g <- get_self ;;
  let diaconos_disponiveis := lista_diaconos g in
  _adicionar_escala_dia "domingo" diaconos_disponiveis evitar_repeticao ;;;
  _adicionar_escala_dia "quarta" diaconos_disponiveis evitar_repeticao ;;;
  _adicionar_escala_sabado diaconos_disponiveis evitar_repeticao ;;;
  g <- get_self ;;
  ret (escala_gerada g).

(** [for diacono in escala: grupos[chave(diacono)].append(diacono)] *)
Fixpoint agrupar (chave : DiaconoEscala -> string) (escala : list DiaconoEscala)
    (grupos : dict string (list DiaconoEscala))
  : resultado (dict string (list DiaconoEscala)) :=
  match escala with
  | [] => Ok grupos
  | diacono :: r =>
      match dict_append String.eqb (chave diacono) diacono grupos with
      | Ok grupos' => agrupar chave r grupos'
      | Raise e => Raise e
      end
  end.

Definition obter_escala_por_dia : M (dict string (list DiaconoEscala)) :=
  g <- get_self ;;
  lift (agrupar dia (escala_gerada g) (map (fun dia => (dia, [])) DIAS_ESCALA)).

Definition obter_escala_por_funcao : M (dict string (list DiaconoEscala)) :=
  g <- get_self ;;
  lift (agrupar funcao (escala_gerada g) [("chave", []); ("oferta", [])]).

(* ================================================================== *)
(** ** Running the model on concrete inputs *)

Definition fluxo_de (l : list nat) : Random :=
  {| fluxo := fun k => nth k l 0; posicao := 0 |}.

Definition fluxo_zero : Random := fluxo_de [].

Definition novo_estado (lista : list string) (g : Random) : Estado :=
  {| self := {| lista_diaconos := lista; escala_gerada := [];
                _chaves_usadas := []; _chave_semanal := [] |};
     random := g |}.

(* ================================================================== *)
(** ** Specification vocabulary *)

(** *** The rotation *)

(** How [_obter_proximo_chave_circular] chooses the list it appends to:
    [base] is the used list after the two possible resets and [n] the name
    drawn. *)
Definition rodada (lista usadas base : list string) (n : string) : Prop :=
  ((List.length lista <= List.length usadas)%nat /\ base = []) \/
  ((List.length usadas < List.length lista)%nat /\ base = usadas /\ ~ In n usadas) \/
  ((List.length usadas < List.length lista)%nat /\ base = [] /\ incl lista usadas).

(** [k] consecutive calls of the rotation pick on one generator, with the
    names in the order they were picked. *)
Fixpoint sortear_chaves (k : nat) : M (list string) :=
  match k with
  | O => ret []
  | S k' =>
      n <- _obter_proximo_chave_circular ;;
      r <- sortear_chaves k' ;;
      ret (n :: r)
  end.

(** The run of [n] consecutive picks that starts after the first [i]. *)
Definition janela (i n : nat) (nomes : list string) : list string :=
  firstn n (skipn i nomes).

(** The used list is at the start of a pass: empty, or full so that the next
    pick clears it. *)
Definition inicio_de_passe (g : GeradorEscalaDiaconos) : Prop :=
  _chaves_usadas g = [] \/
  (List.length (lista_diaconos g) <= List.length (_chaves_usadas g))%nat.

(** *** Construction *)

(** A program that constructs a generator with [__init__] and then runs the
    method calls [m] on the new instance; it answers what [m] answers and the
    random generator left behind.  When the constructor raises there is no
    instance and [m] does not run. *)
Definition executar {A} (semear : Z -> Random) (lista : list string)
    (seed : option Z) (g : Random) (m : M A) : resultado A * Random :=
  match __init__ semear lista seed g with
  | (Ok ger, g') => let (r, st) := m {| self := ger; random := g' |} in (r, random st)
  | (Raise e, g') => (Raise e, g')
  end.

(** *** The calendar year *)

(** The calendar year as the model sees it. *)
Definition primeiro_dia (ano : Z) : date := (days_before_year ano + 1)%Z.

Definition dias_do_ano (ano : Z) : nat := if is_leap ano then 366%nat else 365%nat.

Definition ultimo_dia (ano : Z) : date :=
  (primeiro_dia ano + Z.of_nat (dias_do_ano ano) - 1)%Z.

(** The [n] consecutive dates that start at [ini]. *)
Fixpoint dias_desde (ini : date) (n : nat) : list date :=
  match n with
  | O => []
  | S n' => ini :: dias_desde (ini + 1)%Z n'
  end.

(** The dates of [l] that fall on weekday [w], in the order of [l]. *)
Definition no_dia_da_semana (w : Z) (l : list date) : list date :=
  filter (fun d => (weekday d =? w)%Z) l.

(** What [_calcular_datas_ano] is expected to return for a year. *)
Definition datas_do_ano (ano : Z) : dict string (list date) :=
  let dias := dias_desde (primeiro_dia ano) (dias_do_ano ano) in
  [("domingo", no_dia_da_semana 6 dias);
   ("quarta", no_dia_da_semana 2 dias);
   ("sabado", no_dia_da_semana 5 dias)].

(** Strictly ascending dates. *)
Fixpoint crescente (l : list date) : Prop :=
  match l with
  | [] => True
  | d :: r => Forall (fun d' => (d < d')%Z) r /\ crescente r
  end.

(** *** The annual schedule *)

(** A record of the annual schedule. *)
Definition registro (n f dia_semana : string) (d : date) : DiaconoEscala :=
  {| nome := n; funcao := f; dia := dia_semana; data := Some d |}.

(** The records of a schedule that carry the date [d], in schedule order. *)
Definition registros_da_data (d : date) (esc : list DiaconoEscala) : list DiaconoEscala :=
  filter (fun r => match data r with Some d' => Z.eqb d' d | None => false end) esc.

(** The Saturday that opens the service week of a Sunday or a Wednesday:
    what [_encontrar_sabado_semana] computes when its date arithmetic stays in
    range. *)
Definition sabado_de (d : date) : option date :=
  if (weekday d =? 6)%Z then Some (d - 1)%Z
  else if (weekday d =? 2)%Z then Some (d - 4)%Z
  else None.

(** An event of [todas_datas]: a date paired with the key of its weekday. *)
Definition evento_valido (e : date * string) : Prop :=
  (snd e = "sabado" /\ weekday (fst e) = 5%Z) \/
  (snd e = "domingo" /\ weekday (fst e) = 6%Z) \/
  (snd e = "quarta" /\ weekday (fst e) = 2%Z).

(** The records an event leaves in the schedule: primary and two secondary
    on a Saturday, the primary alone on the other days. *)
Definition forma_do_dia (dia_semana : string) (d : date) (rs : list DiaconoEscala) : Prop :=
  if String.eqb dia_semana "sabado" then
    exists n o1 o2, rs = [registro n "chave" "sabado" d;
                          registro o1 "oferta" "sabado" d;
                          registro o2 "oferta" "sabado" d]
  else exists n, rs = [registro n "chave" dia_semana d].

(** What holds of the generator while the annual loop runs, when every date
    processed so far is before [b]. *)
Definition invariante (b : date) (g : GeradorEscalaDiaconos) : Prop :=
  (forall r, In r (escala_gerada g) -> exists d, data r = Some d /\ (d < b)%Z) /\
  (forall s, dict_in Z.eqb s (_chave_semanal g) = true ->
     (s < b)%Z /\
     exists n o1 o2,
       registros_da_data s (escala_gerada g) =
         [registro n "chave" "sabado" s; registro o1 "oferta" "sabado" s;
          registro o2 "oferta" "sabado" s] /\
       dict_get Z.eqb s (_chave_semanal g) = Ok n) /\
  (forall r d s m,
     In r (escala_gerada g) -> dia r <> "sabado" -> data r = Some d ->
     sabado_de d = Some s -> dict_get Z.eqb s (_chave_semanal g) = Ok m ->
     nome r = m).

(** [todas_datas] as the annual loop sees it, for the year [ano]. *)
Definition todas_datas_do_ano (ano : Z) : list (date * string) :=
  sort_por_data (juntar_datas (datas_do_ano ano)).

(** The date [d] lies in the year [ano]. *)
Definition no_ano (ano : Z) (d : date) : Prop :=
  (primeiro_dia ano <= d <= ultimo_dia ano)%Z.

(** The names that hold the primary role on the date [d]. *)
Definition chaves_da_data (d : date) (esc : list DiaconoEscala) : list string :=
  map nome (filter (fun r => String.eqb (funcao r) "chave") (registros_da_data d esc)).

(** The name of the first record of a returned schedule. *)
Definition primeiro_nome (r : resultado (list DiaconoEscala)) : option string :=
  match r with
  | Ok (x :: _) => Some (nome x)
  | _ => None
  end.

(** *** Tags and groups *)

(** The tags a record may carry. *)
Definition valido (r : DiaconoEscala) : Prop :=
  In (dia r) DIAS_ESCALA /\ In (funcao r) ["chave"; "oferta"].

(** The records of a schedule filed under the key [k], in schedule order. *)
Definition grupo (chave : DiaconoEscala -> string) (k : string)
    (esc : list DiaconoEscala) : list DiaconoEscala :=
  filter (fun r => String.eqb k (chave r)) esc.

(** *** The legacy week *)

(** A random source whose every raw number is zero: each draw returns the
    first candidate. *)
Definition fonte_nula (st : Estado) : Prop := forall k, fluxo (random st) k = 0%nat.

(** A record of the legacy week. *)
Definition registro_semanal (n f dia_semana : string) : DiaconoEscala :=
  {| nome := n; funcao := f; dia := dia_semana; data := None |}.

(** *** Examples *)

(** Concrete states used to run the model. *)
Definition estado_com_repetidos : Estado :=
  {| self := {| lista_diaconos := ["A"; "A"]; escala_gerada := [];
                _chaves_usadas := ["A"]; _chave_semanal := [] |};
     random := fluxo_zero |}.

Definition estado_exemplo : Estado :=
  novo_estado ["A"; "B"; "C"] (fluxo_de [0; 1; 2; 0; 4; 3; 2; 1; 5; 6; 7]%nat).

(* ================================================================== *)
(** ** The text rendering *)

(** The table of [_obter_nome_dia_semana]. *)
Definition nomes_dias_semana : dict Z string :=
  [(0, "segunda"); (1, "terca"); (2, "quarta"); (3, "quinta");
   (4, "sexta"); (5, "sabado"); (6, "domingo")]%Z.

(** [nomes.get(weekday, "")] *)
Definition _obter_nome_dia_semana (weekday : Z) : string :=
  match dict_get Z.eqb weekday nomes_dias_semana with
  | Ok n => n
  | Raise _ => ""
  end.

(** [s.upper()].  The source applies it to the day names of its own tables
    only, which are ASCII, so upper-casing the ASCII letters is all that is
    modelled. *)
Definition upper_ascii (c : Ascii.ascii) : Ascii.ascii :=
  let n := Ascii.nat_of_ascii c in
  if ((97 <=? n) && (n <=? 122))%nat then Ascii.ascii_of_nat (n - 32) else c.

Fixpoint upper (s : string) : string :=
  match s with
  | EmptyString => EmptyString
  | String c r => String (upper_ascii c) (upper r)
  end.

(** The newline character. *)
Definition nl : string := String (Ascii.ascii_of_nat 10) EmptyString.

Definition msg_nenhuma_escala : string := "Nenhuma escala gerada ainda.".

(** [f"  - {diacono.nome} ({diacono.funcao})"] *)
Definition linha_diacono (diacono : DiaconoEscala) : string :=
  ("  - " ++ nome diacono ++ " (" ++ funcao diacono ++ ")")%string.

(** [f"\n{dia.upper()}:"] *)
Definition cabecalho_dia (dia_semana : string) : string :=
  (nl ++ upper dia_semana ++ ":")%string.

(** [sorted(escala_por_data.keys())]: the keys of a dictionary are distinct,
    so any sort returns them in ascending order; insertion sort stands for
    Python's. *)
Fixpoint inserir_data (x : date) (l : list date) : list date :=
  match l with
  | [] => [x]
  | y :: r => if (x <=? y)%Z then x :: y :: r else y :: inserir_data x r
  end.

Definition sorted_datas (l : list date) : list date := fold_right inserir_data [] l.

(** The loop of [exibir_escala] that files the dated records under their
    dates; undated records are skipped. *)
Fixpoint agrupar_por_data (escala : list DiaconoEscala)
    (escala_por_data : dict date (list DiaconoEscala))
  : resultado (dict date (list DiaconoEscala)) :=
  match escala with
  | [] => Ok escala_por_data
  | diacono :: r =>
      match data diacono with
      | Some dt =>
          let escala_por_data :=
            if dict_in Z.eqb dt escala_por_data then escala_por_data
            else dict_set Z.eqb dt [] escala_por_data in
          match dict_append Z.eqb dt diacono escala_por_data with
          | Ok escala_por_data' => agrupar_por_data r escala_por_data'
          | Raise e => Raise e
          end
      | None => agrupar_por_data r escala_por_data
      end
  end.

Section Exibir.

(** [data.strftime('%d/%m/%Y')] is left to the date library: the rendering
    is modelled for any such formatter. *)
Variable strftime_dmy : date -> string.

(** [f"\n{data.strftime('%d/%m/%Y')} ({dia_semana.upper()}):"] *)
Definition cabecalho_data (d : date) : string :=
  (nl ++ strftime_dmy d ++ " (" ++ upper (_obter_nome_dia_semana (weekday d)) ++ "):")%string.

(** The loop over the sorted dates. *)
Fixpoint linhas_por_data (datas : list date)
    (escala_por_data : dict date (list DiaconoEscala)) : resultado (list string) :=
  match datas with
  | [] => Ok []
  | d :: r =>
      match dict_get Z.eqb d escala_por_data with
      | Ok grupo_da_data =>
          match linhas_por_data r escala_por_data with
          | Ok resto => Ok (cabecalho_data d :: map linha_diacono grupo_da_data ++ resto)
          | Raise e => Raise e
          end
      | Raise e => Raise e
      end
  end.

(** The loop over [DIAS_ESCALA] of the legacy format. *)
Fixpoint linhas_por_dia (dias : list string)
    (escala_por_dia : dict string (list DiaconoEscala)) : resultado (list string) :=
  match dias with
  | [] => Ok []
  | dia_semana :: r =>
      if dict_in String.eqb dia_semana escala_por_dia then
        match dict_get String.eqb dia_semana escala_por_dia with
        | Ok [] => linhas_por_dia r escala_por_dia
        | Ok grupo_do_dia =>
            match linhas_por_dia r escala_por_dia with
            | Ok resto =>
                Ok (cabecalho_dia dia_semana :: map linha_diacono grupo_do_dia ++ resto)
            | Raise e => Raise e
            end
        | Raise e => Raise e
        end
      else linhas_por_dia r escala_por_dia
  end.

Definition exibir_escala : M string :=
  g <- get_self ;;
  match escala_gerada g with
  | [] => ret msg_nenhuma_escala
  | primeiro :: _ =>
      resultado <-
        (match data primeiro with
         | Some _ =>
             escala_por_data <- lift (agrupar_por_data (escala_gerada g) []) ;;
             lift (linhas_por_data (sorted_datas (map fst escala_por_data)) escala_por_data)
         | None =>
             escala_por_dia <- obter_escala_por_dia ;;
             lift (linhas_por_dia DIAS_ESCALA escala_por_dia)
         end) ;;
      ret (String.concat nl resultado)
  end.

End Exibir.

(* ================================================================== *)
(** ** Vocabulary of the further properties *)

(** The names a generator holds are names of the roster [L]: the roster is
    [L], and so are drawn the names of the schedule and of the weekly map. *)
Definition nomes_da_lista (L : list string) (g : GeradorEscalaDiaconos) : Prop :=
  lista_diaconos g = L /\
  Forall (fun r => In (nome r) L) (escala_gerada g) /\
  (forall s m, dict_get Z.eqb s (_chave_semanal g) = Ok m -> In m L).

(** The method call [m] keeps [nomes_da_lista L] whatever its outcome, and
    what it returns satisfies [Q]. *)
Definition seguro {A} (L : list string) (Q : A -> Prop) (m : M A) : Prop :=
  forall st, nomes_da_lista L (self st) ->
    nomes_da_lista L (self (snd (m st))) /\
    match fst (m st) with
    | Ok a => Q a
    | Raise _ => True
    end.

(** The dates of the dated records of a schedule, in schedule order. *)
Definition datas_de (esc : list DiaconoEscala) : list date :=
  flat_map (fun r => match data r with Some d => [d] | None => [] end) esc.

(** Dates in non-decreasing order. *)
Fixpoint nao_decrescente (l : list date) : Prop :=
  match l with
  | [] => True
  | d :: r => Forall (fun d' => (d <= d')%Z) r /\ nao_decrescente r
  end.

(** The records an event of [todas_datas] appends. *)
Definition registros_do_evento (e : date * string) : nat :=
  if String.eqb (snd e) "sabado" then 3%nat else 1%nat.

(** The list holds at least [k] different names. *)
Definition pelo_menos (k : nat) (l : list string) : Prop :=
  exists xs, NoDup xs /\ incl xs l /\ (k <= List.length xs)%nat.

(** A generator that earlier calls have left with a schedule, a used list
    and a weekly map. *)
Definition estado_usado : Estado :=
  {| self := {| lista_diaconos := ["A"; "B"; "C"];
                escala_gerada := [registro_semanal "A" "chave" "domingo"];
                _chaves_usadas := ["B"];
                _chave_semanal := [(1%Z, "C")] |};
     random := random estado_exemplo |}.

(** The seven records of a complete legacy week, in schedule order. *)
Definition semana_completa (n1 n2 n3 n4 n5 n6 n7 : string) : list DiaconoEscala :=
  [registro_semanal n1 "chave" "domingo"; registro_semanal n2 "oferta" "domingo";
   registro_semanal n3 "chave" "quarta"; registro_semanal n4 "oferta" "quarta";
   registro_semanal n5 "chave" "sabado"; registro_semanal n6 "oferta" "sabado";
   registro_semanal n7 "oferta" "sabado"].

(** The list filed under the date [d] in a dictionary of the rendering,
    empty when [d] is no key. *)
Definition valor (d : date) (D : dict date (list DiaconoEscala)) : list DiaconoEscala :=
  match dict_get Z.eqb d D with
  | Ok g => g
  | Raise _ => []
  end.

(** The lines of one date in the dated rendering: the header of the date,
    then one line for each record of that date, in schedule order. *)
Definition bloco_da_data (strftime_dmy : date -> string) (esc : list DiaconoEscala)
    (d : date) : list string :=
  cabecalho_data strftime_dmy d :: map linha_diacono (registros_da_data d esc).

(** The lines of one day in the legacy rendering: nothing for a day without
    records, else the header of the day and one line for each record. *)
Definition bloco_do_dia (dia_semana : string) (g : list DiaconoEscala) : list string :=
  match g with
  | [] => []
  | _ => cabecalho_dia dia_semana :: map linha_diacono g
  end.

(** A formatter of dates for the examples. *)
Definition strftime_exemplo (d : date) : string := "dd/mm/aaaa".

(** A generator holding a schedule of dated records that are not in date
    order. *)
Definition estado_datado : Estado :=
  {| self := {| lista_diaconos := ["A"; "B"; "C"];
                escala_gerada := [registro "A" "chave" "quarta" 739620%Z;
                                  registro "B" "chave" "domingo" 739617%Z;
                                  registro "C" "oferta" "quarta" 739620%Z];
                _chaves_usadas := [];
                _chave_semanal := [] |};
     random := random estado_exemplo |}.

(** A generator holding a schedule whose first record is undated. *)
Definition estado_misto : Estado :=
  {| self := {| lista_diaconos := ["A"; "B"; "C"];
                escala_gerada := [registro_semanal "A" "chave" "sabado";
                                  registro "B" "chave" "domingo" 739617%Z;
                                  registro_semanal "C" "oferta" "sabado"];
                _chaves_usadas := [];
                _chave_semanal := [] |};
     random := random estado_exemplo |}.
(* ================================================================== *)
(** ** Basic facts about the primitives *)

Lemma bind_ok {A B} (m : M A) (f : A -> M B) st a st' :
  m st = (Ok a, st') -> bind m f st = f a st'.
Proof. intros H. unfold bind. now rewrite H. Qed.

Lemma bind_raise {A B} (m : M A) (f : A -> M B) st e st' :
  m st = (Raise e, st') -> bind m f st = (Raise e, st').
Proof. intros H. unfold bind. now rewrite H. Qed.

Lemma membro_In d l : membro d l = true <-> In d l.
Proof.
  unfold membro. rewrite existsb_exists. split.
  - intros [x [Hx He]]. apply String.eqb_eq in He. now subst.
  - intros H. exists d. split; [assumption | apply String.eqb_refl].
Qed.

Lemma nth_mod_In (l : list string) (k : nat) (d : string) :
  l <> [] -> In (nth (k mod List.length l) l d) l.
Proof.
  intros Hl. apply nth_In. apply Nat.mod_upper_bound.
  destruct l; [congruence | discriminate].
Qed.

(** A draw from a non-empty sequence succeeds, returns one of its members
    and only advances the random source. *)
Lemma random_choice_ok (seq : list string) st :
  seq <> [] ->
  exists n, In n seq /\
    random_choice seq st =
      (Ok n, {| self := self st; random := snd (randbelow (List.length seq) (random st)) |}).
Proof.
  intros Hs. destruct seq as [|d r]; [congruence|].
  unfold random_choice, randbelow.
  eexists. split; [|reflexivity].
  apply nth_mod_In. discriminate.
Qed.

Lemma _sortear_diacono_ok (pool : list string) st :
  pool <> [] ->
  exists n, In n pool /\
    _sortear_diacono pool st =
      (Ok n, {| self := self st; random := snd (randbelow (List.length pool) (random st)) |}).
Proof.
  intros Hp. destruct (random_choice_ok st Hp) as [n [Hn He]].
  exists n. split; [assumption|].
  destruct pool; [congruence | exact He].
Qed.

Lemma _sortear_diacono_vazio st :
  _sortear_diacono [] st = (Raise (ValueError msg_sem_disponiveis), st).
Proof. reflexivity. Qed.

(* ================================================================== *)
(** ** The circular rotation *)

Lemma filter_nil_incl (lista usadas : list string) :
  filter (fun d => negb (membro d usadas)) lista = [] -> incl lista usadas.
Proof.
  intros H x Hx. destruct (membro x usadas) eqn:E.
  - now apply membro_In.
  - assert (Hin : In x (filter (fun d => negb (membro d usadas)) lista)).
    { apply filter_In. split; [assumption|]. now rewrite E. }
    rewrite H in Hin. destruct Hin.
Qed.

Lemma _obter_proximo_chave_circular_spec st :
  lista_diaconos (self st) <> [] ->
  exists n base st',
    _obter_proximo_chave_circular st = (Ok n, st') /\
    In n (lista_diaconos (self st)) /\
    rodada (lista_diaconos (self st)) (_chaves_usadas (self st)) base n /\
    lista_diaconos (self st') = lista_diaconos (self st) /\
    escala_gerada (self st') = escala_gerada (self st) /\
    _chaves_usadas (self st') = base ++ [n] /\
    _chave_semanal (self st') = _chave_semanal (self st).
Proof.
  destruct st as [[l e u c] g]. cbn [self lista_diaconos escala_gerada _chaves_usadas _chave_semanal].
  intros Hl.
  unfold _obter_proximo_chave_circular, bind, get_self, set_chaves_usadas, ret.
  cbn [self lista_diaconos escala_gerada _chaves_usadas _chave_semanal random fst snd].
  destruct (List.length l <=? List.length u)%nat eqn:Hlen;
    cbn [self lista_diaconos escala_gerada _chaves_usadas _chave_semanal random fst snd].
  - (* todos ja foram usados: reinicia *)
    apply Nat.leb_le in Hlen.
    assert (Hf : filter (fun d => negb (membro d [])) l = l).
    { clear. induction l as [|x r IH]; [reflexivity|].
      change (x :: filter (fun d => negb (membro d [])) r = x :: r).
      now rewrite IH. }
    rewrite Hf. destruct l as [|d r] eqn:El; [congruence|]. rewrite <- El in *.
    cbn [self lista_diaconos escala_gerada _chaves_usadas _chave_semanal random].
    assert (Hne : l <> []) by (rewrite El; discriminate).
    destruct (random_choice_ok
                {| self := {| lista_diaconos := l; escala_gerada := e;
                              _chaves_usadas := []; _chave_semanal := c |};
                   random := g |} Hne) as [n [Hn He]].
    rewrite He. cbn.
    exists n, []. eexists. split; [reflexivity|].
    repeat split; try assumption. left. split; [assumption | reflexivity].
  - apply Nat.leb_gt in Hlen.
    destruct (filter (fun d => negb (membro d u)) l) as [|d r] eqn:Hf;
      cbn [self lista_diaconos escala_gerada _chaves_usadas _chave_semanal random].
    + (* nenhum disponivel: reinicia e usa a lista completa *)
      destruct (random_choice_ok
                  {| self := {| lista_diaconos := l; escala_gerada := e;
                                _chaves_usadas := []; _chave_semanal := c |};
                     random := g |} Hl) as [n [Hn He]].
      rewrite He. cbn.
      exists n, []. eexists. split; [reflexivity|].
      repeat split; try assumption.
      right; right. repeat split; try assumption. now apply filter_nil_incl.
    + assert (Hne : d :: r <> []) by discriminate.
      destruct (random_choice_ok
                  {| self := {| lista_diaconos := l; escala_gerada := e;
                                _chaves_usadas := u; _chave_semanal := c |};
                     random := g |} Hne) as [n [Hn He]].
      rewrite He. cbn.
      rewrite <- Hf in Hn. apply filter_In in Hn. destruct Hn as [Hn1 Hn2].
      exists n, u. eexists. split; [reflexivity|].
      repeat split; try assumption.
      right; left. repeat split; try assumption.
      intros Hin. apply membro_In in Hin. rewrite Hin in Hn2. discriminate.
Qed.

(** Picks inside a pass: while fewer names are used than the roster holds,
    each pick is a roster member not used yet and is appended to the used
    list. *)
Lemma sortear_chaves_dentro_do_passe (k : nat) : forall st,
  NoDup (lista_diaconos (self st)) ->
  NoDup (_chaves_usadas (self st)) ->
  incl (_chaves_usadas (self st)) (lista_diaconos (self st)) ->
  (List.length (_chaves_usadas (self st)) + k <= List.length (lista_diaconos (self st)))%nat ->
  exists nomes st',
    sortear_chaves k st = (Ok nomes, st') /\
    List.length nomes = k /\
    lista_diaconos (self st') = lista_diaconos (self st) /\
    _chaves_usadas (self st') = _chaves_usadas (self st) ++ nomes /\
    NoDup (_chaves_usadas (self st')) /\
    incl (_chaves_usadas (self st')) (lista_diaconos (self st)).
Proof.
  induction k as [|k IH]; intros st Hnd Hu Hi Hlen.
  - exists [], st. cbn. rewrite app_nil_r. repeat split; assumption.
  - assert (Hl : lista_diaconos (self st) <> []).
    { intros E. rewrite E in Hlen. cbn in Hlen. lia. }
    destruct (_obter_proximo_chave_circular_spec st Hl)
      as (n & base & st1 & He & Hn & Hr & Hl1 & _ & Hu1 & _).
    assert (Hb : base = _chaves_usadas (self st) /\ ~ In n (_chaves_usadas (self st))).
    { destruct Hr as [[H _] | [(_ & H1 & H2) | (H & _ & H3)]].
      - lia.
      - now split.
      - apply (NoDup_incl_length Hnd) in H3. lia. }
    destruct Hb as [-> Hnin].
    assert (Hnd1 : NoDup (_chaves_usadas (self st1))).
    { rewrite Hu1. apply NoDup_app; [assumption | repeat constructor; intros [] | ].
      intros x Hx [Hx' | []]. subst. contradiction. }
    assert (Hi1 : incl (_chaves_usadas (self st1)) (lista_diaconos (self st1))).
    { rewrite Hu1, Hl1. apply incl_app; [assumption|]. intros x [<- | []]. assumption. }
    destruct (IH st1) as (nomes & st' & He' & Hlen' & Hl' & Hu' & Hnd' & Hi').
    + now rewrite Hl1.
    + assumption.
    + assumption.
    + rewrite Hu1, Hl1, length_app. cbn. lia.
    + exists (n :: nomes), st'.
      cbn [sortear_chaves]. rewrite (bind_ok _ _ _ He). rewrite (bind_ok _ _ _ He').
      unfold ret. repeat split.
      * cbn. now rewrite Hlen'.
      * congruence.
      * rewrite Hu', Hu1, <- app_assoc. reflexivity.
      * assumption.
      * now rewrite <- Hl1.
Qed.

(** One full pass: from the start of a pass, as many picks as the roster
    has names return a permutation of the roster and stop at the start of
    the next pass. *)
Lemma sortear_chaves_passe st :
  NoDup (lista_diaconos (self st)) ->
  lista_diaconos (self st) <> [] ->
  inicio_de_passe (self st) ->
  exists nomes st',
    sortear_chaves (List.length (lista_diaconos (self st))) st = (Ok nomes, st') /\
    List.length nomes = List.length (lista_diaconos (self st)) /\
    Permutation nomes (lista_diaconos (self st)) /\
    lista_diaconos (self st') = lista_diaconos (self st) /\
    inicio_de_passe (self st').
Proof.
  intros Hnd Hl Hini.
  destruct (lista_diaconos (self st)) as [|d0 r0] eqn:El; [congruence|].
  rewrite <- El in *.
  assert (Hlen : List.length (lista_diaconos (self st)) = S (List.length r0))
    by (rewrite El; reflexivity).
  rewrite Hlen.
  destruct (_obter_proximo_chave_circular_spec st Hl)
    as (n & base & st1 & He & Hn & Hr & Hl1 & _ & Hu1 & _).
  assert (Hb : base = []).
  { destruct Hr as [[_ H] | [(Hlt & H1 & _) | (_ & H & _)]]; try assumption.
    destruct Hini as [H | H]; [congruence | lia]. }
  subst base. cbn in Hu1.
  destruct (@sortear_chaves_dentro_do_passe (List.length r0) st1)
    as (nomes & st' & He' & Hlen' & Hl' & Hu' & Hnd' & Hi').
  - now rewrite Hl1.
  - rewrite Hu1. repeat constructor. intros [].
  - rewrite Hu1, Hl1. intros x [<- | []]. assumption.
  - rewrite Hu1, Hl1, Hlen. cbn. lia.
  - exists (n :: nomes), st'.
    cbn [sortear_chaves]. rewrite (bind_ok _ _ _ He). rewrite (bind_ok _ _ _ He').
    unfold ret. rewrite Hu1 in Hu'. cbn in Hu'. rewrite Hu' in *.
    assert (Hlen2 : List.length (n :: nomes) = List.length (lista_diaconos (self st)))
      by (cbn; lia).
    repeat split.
    + cbn. now rewrite Hlen'.
    + apply NoDup_Permutation_bis; [assumption | lia | now rewrite <- Hl1].
    + congruence.
    + right. rewrite Hu', Hl', Hl1. lia.
Qed.

Lemma sortear_chaves_soma (a b : nat) st na sta nb stb :
  sortear_chaves a st = (Ok na, sta) ->
  sortear_chaves b sta = (Ok nb, stb) ->
  sortear_chaves (a + b) st = (Ok (na ++ nb), stb).
Proof.
  revert st na. induction a as [|a IH]; intros st na Ha Hb.
  - cbn in Ha. unfold ret in Ha. injection Ha as <- <-. exact Hb.
  - cbn [sortear_chaves Nat.add] in *. unfold bind in *.
    destruct (_obter_proximo_chave_circular st) as [[n|e] s1]; [|discriminate].
    destruct (sortear_chaves a s1) as [[r|e] s2] eqn:Er; [|discriminate].
    unfold ret in Ha. injection Ha as <- <-.
    rewrite (IH _ _ Er Hb). reflexivity.
Qed.

(** Pass after pass: the picks of any number of full passes, cut at the pass
    boundaries, are permutations of the roster. *)
Lemma sortear_chaves_passes (j : nat) : forall st,
  NoDup (lista_diaconos (self st)) ->
  lista_diaconos (self st) <> [] ->
  inicio_de_passe (self st) ->
  exists nomes st',
    sortear_chaves (j * List.length (lista_diaconos (self st))) st = (Ok nomes, st') /\
    forall p, (p < j)%nat ->
      Permutation
        (janela (p * List.length (lista_diaconos (self st)))
                (List.length (lista_diaconos (self st))) nomes)
        (lista_diaconos (self st)).
Proof.
  induction j as [|j IH]; intros st Hnd Hl Hini.
  - exists [], st. split; [reflexivity | intros p Hp; lia].
  - destruct (sortear_chaves_passe st Hnd Hl Hini)
      as (n1 & st1 & He1 & Hlen1 & Hp1 & Hl1 & Hini1).
    destruct (IH st1) as (n2 & st2 & He2 & Hp2); try (rewrite Hl1; assumption); try assumption.
    rewrite Hl1 in *.
    exists (n1 ++ n2), st2. split.
    + change (S j * List.length (lista_diaconos (self st)))%nat
        with (List.length (lista_diaconos (self st)) + j * List.length (lista_diaconos (self st)))%nat.
      now apply sortear_chaves_soma with (sta := st1).
    + intros [|p] Hp; unfold janela.
      * cbn [Nat.mul skipn]. rewrite <- Hlen1, firstn_app, firstn_all, Nat.sub_diag.
        cbn. rewrite app_nil_r. assumption.
      * change (S p * List.length (lista_diaconos (self st)))%nat
          with (List.length (lista_diaconos (self st)) + p * List.length (lista_diaconos (self st)))%nat.
        rewrite skipn_app, (skipn_all2 n1) by lia. cbn [app].
        replace (List.length (lista_diaconos (self st))
                 + p * List.length (lista_diaconos (self st)) - List.length n1)%nat
          with (p * List.length (lista_diaconos (self st)))%nat by lia.
        apply Hp2. lia.
Qed.

(* ================================================================== *)
(** ** Legacy weekly mode *)

Lemma escala_append_spec (r : DiaconoEscala) st :
  escala_append r st =
    (Ok tt, {| self := {| lista_diaconos := lista_diaconos (self st);
                          escala_gerada := escala_gerada (self st) ++ [r];
                          _chaves_usadas := _chaves_usadas (self st);
                          _chave_semanal := _chave_semanal (self st) |};
               random := random st |}).
Proof. reflexivity. Qed.

Lemma list_remove_ok (x : string) (l : list string) :
  In x l -> exists l', list_remove x l = Ok l'.
Proof.
  induction l as [|y r IH]; intros Hin; [destruct Hin|].
  cbn. destruct (String.eqb y x) eqn:E.
  - now exists r.
  - destruct Hin as [-> | Hin]; [rewrite String.eqb_refl in E; discriminate|].
    destruct (IH Hin) as [l' ->]. now exists (y :: l').
Qed.

Lemma _remover_diacono_In (l : list string) (n x : string) :
  In x (_remover_diacono l n) <-> In x l /\ x <> n.
Proof.
  unfold _remover_diacono. rewrite filter_In. split; intros [H1 H2]; split; try assumption.
  - intros ->. rewrite String.eqb_refl in H2. discriminate.
  - apply Bool.negb_true_iff. now apply String.eqb_neq.
Qed.

Lemma _remover_diacono_NoDup (l : list string) (n : string) :
  NoDup l -> NoDup (_remover_diacono l n).
Proof. apply NoDup_filter. Qed.

(** Removing a name from a list of distinct names drops at most one entry. *)
Lemma _remover_diacono_length (l : list string) (n : string) :
  NoDup l -> (List.length l <= S (List.length (_remover_diacono l n)))%nat.
Proof.
  induction 1 as [|y r Hy Hnd IH]; [cbn; lia|].
  unfold _remover_diacono in *. cbn [filter].
  destruct (String.eqb y n) eqn:E; cbn [negb List.length].
  - apply String.eqb_eq in E. subst y.
    assert (Hf : filter (fun d => negb (String.eqb d n)) r = r).
    { clear IH Hnd. induction r as [|z r IHr]; [reflexivity|].
      cbn [filter]. destruct (String.eqb z n) eqn:Ez.
      - apply String.eqb_eq in Ez. subst z. exfalso. apply Hy. now left.
      - cbn [negb]. f_equal. apply IHr. intros H. apply Hy. now right. }
    rewrite Hf. lia.
  - lia.
Qed.

Ltac registros_ok :=
  repeat (apply Forall_cons || apply Forall_nil);
  cbn [nome dia data funcao In]; intuition auto.

(** What one legacy Sunday or Wednesday does, whatever its outcome: it
    appends the records [novos], drawn from [pool], and either succeeds with
    two of them or stops at the second draw with one. *)
Lemma _adicionar_escala_dia_spec (d : string) (pool : list string) (ev : bool) st :
  pool <> [] ->
  exists r st' novos,
    _adicionar_escala_dia d pool ev st = (r, st') /\
    lista_diaconos (self st') = lista_diaconos (self st) /\
    escala_gerada (self st') = escala_gerada (self st) ++ novos /\
    Forall (fun x => In (nome x) pool /\ dia x = d /\ data x = None /\
                     In (funcao x) ["chave"; "oferta"]) novos /\
    ((r = Ok tt /\ List.length novos = 2%nat) \/
     (r = Raise (ValueError msg_sem_disponiveis) /\ List.length novos = 1%nat /\ ev = true)) /\
    (NoDup pool -> (2 <= List.length pool)%nat -> r = Ok tt) /\
    (ev = true -> r = Ok tt -> exists a b, map nome novos = [a; b] /\ a <> b).
Proof.
  intros Hp. unfold _adicionar_escala_dia.
  destruct (_sortear_diacono_ok st Hp) as [n1 [Hn1 He1]].
  rewrite (bind_ok _ _ _ He1).
  rewrite (bind_ok _ _ _ (escala_append_spec _ _)).
  cbn [self lista_diaconos escala_gerada _chaves_usadas _chave_semanal random].
  destruct ev.
  - destruct (_remover_diacono pool n1) as [|y q] eqn:Ep.
    + rewrite (bind_raise _ _ _ (_sortear_diacono_vazio _)).
      do 3 eexists. split; [reflexivity|].
      cbn [self lista_diaconos escala_gerada fst snd]. split; [reflexivity|].
      split; [reflexivity|]. split; [|split; [|split]].
      * registros_ok.
      * right. repeat split.
      * intros Hnd Hlen. pose proof (_remover_diacono_length n1 Hnd) as H.
        rewrite Ep in H. cbn in H. lia.
      * intros _ H. discriminate.
    + assert (Hq : y :: q <> []) by discriminate.
      match goal with |- context [bind (_sortear_diacono (y :: q)) _ ?s] =>
        destruct (_sortear_diacono_ok s Hq) as [n2 [Hn2 He2]] end.
      rewrite (bind_ok _ _ _ He2).
      rewrite (bind_ok _ _ _ (escala_append_spec _ _)).
      cbn [self lista_diaconos escala_gerada _chaves_usadas _chave_semanal random].
      destruct (list_remove_ok _ _ Hn2) as [l' Hl'].
      unfold bind at 1, lift. rewrite Hl'. unfold ret.
      rewrite <- Ep in Hn2. apply _remover_diacono_In in Hn2. destruct Hn2 as [Hn2 Hne].
      do 3 eexists. split; [reflexivity|].
      cbn [self lista_diaconos escala_gerada fst snd]. split; [reflexivity|].
      split; [rewrite <- app_assoc; reflexivity|]. split; [|split; [|split]].
      * registros_ok.
      * left. split; reflexivity.
      * reflexivity.
      * intros _ _. exists n1, n2. split; [reflexivity|]. congruence.
  - match goal with |- context [bind (_sortear_diacono pool) _ ?s] =>
      destruct (_sortear_diacono_ok s Hp) as [n2 [Hn2 He2]] end.
    rewrite (bind_ok _ _ _ He2).
    rewrite (bind_ok _ _ _ (escala_append_spec _ _)).
    cbn [self lista_diaconos escala_gerada _chaves_usadas _chave_semanal random].
    unfold ret.
    do 3 eexists. split; [reflexivity|].
    cbn [self lista_diaconos escala_gerada fst snd]. split; [reflexivity|].
    split; [rewrite <- app_assoc; reflexivity|]. split; [|split; [|split]].
    * registros_ok.
    * left. split; reflexivity.
    * reflexivity.
    * intros H. discriminate.
Qed.

(** The two secondary draws of a legacy Saturday. *)
Lemma laco_ofertas_sabado_spec (ev : bool) (k : nat) : forall (pool : list string) st,
  (ev = false -> pool <> []) ->
  exists r st' novos,
    laco_ofertas_sabado k pool ev st = (r, st') /\
    lista_diaconos (self st') = lista_diaconos (self st) /\
    escala_gerada (self st') = escala_gerada (self st) ++ novos /\
    Forall (fun x => In (nome x) pool /\ dia x = "sabado" /\ data x = None /\
                     In (funcao x) ["chave"; "oferta"]) novos /\
    ((r = Ok tt /\ List.length novos = k) \/
     (r = Raise (ValueError msg_sem_disponiveis) /\ (List.length novos < k)%nat /\ ev = true)) /\
    (NoDup pool -> (k <= List.length pool)%nat -> r = Ok tt).
Proof.
  induction k as [|k IH]; intros pool st Hev.
  - exists (Ok tt), st, []. cbn. rewrite app_nil_r. repeat split; auto.
  - cbn [laco_ofertas_sabado].
    destruct pool as [|y q] eqn:Ep.
    + rewrite (bind_raise _ _ _ (_sortear_diacono_vazio _)).
      exists (Raise (ValueError msg_sem_disponiveis)), st, [].
      rewrite app_nil_r. repeat split; auto.
      * right. repeat split; [cbn; lia|].
        destruct ev; [reflexivity|]. exfalso. now apply Hev.
      * intros _ H. cbn in H. lia.
    + rewrite <- Ep in *. assert (Hp : pool <> []) by (rewrite Ep; discriminate).
      destruct (_sortear_diacono_ok st Hp) as [n1 [Hn1 He1]].
      rewrite (bind_ok _ _ _ He1).
      rewrite (bind_ok _ _ _ (escala_append_spec _ _)).
      cbn [self lista_diaconos escala_gerada _chaves_usadas _chave_semanal random].
      match goal with |- context [laco_ofertas_sabado k ?p ev ?s] =>
        destruct (IH p s) as (r & st' & novos & He & Hl & Hesc & Hall & Hres & Hok) end.
      { intros ->. assumption. }
      cbn [self lista_diaconos escala_gerada] in Hl, Hesc.
      exists r, st'. eexists. split; [exact He|]. split; [exact Hl|].
      split; [rewrite Hesc, <- app_assoc; reflexivity|].
      split; [|split].
      * apply Forall_app. split; [registros_ok|].
        eapply Forall_impl; [|exact Hall]. cbn beta.
        intros x (Hx & H2 & H3 & H4). repeat split; try assumption.
        destruct ev; [|assumption]. now apply _remover_diacono_In in Hx.
      * rewrite length_app, Nat.add_comm. cbn [List.length Nat.add].
        destruct Hres as [[-> Hlen] | (-> & Hlen & Hev')].
        -- left. split; [reflexivity | lia].
        -- right. repeat split; [lia | assumption].
      * intros Hnd Hlen. apply Hok.
        -- destruct ev; [now apply _remover_diacono_NoDup | assumption].
        -- destruct ev; [|lia].
           pose proof (_remover_diacono_length n1 Hnd). lia.
Qed.

(** What a legacy Saturday does, whatever its outcome. *)
Lemma _adicionar_escala_sabado_spec (pool : list string) (ev : bool) st :
  pool <> [] ->
  exists r st' novos,
    _adicionar_escala_sabado pool ev st = (r, st') /\
    lista_diaconos (self st') = lista_diaconos (self st) /\
    escala_gerada (self st') = escala_gerada (self st) ++ novos /\
    Forall (fun x => In (nome x) pool /\ dia x = "sabado" /\ data x = None /\
                     In (funcao x) ["chave"; "oferta"]) novos /\
    ((r = Ok tt /\ List.length novos = 3%nat) \/
     (r = Raise (ValueError msg_sem_disponiveis) /\
      (1 <= List.length novos <= 2)%nat /\ ev = true)) /\
    (NoDup pool -> (3 <= List.length pool)%nat -> r = Ok tt).
Proof.
  intros Hp. unfold _adicionar_escala_sabado.
  destruct (_sortear_diacono_ok st Hp) as [n1 [Hn1 He1]].
  rewrite (bind_ok _ _ _ He1).
  rewrite (bind_ok _ _ _ (escala_append_spec _ _)).
  cbn [self lista_diaconos escala_gerada _chaves_usadas _chave_semanal random].
  match goal with |- context [laco_ofertas_sabado 2 ?p ev ?s] =>
    destruct (@laco_ofertas_sabado_spec ev 2 p s)
      as (r & st' & novos & He & Hl & Hesc & Hall & Hres & Hok) end.
  { intros ->. assumption. }
  cbn [self lista_diaconos escala_gerada] in Hl, Hesc.
  exists r, st'. eexists. split; [exact He|]. split; [exact Hl|].
  split; [rewrite Hesc, <- app_assoc; reflexivity|].
  split; [|split].
  - apply Forall_app. split; [registros_ok|].
    eapply Forall_impl; [|exact Hall]. cbn beta.
    intros x (Hx & H2 & H3 & H4). repeat split; try assumption.
    destruct ev; [|assumption]. now apply _remover_diacono_In in Hx.
  - rewrite length_app, Nat.add_comm. cbn [List.length Nat.add].
    destruct Hres as [[-> Hlen] | (-> & Hlen & Hev')].
    + left. split; [reflexivity | lia].
    + right. repeat split; [lia | lia | assumption].
  - intros Hnd Hlen. apply Hok.
    + destruct ev; [now apply _remover_diacono_NoDup | assumption].
    + destruct ev; [|lia].
      pose proof (_remover_diacono_length n1 Hnd). lia.
Qed.

(** The legacy week as a whole: it restarts the schedule and either returns
    seven records or stops at an empty pool with the records appended so far
    still in [escala_gerada]. *)
Lemma gerar_escala_semanal_spec (ev : bool) st :
  lista_diaconos (self st) <> [] ->
  exists r st',
    gerar_escala_semanal ev st = (r, st') /\
    lista_diaconos (self st') = lista_diaconos (self st) /\
    Forall (fun x => In (nome x) (lista_diaconos (self st)) /\
                     In (dia x) DIAS_ESCALA /\ data x = None /\
                     In (funcao x) ["chave"; "oferta"])
           (escala_gerada (self st')) /\
    ((r = Ok (escala_gerada (self st')) /\ List.length (escala_gerada (self st')) = 7%nat) \/
     (r = Raise (ValueError msg_sem_disponiveis) /\ ev = true /\
      (1 <= List.length (escala_gerada (self st')) <= 6)%nat)) /\
    (NoDup (lista_diaconos (self st)) ->
     (3 <= List.length (lista_diaconos (self st)))%nat ->
     r = Ok (escala_gerada (self st'))).
Proof.
  intros Hp. unfold gerar_escala_semanal.
  unfold bind at 1, set_escala_gerada at 1.
  unfold bind at 1, set_chaves_usadas at 1.
  unfold bind at 1, get_self at 1.
  cbn [self lista_diaconos escala_gerada _chaves_usadas _chave_semanal random].
  set (pool := lista_diaconos (self st)) in *.
  match goal with |- context [bind (_adicionar_escala_dia "domingo" pool ev) _ ?s] =>
    destruct (@_adicionar_escala_dia_spec "domingo" pool ev s Hp)
      as (r1 & st1 & n1 & He1 & Hl1 & Hesc1 & Hall1 & Hres1 & Hok1 & _) end.
  cbn [self lista_diaconos escala_gerada app] in Hl1, Hesc1.
  assert (Hw : forall d (l : list DiaconoEscala),
             In d DIAS_ESCALA ->
             Forall (fun x => In (nome x) pool /\ dia x = d /\ data x = None /\
                              In (funcao x) ["chave"; "oferta"]) l ->
             Forall (fun x => In (nome x) pool /\ In (dia x) DIAS_ESCALA /\ data x = None /\
                              In (funcao x) ["chave"; "oferta"]) l).
  { intros d l Hd H. eapply Forall_impl; [|exact H]. cbn beta.
    intros x (H1 & H2 & H3 & H4). rewrite H2. auto. }
  assert (Hd1 : In "domingo" DIAS_ESCALA) by (cbn; auto).
  assert (Hd2 : In "quarta" DIAS_ESCALA) by (cbn; auto).
  assert (Hd3 : In "sabado" DIAS_ESCALA) by (cbn; auto).
  destruct Hres1 as [[-> Hlen1] | (-> & Hlen1 & Hev1)].
  2:{ rewrite (bind_raise _ _ _ He1). exists (Raise (ValueError msg_sem_disponiveis)), st1.
      rewrite Hesc1. repeat split; eauto.
      - right. repeat split; auto; lia.
      - intros Hnd Hlen. specialize (Hok1 Hnd). discriminate Hok1. lia. }
  rewrite (bind_ok _ _ _ He1).
  destruct (@_adicionar_escala_dia_spec "quarta" pool ev st1 Hp)
      as (r2 & st2 & n2 & He2 & Hl2 & Hesc2 & Hall2 & Hres2 & Hok2 & _).
  rewrite Hesc1 in Hesc2. rewrite Hl1 in Hl2.
  destruct Hres2 as [[-> Hlen2] | (-> & Hlen2 & Hev2)].
  2:{ rewrite (bind_raise _ _ _ He2). exists (Raise (ValueError msg_sem_disponiveis)), st2.
      rewrite Hesc2. repeat split; eauto.
      - apply Forall_app; split; eauto.
      - right. rewrite length_app. repeat split; auto; lia.
      - intros Hnd Hlen. specialize (Hok2 Hnd). discriminate Hok2. lia. }
  rewrite (bind_ok _ _ _ He2).
  destruct (@_adicionar_escala_sabado_spec pool ev st2 Hp)
      as (r3 & st3 & n3 & He3 & Hl3 & Hesc3 & Hall3 & Hres3 & Hok3).
  rewrite Hesc2 in Hesc3. rewrite Hl2 in Hl3.
  assert (Hall : Forall (fun x => In (nome x) pool /\ In (dia x) DIAS_ESCALA /\
                                  data x = None /\ In (funcao x) ["chave"; "oferta"])
                        (escala_gerada (self st3))).
  { rewrite Hesc3. repeat (apply Forall_app; split); eauto. }
  destruct Hres3 as [[-> Hlen3] | (-> & Hlen3 & Hev3)].
  2:{ rewrite (bind_raise _ _ _ He3). exists (Raise (ValueError msg_sem_disponiveis)), st3.
      repeat split; eauto.
      - right. rewrite Hesc3, !length_app. repeat split; auto; lia.
      - intros Hnd Hlen. specialize (Hok3 Hnd). discriminate Hok3. lia. }
  rewrite (bind_ok _ _ _ He3).
  unfold bind, get_self, ret.
  exists (Ok (escala_gerada (self st3))), st3.
  repeat split; eauto.
  left. split; [reflexivity|]. rewrite Hesc3, !length_app. lia.
Qed.

(* ================================================================== *)
(** ** The calendar *)

Lemma mk_date_primeiro (ano : Z) :
  (1 <= ano <= 9999)%Z -> mk_date ano 1 1 = Ok (primeiro_dia ano).
Proof.
  intros H. unfold mk_date, MINYEAR, MAXYEAR.
  replace (1 <=? ano)%Z with true by (symmetry; apply Z.leb_le; lia).
  replace (ano <=? 9999)%Z with true by (symmetry; apply Z.leb_le; lia).
  change (days_in_month ano 1) with 31%Z.
  change (days_before_month ano 1) with 0%Z.
  cbn [andb negb Z.leb Z.compare Pos.compare Pos.compare_cont].
  unfold primeiro_dia. apply (f_equal (@Ok Z)). lia.
Qed.

Lemma mk_date_ultimo (ano : Z) :
  (1 <= ano <= 9999)%Z -> mk_date ano 12 31 = Ok (ultimo_dia ano).
Proof.
  intros H. unfold mk_date, MINYEAR, MAXYEAR.
  replace (1 <=? ano)%Z with true by (symmetry; apply Z.leb_le; lia).
  replace (ano <=? 9999)%Z with true by (symmetry; apply Z.leb_le; lia).
  change (days_in_month ano 12) with 31%Z.
  change (days_before_month ano 12)
    with (334 + (if is_leap ano then 1 else 0))%Z.
  cbn [andb negb Z.leb Z.compare Pos.compare Pos.compare_cont].
  unfold ultimo_dia, primeiro_dia, dias_do_ano. apply (f_equal (@Ok Z)).
  destruct (is_leap ano); lia.
Qed.

Lemma mk_date_fora (ano m d : Z) :
  ~ (1 <= ano <= 9999)%Z -> mk_date ano m d = Raise (ValueError "year is out of range").
Proof.
  intros H. unfold mk_date, MINYEAR, MAXYEAR.
  destruct (Z.leb_spec 1 ano); destruct (Z.leb_spec ano 9999); try reflexivity. lia.
Qed.

Lemma primeiro_dia_limites (ano : Z) :
  (1 <= ano <= 9998)%Z ->
  (0 < primeiro_dia ano /\ ultimo_dia ano < MAXORDINAL)%Z.
Proof.
  intros H. unfold ultimo_dia, primeiro_dia, days_before_year, dias_do_ano, MAXORDINAL.
  cbv zeta.
  assert (H4 : (0 <= (ano - 1) / 4 <= 9997 / 4)%Z)
    by (split; [apply Z.div_pos | apply Z.div_le_mono]; lia).
  assert (H100 : (0 <= (ano - 1) / 100 <= (ano - 1) / 4)%Z).
  { split; [apply Z.div_pos; lia|]. apply Z.div_le_compat_l; lia. }
  assert (H400 : (0 <= (ano - 1) / 400 <= 9997 / 400)%Z)
    by (split; [apply Z.div_pos | apply Z.div_le_mono]; lia).
  change (9997 / 4)%Z with 2499%Z in H4. change (9997 / 400)%Z with 24%Z in H400.
  destruct (is_leap ano); lia.
Qed.

Lemma primeiro_dia_ano2 (ano : Z) : (2 <= ano)%Z -> (366 <= primeiro_dia ano)%Z.
Proof.
  intros H. unfold primeiro_dia, days_before_year. cbv zeta.
  assert (H4 : (0 <= (ano - 1) / 4)%Z) by (apply Z.div_pos; lia).
  assert (H100 : ((ano - 1) / 100 <= (ano - 1) / 4)%Z)
    by (apply Z.div_le_compat_l; lia).
  assert (H400 : (0 <= (ano - 1) / 400)%Z) by (apply Z.div_pos; lia).
  lia.
Qed.

Lemma add_days_ok (d n : Z) :
  (0 < d + n <= MAXORDINAL)%Z -> add_days d n = Ok (d + n)%Z.
Proof.
  intros H. unfold add_days.
  destruct (Z.ltb_spec 0 (d + n)); [|lia].
  destruct (Z.leb_spec (d + n) MAXORDINAL); [reflexivity | lia].
Qed.

Lemma In_dias_desde (n : nat) : forall ini d,
  In d (dias_desde ini n) <-> (ini <= d < ini + Z.of_nat n)%Z.
Proof.
  induction n as [|n IH]; intros ini d.
  - cbn. lia.
  - cbn [dias_desde In]. rewrite IH. lia.
Qed.

Lemma crescente_dias_desde (n : nat) : forall ini, crescente (dias_desde ini n).
Proof.
  induction n as [|n IH]; intros ini; cbn [dias_desde crescente]; [exact I|].
  split; [|apply IH]. apply Forall_forall. intros d Hd.
  apply In_dias_desde in Hd. lia.
Qed.

Lemma crescente_filter (f : date -> bool) (l : list date) :
  crescente l -> crescente (filter f l).
Proof.
  induction l as [|d r IH]; [trivial|]. intros [Hd Hr]. cbn [filter].
  destruct (f d); [|now apply IH].
  split; [|now apply IH].
  apply Forall_forall. intros x Hx. apply filter_In in Hx.
  rewrite Forall_forall in Hd. now apply Hd.
Qed.

Lemma In_no_dia_da_semana (w : Z) (l : list date) (d : date) :
  In d (no_dia_da_semana w l) <-> In d l /\ weekday d = w.
Proof. unfold no_dia_da_semana. rewrite filter_In, Z.eqb_eq. reflexivity. Qed.

(** The loop of [_calcular_datas_ano] visits the [n] dates up to [data_fim],
    files each under its weekday and changes nothing else, provided the day
    after [data_fim] is still a date. *)
Lemma laco_datas_spec (n : nat) : forall fuel atual dom qua sab st,
  (n < fuel)%nat ->
  (0 < atual)%Z ->
  (atual + Z.of_nat n <= MAXORDINAL)%Z ->
  laco_datas fuel atual (atual + Z.of_nat n - 1)%Z
    [("domingo", dom); ("quarta", qua); ("sabado", sab)] st =
  (Ok [("domingo", dom ++ no_dia_da_semana 6 (dias_desde atual n));
       ("quarta", qua ++ no_dia_da_semana 2 (dias_desde atual n));
       ("sabado", sab ++ no_dia_da_semana 5 (dias_desde atual n))], st).
Proof.
  induction n as [|n IH]; intros fuel atual dom qua sab st Hf Hpos Hmax;
    (destruct fuel as [|fuel]; [lia|]); cbn [laco_datas].
  - destruct (Z.leb_spec atual (atual + Z.of_nat 0 - 1)); [lia|].
    cbn. rewrite !app_nil_r. reflexivity.
  - destruct (Z.leb_spec atual (atual + Z.of_nat (S n) - 1)); [|lia].
    replace (atual + Z.of_nat (S n) - 1)%Z with ((atual + 1) + Z.of_nat n - 1)%Z by lia.
    assert (Hadd : add_days atual 1 = Ok (atual + 1)%Z) by (apply add_days_ok; lia).
    cbn [dias_desde]. unfold no_dia_da_semana. cbn [filter].
    unfold bind at 1. unfold bind at 1, lift at 1.
    cbn [dict_get MAPA_DIAS_SEMANA String.eqb Ascii.eqb Bool.eqb].
    destruct (Z.eqb_spec (weekday atual) 6) as [E6|E6].
    + unfold lift at 1. cbn [dict_append String.eqb Ascii.eqb Bool.eqb].
      unfold bind at 1, lift at 1. rewrite Hadd.
      rewrite IH by lia. unfold no_dia_da_semana. try rewrite E6. cbn [Z.eqb Pos.eqb].
      rewrite <- !app_assoc. reflexivity.
    + unfold bind at 1, lift at 1.
      cbn [dict_get MAPA_DIAS_SEMANA String.eqb Ascii.eqb Bool.eqb].
      destruct (Z.eqb_spec (weekday atual) 2) as [E2|E2].
      * unfold lift at 1. cbn [dict_append String.eqb Ascii.eqb Bool.eqb].
        unfold bind at 1, lift at 1. rewrite Hadd.
        rewrite IH by lia. unfold no_dia_da_semana. try rewrite E2. cbn [Z.eqb Pos.eqb].
        rewrite <- !app_assoc. reflexivity.
      * unfold bind at 1, lift at 1.
        cbn [dict_get MAPA_DIAS_SEMANA String.eqb Ascii.eqb Bool.eqb].
        destruct (Z.eqb_spec (weekday atual) 5) as [E5|E5].
        -- unfold lift at 1. cbn [dict_append String.eqb Ascii.eqb Bool.eqb].
           unfold bind at 1, lift at 1. rewrite Hadd.
           rewrite IH by lia. unfold no_dia_da_semana. try rewrite E5. cbn [Z.eqb Pos.eqb].
           rewrite <- !app_assoc. reflexivity.
        -- unfold ret at 1.
           unfold bind at 1, lift at 1. rewrite Hadd.
           rewrite IH by lia. reflexivity.
Qed.

(** [_calcular_datas_ano] on the years 1 to 9998: it returns the Sundays,
    Wednesdays and Saturdays of the year and leaves the state as it was. *)
Lemma _calcular_datas_ano_spec (ano : Z) st :
  (1 <= ano <= 9998)%Z ->
  _calcular_datas_ano ano st = (Ok (datas_do_ano ano), st).
Proof.
  intros H. unfold _calcular_datas_ano.
  unfold bind at 1, lift at 1. rewrite mk_date_primeiro by lia.
  unfold bind at 1, lift at 1. rewrite mk_date_ultimo by lia.
  pose proof (primeiro_dia_limites H) as [Hp Hu].
  unfold ultimo_dia in *. unfold datas_vazias.
  rewrite laco_datas_spec.
  - reflexivity.
  - unfold combustivel_ano, dias_do_ano. destruct (is_leap ano); lia.
  - assumption.
  - lia.
Qed.

Lemma _calcular_datas_ano_9999 st :
  _calcular_datas_ano 9999 st = (Raise (OverflowError msg_fora_do_intervalo), st).
Proof. vm_compute. reflexivity. Qed.

Lemma _calcular_datas_ano_fora (ano : Z) st :
  ~ (1 <= ano <= 9999)%Z ->
  _calcular_datas_ano ano st = (Raise (ValueError "year is out of range"), st).
Proof.
  intros H. unfold _calcular_datas_ano, bind, lift. now rewrite mk_date_fora.
Qed.

(** The three possible outcomes of [_calcular_datas_ano], none of which
    changes the state. *)
Lemma _calcular_datas_ano_casos (ano : Z) st :
  ((1 <= ano <= 9998)%Z /\ _calcular_datas_ano ano st = (Ok (datas_do_ano ano), st)) \/
  (ano = 9999%Z /\
   _calcular_datas_ano ano st = (Raise (OverflowError msg_fora_do_intervalo), st)) \/
  (~ (1 <= ano <= 9999)%Z /\
   _calcular_datas_ano ano st = (Raise (ValueError "year is out of range"), st)).
Proof.
  destruct (Z_le_dec 1 ano); [destruct (Z_le_dec ano 9998)|].
  - left. split; [lia|]. apply _calcular_datas_ano_spec. lia.
  - destruct (Z.eq_dec ano 9999) as [->|].
    + right. left. split; [reflexivity | apply _calcular_datas_ano_9999].
    + right. right. split; [lia|]. apply _calcular_datas_ano_fora. lia.
  - right. right. split; [lia|]. apply _calcular_datas_ano_fora. lia.
Qed.

(** The fuel given to the loop is never exhausted. *)
Lemma _calcular_datas_ano_termina (ano : Z) st :
  fst (_calcular_datas_ano ano st) <> Raise LacoSemFim.
Proof.
  destruct (_calcular_datas_ano_casos ano st) as [[_ ->] | [[_ ->] | [_ ->]]];
    cbn; discriminate.
Qed.

(* ================================================================== *)
(** ** The weekly map *)

Lemma dict_get_in (k : Z) (d : dict Z string) (v : string) :
  dict_get Z.eqb k d = Ok v -> dict_in Z.eqb k d = true.
Proof.
  induction d as [|[k' v'] r IH]; cbn; [discriminate|].
  destruct (Z.eqb k' k); [reflexivity | exact IH].
Qed.

Lemma dict_in_get (k : Z) (d : dict Z string) :
  dict_in Z.eqb k d = true -> exists v, dict_get Z.eqb k d = Ok v.
Proof.
  induction d as [|[k' v'] r IH]; cbn; [discriminate|].
  destruct (Z.eqb k' k); [intros _; now exists v' | exact IH].
Qed.

Lemma dict_get_set (k : Z) (v : string) (d : dict Z string) :
  dict_get Z.eqb k (dict_set Z.eqb k v d) = Ok v.
Proof.
  induction d as [|[k' v'] r IH]; cbn.
  - now rewrite Z.eqb_refl.
  - destruct (Z.eqb k' k) eqn:E; cbn; rewrite E; [reflexivity | exact IH].
Qed.

Lemma dict_get_set_outro (k k0 : Z) (v : string) (d : dict Z string) :
  k0 <> k -> dict_get Z.eqb k0 (dict_set Z.eqb k v d) = dict_get Z.eqb k0 d.
Proof.
  intros Hk. induction d as [|[k' v'] r IH]; cbn.
  - destruct (Z.eqb_spec k k0); [congruence | reflexivity].
  - destruct (Z.eqb_spec k' k) as [->|]; cbn.
    + destruct (Z.eqb_spec k k0); [congruence | reflexivity].
    + destruct (Z.eqb k' k0); [reflexivity | exact IH].
Qed.

Lemma dict_in_set (k k0 : Z) (v : string) (d : dict Z string) :
  dict_in Z.eqb k0 (dict_set Z.eqb k v d) = true <->
  k0 = k \/ dict_in Z.eqb k0 d = true.
Proof.
  induction d as [|[k' v'] r IH]; cbn.
  - rewrite Bool.orb_false_r, Z.eqb_eq. intuition congruence.
  - destruct (Z.eqb_spec k' k) as [->|Hne]; cbn.
    + rewrite Bool.orb_true_iff, Z.eqb_eq. intuition congruence.
    + rewrite !Bool.orb_true_iff, IH. tauto.
Qed.

(* ================================================================== *)
(** ** One event of the annual loop *)

(** One round of the [for _ in range(2)] loop of a Saturday. *)
Lemma oferta_sabado_anual_spec (d : date) st :
  lista_diaconos (self st) <> [] ->
  exists o st',
    (g <- get_self ;;
     diacono_oferta <- _sortear_diacono (lista_diaconos g) ;;
     escala_append {| nome := diacono_oferta; funcao := "oferta"; dia := "sabado";
                      data := Some d |}) st = (Ok tt, st') /\
    lista_diaconos (self st') = lista_diaconos (self st) /\
    escala_gerada (self st') =
      escala_gerada (self st) ++ [registro o "oferta" "sabado" d] /\
    _chave_semanal (self st') = _chave_semanal (self st) /\
    In o (lista_diaconos (self st)).
Proof.
  intros Hl. unfold bind at 1, get_self at 1.
  destruct (_sortear_diacono_ok st Hl) as [o [Ho Hs]].
  rewrite (bind_ok _ _ _ Hs). rewrite escala_append_spec.
  exists o. eexists. split; [reflexivity|].
  cbn [self lista_diaconos escala_gerada _chaves_usadas _chave_semanal random].
  repeat split; assumption.
Qed.

Lemma _adicionar_escala_sabado_anual_spec (d : date) st :
  lista_diaconos (self st) <> [] ->
  exists n o1 o2 st',
    _adicionar_escala_sabado_anual d st = (Ok tt, st') /\
    lista_diaconos (self st') = lista_diaconos (self st) /\
    escala_gerada (self st') =
      escala_gerada (self st) ++
      [registro n "chave" "sabado" d; registro o1 "oferta" "sabado" d;
       registro o2 "oferta" "sabado" d] /\
    _chave_semanal (self st') = dict_set Z.eqb d n (_chave_semanal (self st)) /\
    In n (lista_diaconos (self st)) /\ In o1 (lista_diaconos (self st)) /\
    In o2 (lista_diaconos (self st)).
Proof.
  intros Hl. unfold _adicionar_escala_sabado_anual.
  destruct (_obter_proximo_chave_circular_spec st Hl)
    as (n & base & st1 & He & Hn & _ & Hl1 & Hesc1 & _ & Hcs1).
  rewrite (bind_ok _ _ _ He).
  unfold bind at 1, get_self at 1. unfold bind at 1, set_chave_semanal at 1.
  rewrite (bind_ok _ _ _ (escala_append_spec _ _)).
  cbn [self lista_diaconos escala_gerada _chaves_usadas _chave_semanal random
       para_cada seq].
  match goal with |- context [bind _ _ ?s] =>
    destruct (@oferta_sabado_anual_spec d s) as (o1 & st2 & He2 & Hl2 & Hesc2 & Hcs2 & Ho1) end.
  { cbn. now rewrite Hl1. }
  rewrite (bind_ok _ _ _ He2).
  destruct (@oferta_sabado_anual_spec d st2) as (o2 & st3 & He3 & Hl3 & Hesc3 & Hcs3 & Ho2).
  { rewrite Hl2. cbn. now rewrite Hl1. }
  rewrite (bind_ok _ _ _ He3). unfold ret.
  cbn [self lista_diaconos escala_gerada _chaves_usadas _chave_semanal random] in *.
  exists n, o1, o2, st3. split; [reflexivity|].
  rewrite Hl2, Hl1 in *.
  rewrite Hesc3, Hesc2, Hcs3, Hcs2, Hesc1, Hcs1, <- !app_assoc.
  repeat split; assumption.
Qed.

Lemma _encontrar_sabado_semana_spec (d s : date) st :
  sabado_de d = Some s -> (0 < s)%Z -> (d <= MAXORDINAL)%Z ->
  _encontrar_sabado_semana d st = (Ok (Some s), st).
Proof.
  unfold sabado_de, _encontrar_sabado_semana. intros Hs Hpos Hmax.
  destruct (weekday d =? 6)%Z.
  - injection Hs as <-. unfold bind, lift, ret.
    rewrite add_days_ok by lia. reflexivity.
  - destruct (weekday d =? 2)%Z; [|discriminate].
    injection Hs as <-. unfold bind, lift, ret.
    rewrite add_days_ok by lia. reflexivity.
Qed.

Lemma _adicionar_escala_dia_anual_spec (dia_semana : string) (d s : date) st :
  lista_diaconos (self st) <> [] ->
  sabado_de d = Some s -> (0 < s)%Z -> (d <= MAXORDINAL)%Z ->
  exists n st',
    _adicionar_escala_dia_anual dia_semana d st = (Ok tt, st') /\
    lista_diaconos (self st') = lista_diaconos (self st) /\
    escala_gerada (self st') =
      escala_gerada (self st) ++ [registro n "chave" dia_semana d] /\
    _chave_semanal (self st') = _chave_semanal (self st) /\
    (forall m, dict_get Z.eqb s (_chave_semanal (self st)) = Ok m -> n = m).
Proof.
  intros Hl Hs Hpos Hmax. unfold _adicionar_escala_dia_anual.
  rewrite (bind_ok _ _ _ (_encontrar_sabado_semana_spec st Hs Hpos Hmax)).
  unfold bind at 1, get_self at 1.
  destruct (dict_in Z.eqb s (_chave_semanal (self st))) eqn:Hin.
  - destruct (dict_in_get _ _ Hin) as [m Hm].
    unfold bind at 1, lift at 1. rewrite Hm. rewrite escala_append_spec.
    exists m. eexists. split; [reflexivity|].
    cbn [self lista_diaconos escala_gerada _chaves_usadas _chave_semanal random].
    repeat split. intros m' Hm'. congruence.
  - destruct (_obter_proximo_chave_circular_spec st Hl)
      as (n & base & st1 & He & Hn & _ & Hl1 & Hesc1 & _ & Hcs1).
    rewrite (bind_ok _ _ _ He). rewrite escala_append_spec.
    exists n. eexists. split; [reflexivity|].
    cbn [self lista_diaconos escala_gerada _chaves_usadas _chave_semanal random].
    rewrite Hl1, Hesc1, Hcs1. repeat split.
    intros m Hm. apply dict_get_in in Hm. congruence.
Qed.

(* ================================================================== *)
(** ** The invariant of the annual loop *)

Lemma registros_da_data_app (d : date) (a b : list DiaconoEscala) :
  registros_da_data d (a ++ b) = registros_da_data d a ++ registros_da_data d b.
Proof. apply filter_app. Qed.

Lemma registros_da_data_vazio (d : date) (esc : list DiaconoEscala) :
  (forall r, In r esc -> data r <> Some d) -> registros_da_data d esc = [].
Proof.
  intros H. induction esc as [|r q IH]; [reflexivity|].
  unfold registros_da_data in *. cbn [filter].
  destruct (data r) as [d'|] eqn:E.
  - destruct (Z.eqb_spec d' d) as [->|].
    + exfalso. apply (H r); [now left | assumption].
    + apply IH. intros x Hx. apply H. now right.
  - apply IH. intros x Hx. apply H. now right.
Qed.

Lemma registros_da_data_In (d : date) (esc : list DiaconoEscala) (r : DiaconoEscala) :
  In r (registros_da_data d esc) <-> In r esc /\ data r = Some d.
Proof.
  unfold registros_da_data. rewrite filter_In. split; intros [H1 H2]; split; try assumption.
  - destruct (data r); [|discriminate]. apply Z.eqb_eq in H2. now subst.
  - rewrite H2. apply Z.eqb_refl.
Qed.

Lemma sabado_de_antes (d s : date) : sabado_de d = Some s -> (s < d)%Z.
Proof.
  unfold sabado_de. destruct (weekday d =? 6)%Z; [intros [= <-]; lia|].
  destruct (weekday d =? 2)%Z; [intros [= <-]; lia | discriminate].
Qed.

(** An invariant that holds below [b] holds below any later bound. *)
Lemma invariante_mono (b b' : date) g :
  (b <= b')%Z -> invariante b g -> invariante b' g.
Proof.
  intros Hb (I1 & I2 & I3). split; [|split].
  - intros r Hr. destruct (I1 r Hr) as [d [Hd Hlt]]. exists d. split; [assumption | lia].
  - intros s Hs. destruct (I2 s Hs) as [Hlt H]. split; [lia | assumption].
  - exact I3.
Qed.

(** A Saturday on or after the bound keeps the invariant. *)
Lemma invariante_sabado (b d : date) (n o1 o2 : string) g g' :
  invariante b g -> (b <= d)%Z ->
  escala_gerada g' =
    escala_gerada g ++
    [registro n "chave" "sabado" d; registro o1 "oferta" "sabado" d;
     registro o2 "oferta" "sabado" d] ->
  _chave_semanal g' = dict_set Z.eqb d n (_chave_semanal g) ->
  invariante (d + 1)%Z g'.
Proof.
  intros (I1 & I2 & I3) Hb Hesc Hcs. unfold invariante. rewrite Hesc, Hcs.
  assert (Hvelho : forall s, (s < b)%Z ->
            registros_da_data s
              [registro n "chave" "sabado" d; registro o1 "oferta" "sabado" d;
               registro o2 "oferta" "sabado" d] = []).
  { intros s Hs. apply registros_da_data_vazio.
    intros r [<- | [<- | [<- | []]]]; cbn; intros [= E]; lia. }
  split; [|split].
  - intros r Hr. apply in_app_or in Hr. destruct Hr as [Hr | Hr].
    + destruct (I1 r Hr) as [d' [Hd' Hlt]]. exists d'. split; [assumption | lia].
    + exists d. split; [|lia].
      destruct Hr as [<- | [<- | [<- | []]]]; reflexivity.
  - intros s Hs. apply dict_in_set in Hs. destruct Hs as [-> | Hs].
    + split; [lia|]. exists n, o1, o2. split; [|apply dict_get_set].
      rewrite registros_da_data_app.
      rewrite (@registros_da_data_vazio d (escala_gerada g)).
      * unfold registros_da_data, registro. cbn [filter data app].
        rewrite Z.eqb_refl. reflexivity.
      * intros r Hr E. destruct (I1 r Hr) as [d' [Hd' Hlt]]. rewrite E in Hd'.
        injection Hd' as <-. lia.
    + destruct (I2 s Hs) as [Hlt (n' & o1' & o2' & Hreg & Hget)].
      split; [lia|]. exists n', o1', o2'. split.
      * rewrite registros_da_data_app, Hvelho, app_nil_r by assumption. assumption.
      * rewrite dict_get_set_outro by lia. assumption.
  - intros r d' s m Hr Hdia Hdata Hsab Hget.
    apply in_app_or in Hr. destruct Hr as [Hr | Hr].
    + destruct (I1 r Hr) as [d'' [Hd'' Hlt]]. rewrite Hdata in Hd''.
      injection Hd'' as <-. pose proof (sabado_de_antes _ Hsab).
      rewrite dict_get_set_outro in Hget by lia.
      now apply (I3 r d' s m).
    + exfalso. apply Hdia.
      destruct Hr as [<- | [<- | [<- | []]]]; reflexivity.
Qed.

(** A Sunday or Wednesday on or after the bound keeps the invariant, given
    that its primary is the one the weekly map holds for its Saturday. *)
Lemma invariante_dia (b d s : date) (dia_semana n : string) g g' :
  invariante b g -> (b <= d)%Z ->
  sabado_de d = Some s ->
  escala_gerada g' = escala_gerada g ++ [registro n "chave" dia_semana d] ->
  _chave_semanal g' = _chave_semanal g ->
  (forall m, dict_get Z.eqb s (_chave_semanal g) = Ok m -> n = m) ->
  invariante (d + 1)%Z g'.
Proof.
  intros (I1 & I2 & I3) Hb Hsab Hesc Hcs Hn. unfold invariante. rewrite Hesc, Hcs.
  split; [|split].
  - intros r Hr. apply in_app_or in Hr. destruct Hr as [Hr | [<- | []]].
    + destruct (I1 r Hr) as [d' [Hd' Hlt]]. exists d'. split; [assumption | lia].
    + exists d. split; [reflexivity | lia].
  - intros s' Hs'. destruct (I2 s' Hs') as [Hlt (n' & o1' & o2' & Hreg & Hget)].
    split; [lia|]. exists n', o1', o2'. split; [|assumption].
    rewrite registros_da_data_app.
    rewrite (@registros_da_data_vazio s' [registro n "chave" dia_semana d]).
    + now rewrite app_nil_r.
    + intros r [<- | []]. cbn. intros [= E]. lia.
  - intros r d' s' m Hr Hdia Hdata Hsab' Hget.
    apply in_app_or in Hr. destruct Hr as [Hr | [<- | []]].
    + now apply (I3 r d' s' m).
    + cbn in Hdata. injection Hdata as <-. rewrite Hsab in Hsab'.
      injection Hsab' as <-. cbn. now apply Hn.
Qed.

(** One event of the annual loop, on or after the bound of the invariant:
    it succeeds, appends the records of its date and keeps the invariant. *)
Lemma processar_data_spec (b : date) (e : date * string) st :
  lista_diaconos (self st) <> [] ->
  invariante b (self st) ->
  evento_valido e -> (b <= fst e)%Z -> (4 < fst e <= MAXORDINAL)%Z ->
  exists st' bloco,
    processar_data e st = (Ok tt, st') /\
    lista_diaconos (self st') = lista_diaconos (self st) /\
    escala_gerada (self st') = escala_gerada (self st) ++ bloco /\
    forma_do_dia (snd e) (fst e) bloco /\
    (forall r, In r bloco -> data r = Some (fst e)) /\
    invariante (fst e + 1)%Z (self st') /\
    (forall s, dict_in Z.eqb s (_chave_semanal (self st)) = true ->
               dict_in Z.eqb s (_chave_semanal (self st')) = true) /\
    (snd e = "sabado" -> dict_in Z.eqb (fst e) (_chave_semanal (self st')) = true).
Proof.
  destruct e as [d dia_semana]. cbn [fst snd].
  intros Hl Hinv Hev Hb Hd. unfold processar_data.
  destruct Hev as [[Hdia Hw] | Hev]; cbn [fst snd] in *.
  - subst dia_semana. cbn [String.eqb Ascii.eqb Bool.eqb].
    destruct (_adicionar_escala_sabado_anual_spec d st Hl)
      as (n & o1 & o2 & st' & He & Hl' & Hesc & Hcs & _).
    exists st'. eexists. split; [exact He|]. split; [exact Hl'|].
    split; [exact Hesc|]. split; [|split; [|split; [|split]]].
    + unfold forma_do_dia. cbn [String.eqb Ascii.eqb Bool.eqb]. now exists n, o1, o2.
    + intros r [<- | [<- | [<- | []]]]; reflexivity.
    + eapply invariante_sabado; eassumption.
    + intros s Hs. rewrite Hcs. apply dict_in_set. now right.
    + intros _. rewrite Hcs. apply dict_in_set. now left.
  - assert (Hns : String.eqb dia_semana "sabado" = false).
    { destruct Hev as [[-> _] | [-> _]]; reflexivity. }
    assert (Hsab : exists s, sabado_de d = Some s /\ (0 < s)%Z).
    { unfold sabado_de. destruct Hev as [[_ Hw] | [_ Hw]]; rewrite Hw; cbn.
      - exists (d - 1)%Z. split; [reflexivity | lia].
      - exists (d - 4)%Z. split; [reflexivity | lia]. }
    destruct Hsab as (s & Hs & Hpos). rewrite Hns.
    destruct (@_adicionar_escala_dia_anual_spec dia_semana d s st Hl Hs Hpos)
      as (n & st' & He & Hl' & Hesc & Hcs & Hn); [lia|].
    exists st'. eexists. split; [exact He|]. split; [exact Hl'|].
    split; [exact Hesc|]. split; [|split; [|split; [|split]]].
    + unfold forma_do_dia. rewrite Hns. now exists n.
    + intros r [<- | []]; reflexivity.
    + eapply invariante_dia; eassumption.
    + intros s' Hs'. now rewrite Hcs.
    + intros ->. discriminate Hns.
Qed.

(** The annual loop over a strictly ascending list of events. *)
Lemma para_cada_processar_spec (l : list (date * string)) : forall (b : date) st,
  lista_diaconos (self st) <> [] ->
  invariante b (self st) ->
  crescente (map fst l) ->
  (forall e, In e l -> evento_valido e /\ (b <= fst e)%Z /\ (4 < fst e <= MAXORDINAL)%Z) ->
  exists st',
    para_cada l processar_data st = (Ok tt, st') /\
    lista_diaconos (self st') = lista_diaconos (self st) /\
    (forall b', (b <= b')%Z -> (forall e, In e l -> (fst e < b')%Z) ->
                invariante b' (self st')) /\
    (forall d, ~ In d (map fst l) ->
               registros_da_data d (escala_gerada (self st')) =
               registros_da_data d (escala_gerada (self st))) /\
    (forall e, In e l ->
               forma_do_dia (snd e) (fst e)
                 (registros_da_data (fst e) (escala_gerada (self st'))) /\
               (snd e = "sabado" ->
                dict_in Z.eqb (fst e) (_chave_semanal (self st')) = true)) /\
    (forall s, dict_in Z.eqb s (_chave_semanal (self st)) = true ->
               dict_in Z.eqb s (_chave_semanal (self st')) = true) /\
    (forall r, In r (escala_gerada (self st')) ->
               In r (escala_gerada (self st)) \/
               exists e, In e l /\ data r = Some (fst e)).
Proof.
  induction l as [|e l IH]; intros b st Hl Hinv Hcr Hev.
  - exists st. split; [reflexivity|]. split; [reflexivity|].
    split; [intros b' Hb' _; now apply (invariante_mono Hb')|].
    split; [reflexivity|]. split; [intros e []|]. split; [auto|]. intros r Hr. now left.
  - cbn [map crescente] in Hcr. destruct Hcr as [Hmenor Hcr].
    destruct (Hev e (or_introl eq_refl)) as (Hve & Hbe & Hde).
    destruct (@processar_data_spec b e st Hl Hinv Hve Hbe Hde)
      as (st1 & bloco & He1 & Hl1 & Hesc1 & Hforma & Hdatas & Hinv1 & Hcs1 & Hsab1).
    assert (Hl1' : lista_diaconos (self st1) <> []) by now rewrite Hl1.
    assert (Hmaior : forall e', In e' l -> (fst e < fst e')%Z).
    { intros e' He'. rewrite Forall_forall in Hmenor. apply Hmenor.
      now apply in_map. }
    destruct (IH (fst e + 1)%Z st1 Hl1' Hinv1 Hcr)
      as (st' & He' & Hl' & Hinv' & Hfora & Hformas & Hcs' & Horigem).
    { intros e' He'. destruct (Hev e' (or_intror He')) as (H1 & _ & H3).
      repeat split; try assumption; try lia. specialize (Hmaior e' He'). lia. }
    assert (Hvazio : registros_da_data (fst e) (escala_gerada (self st)) = []).
    { apply registros_da_data_vazio. intros r Hr E.
      destruct Hinv as (I1 & _). destruct (I1 r Hr) as [d' [Hd' Hlt]].
      rewrite E in Hd'. injection Hd' as <-. lia. }
    assert (Hbloco : registros_da_data (fst e) bloco = bloco).
    { clear - Hdatas. induction bloco as [|r q IHq]; [reflexivity|].
      unfold registros_da_data in *. cbn [filter].
      rewrite (Hdatas r (or_introl eq_refl)), Z.eqb_refl. f_equal.
      apply IHq. intros x Hx. apply Hdatas. now right. }
    exists st'. split.
    { cbn [para_cada]. rewrite (bind_ok _ _ _ He1). exact He'. }
    split; [congruence|].
    split; [|split; [|split; [|split]]].
    + intros b' Hb' Hall. apply Hinv'.
      * specialize (Hall e (or_introl eq_refl)). lia.
      * intros e' He''. apply Hall. now right.
    + intros d Hd. cbn [map In] in Hd.
      rewrite Hfora by tauto. rewrite Hesc1, registros_da_data_app.
      rewrite (@registros_da_data_vazio d bloco); [apply app_nil_r|].
      intros r Hr E. rewrite (Hdatas r Hr) in E. injection E as E. tauto.
    + intros e' [<- | He''].
      * split; [|intros Hs; apply Hcs'; now apply Hsab1].
        rewrite Hfora.
        -- rewrite Hesc1, registros_da_data_app, Hvazio, Hbloco. exact Hforma.
        -- intros Hin. apply in_map_iff in Hin. destruct Hin as [e' [E He'']].
           specialize (Hmaior e' He''). lia.
      * now apply Hformas.
    + intros s Hs. apply Hcs'. now apply Hcs1.
    + intros r Hr. destruct (Horigem r Hr) as [Hr1 | [e' [He'' Hd']]].
      * rewrite Hesc1 in Hr1. apply in_app_or in Hr1. destruct Hr1 as [Hr1 | Hr1].
        -- now left.
        -- right. exists e. split; [now left | now apply Hdatas].
      * right. exists e'. split; [now right | assumption].
Qed.

(* ================================================================== *)
(** ** Sorting the events *)

Lemma In_inserir_por_data (x : date * string) (l : list (date * string)) y :
  In y (inserir_por_data x l) <-> y = x \/ In y l.
Proof.
  induction l as [|z r IH]; cbn [inserir_por_data].
  - cbn. intuition.
  - destruct (fst x <=? fst z)%Z; cbn [In]; [|rewrite IH]; intuition.
Qed.

Lemma In_sort_por_data (l : list (date * string)) y :
  In y (sort_por_data l) <-> In y l.
Proof.
  induction l as [|x r IH]; [reflexivity|].
  unfold sort_por_data in *. cbn [fold_right In].
  rewrite In_inserir_por_data, IH. intuition.
Qed.

Lemma inserir_por_data_crescente (x : date * string) (l : list (date * string)) :
  crescente (map fst l) -> ~ In (fst x) (map fst l) ->
  crescente (map fst (inserir_por_data x l)).
Proof.
  induction l as [|z r IH]; intros Hc Hn; cbn [inserir_por_data].
  - cbn. split; [constructor | exact I].
  - cbn [map crescente] in Hc. destruct Hc as [Hz Hr].
    cbn [map In] in Hn.
    destruct (Z.leb_spec (fst x) (fst z)).
    + cbn [map crescente]. split; [|split; assumption].
      constructor; [lia|].
      eapply Forall_impl; [|exact Hz]. cbn beta. intros a Ha. lia.
    + cbn [map crescente]. split; [|apply IH; tauto].
      apply Forall_forall. intros a Ha. apply in_map_iff in Ha.
      destruct Ha as [y [<- Hy]]. apply In_inserir_por_data in Hy.
      destruct Hy as [-> | Hy]; [lia|].
      rewrite Forall_forall in Hz. apply Hz. now apply in_map.
Qed.

Lemma sort_por_data_crescente (l : list (date * string)) :
  NoDup (map fst l) -> crescente (map fst (sort_por_data l)).
Proof.
  induction l as [|x r IH]; intros Hnd; [exact I|].
  cbn [map] in Hnd. apply NoDup_cons_iff in Hnd. destruct Hnd as [Hx Hr].
  change (sort_por_data (x :: r)) with (inserir_por_data x (sort_por_data r)).
  apply inserir_por_data_crescente; [now apply IH|].
  intros Hin. apply Hx. apply in_map_iff in Hin. destruct Hin as [y [E Hy]].
  apply (proj1 (In_sort_por_data _ _)) in Hy. rewrite <- E. now apply in_map.
Qed.

Lemma crescente_NoDup (l : list date) : crescente l -> NoDup l.
Proof.
  induction l as [|d r IH]; [constructor|]. intros [Hd Hr].
  constructor; [|now apply IH].
  intros Hin. rewrite Forall_forall in Hd. specialize (Hd d Hin). lia.
Qed.

Lemma juntar_datas_do_ano (ano : Z) :
  let dias := dias_desde (primeiro_dia ano) (dias_do_ano ano) in
  juntar_datas (datas_do_ano ano) =
    map (fun d => (d, "domingo")) (no_dia_da_semana 6 dias) ++
    map (fun d => (d, "quarta")) (no_dia_da_semana 2 dias) ++
    map (fun d => (d, "sabado")) (no_dia_da_semana 5 dias).
Proof.
  cbv zeta. unfold juntar_datas, datas_do_ano. cbn [flat_map fst snd].
  now rewrite app_nil_r.
Qed.

Lemma map_fst_par (s : string) (l : list date) :
  map fst (map (fun d => (d, s)) l) = l.
Proof. rewrite map_map. cbn [fst]. apply map_id. Qed.

(** The events of a year: exactly the Sundays, Wednesdays and Saturdays of
    the year, each once, in strictly ascending date order. *)
Lemma todas_datas_do_ano_spec (ano : Z) :
  crescente (map fst (todas_datas_do_ano ano)) /\
  forall e, In e (todas_datas_do_ano ano) <-> evento_valido e /\ no_ano ano (fst e).
Proof.
  unfold todas_datas_do_ano. rewrite juntar_datas_do_ano. cbv zeta.
  set (dias := dias_desde (primeiro_dia ano) (dias_do_ano ano)).
  assert (Hdias : forall d, In d dias <-> no_ano ano d).
  { intros d. unfold dias, no_ano, ultimo_dia. rewrite In_dias_desde. lia. }
  assert (Hcr : forall w, crescente (no_dia_da_semana w dias)).
  { intros w. apply crescente_filter, crescente_dias_desde. }
  split.
  - apply sort_por_data_crescente.
    rewrite !map_app, !map_fst_par.
    apply NoDup_app; [now apply crescente_NoDup | apply NoDup_app |].
    + now apply crescente_NoDup.
    + now apply crescente_NoDup.
    + intros a Ha Hb. apply In_no_dia_da_semana in Ha, Hb. destruct Ha, Hb. lia.
    + intros a Ha Hb. apply In_no_dia_da_semana in Ha. apply in_app_or in Hb.
      destruct Hb as [Hb | Hb]; apply In_no_dia_da_semana in Hb; destruct Ha, Hb; lia.
  - intros [d s]. rewrite In_sort_por_data, !in_app_iff, !in_map_iff.
    unfold evento_valido. cbn [fst snd]. split.
    + intros [(x & E & Hx) | [(x & E & Hx) | (x & E & Hx)]];
        injection E as -> <-; apply In_no_dia_da_semana in Hx; destruct Hx as [Hx Hw];
        apply Hdias in Hx; tauto.
    + intros [[[-> Hw] | [[-> Hw] | [-> Hw]]] Hano]; apply Hdias in Hano.
      * right; right. exists d. split; [reflexivity|]. now apply In_no_dia_da_semana.
      * left. exists d. split; [reflexivity|]. now apply In_no_dia_da_semana.
      * right; left. exists d. split; [reflexivity|]. now apply In_no_dia_da_semana.
Qed.

(* ================================================================== *)
(** ** The annual schedule *)

Lemma invariante_inicial (b : date) (l : list string) (u : list string) :
  invariante b {| lista_diaconos := l; escala_gerada := [];
                  _chaves_usadas := u; _chave_semanal := [] |}.
Proof.
  split; [|split]; cbn.
  - intros r [].
  - intros s H. discriminate H.
  - intros r d s m [].
Qed.

(** The annual generation on the years 2 to 9998: it succeeds, and the
    schedule it returns holds, for each event of the year, the records of
    that event and nothing else. *)
Lemma gerar_escala_anual_spec (ano : Z) st :
  lista_diaconos (self st) <> [] ->
  (2 <= ano <= 9998)%Z ->
  exists st',
    gerar_escala_anual ano st = (Ok (escala_gerada (self st')), st') /\
    lista_diaconos (self st') = lista_diaconos (self st) /\
    invariante (ultimo_dia ano + 1)%Z (self st') /\
    (forall e, evento_valido e -> no_ano ano (fst e) ->
       forma_do_dia (snd e) (fst e)
         (registros_da_data (fst e) (escala_gerada (self st'))) /\
       (snd e = "sabado" ->
        dict_in Z.eqb (fst e) (_chave_semanal (self st')) = true)) /\
    (forall r, In r (escala_gerada (self st')) ->
       exists e, evento_valido e /\ no_ano ano (fst e) /\ data r = Some (fst e)).
Proof.
  intros Hl Hano. unfold gerar_escala_anual.
  unfold bind at 1, set_escala_gerada at 1.
  unfold bind at 1, set_chaves_usadas at 1.
  unfold bind at 1, set_chave_semanal at 1.
  cbn [self lista_diaconos escala_gerada _chaves_usadas _chave_semanal random].
  assert (Hano1 : (1 <= ano <= 9998)%Z) by lia.
  match goal with |- context [bind (_calcular_datas_ano ano) _ ?s] =>
    rewrite (bind_ok _ _ _ (@_calcular_datas_ano_spec ano s Hano1)) end.
  fold (todas_datas_do_ano ano).
  destruct (todas_datas_do_ano_spec ano) as [Hcr Hev].
  assert (Hlim : (0 < primeiro_dia ano /\ ultimo_dia ano < MAXORDINAL)%Z)
    by (apply primeiro_dia_limites; lia).
  assert (H366 : (366 <= primeiro_dia ano)%Z) by (apply primeiro_dia_ano2; lia).
  match goal with |- context [bind (para_cada _ _) _ ?s] =>
    destruct (@para_cada_processar_spec (todas_datas_do_ano ano) (primeiro_dia ano) s)
      as (st' & He & Hl' & Hinv & _ & Hformas & _ & Horigem) end.
  - exact Hl.
  - apply invariante_inicial.
  - exact Hcr.
  - intros e He. apply Hev in He. destruct He as [Hv Hn]. unfold no_ano in Hn.
    repeat split; try assumption; lia.
  - rewrite (bind_ok _ _ _ He). unfold bind, get_self, ret.
    exists st'. split; [reflexivity|].
    cbn [self lista_diaconos escala_gerada] in *.
    split; [exact Hl'|]. split; [|split].
    + apply Hinv; [unfold ultimo_dia; lia|].
      intros e Hin. apply Hev in Hin. destruct Hin as [_ Hn]. unfold no_ano in Hn. lia.
    + intros e Hv Hn. apply Hformas. apply Hev. now split.
    + intros r Hr. destruct (Horigem r Hr) as [[] | (e & Hin & Hd)].
      exists e. apply Hev in Hin. tauto.
Qed.

Lemma gerar_escala_anual_ano1 st :
  fst (gerar_escala_anual 1 st) = Raise (OverflowError msg_fora_do_intervalo).
Proof. destruct st as [[l e u c] g]. vm_compute. reflexivity. Qed.

(** Outside the years 2 to 9998 the annual generation raises: the year is
    not a year of [date], or the date arithmetic leaves [date.min ..
    date.max] (the Saturday before January 3 of year 1, the day after
    December 31 of year 9999). *)
Lemma gerar_escala_anual_fora (ano : Z) st :
  ~ (2 <= ano <= 9998)%Z ->
  exists e, fst (gerar_escala_anual ano st) = Raise e.
Proof.
  intros H. destruct (Z.eq_dec ano 1) as [->|H1].
  - eexists. apply gerar_escala_anual_ano1.
  - unfold gerar_escala_anual.
    unfold bind at 1, set_escala_gerada at 1.
    unfold bind at 1, set_chaves_usadas at 1.
    unfold bind at 1, set_chave_semanal at 1.
    match goal with |- context [bind (_calcular_datas_ano ano) _ ?s] =>
      destruct (_calcular_datas_ano_casos ano s) as [[Hr _] | [[_ He] | [_ He]]];
      [lia | |]; rewrite (bind_raise _ _ _ He); eexists; reflexivity end.
Qed.

(** Whenever the annual generation returns a schedule, the year is one of
    2 .. 9998 and the schedule is the one described by
    [gerar_escala_anual_spec]. *)
Lemma gerar_escala_anual_retorno (ano : Z) st esc st' :
  lista_diaconos (self st) <> [] ->
  gerar_escala_anual ano st = (Ok esc, st') ->
  (2 <= ano <= 9998)%Z /\
  esc = escala_gerada (self st') /\
  invariante (ultimo_dia ano + 1)%Z (self st') /\
  (forall e, evento_valido e -> no_ano ano (fst e) ->
     forma_do_dia (snd e) (fst e) (registros_da_data (fst e) esc) /\
     (snd e = "sabado" -> dict_in Z.eqb (fst e) (_chave_semanal (self st')) = true)) /\
  (forall r, In r esc ->
     exists e, evento_valido e /\ no_ano ano (fst e) /\ data r = Some (fst e)).
Proof.
  intros Hl He.
  assert (Hano : (2 <= ano <= 9998)%Z).
  { destruct (Z_le_dec 2 ano) as [H2|H2]; [destruct (Z_le_dec ano 9998) as [H3|H3]|];
      try lia;
      (destruct (@gerar_escala_anual_fora ano st) as [e Hf]; [lia|];
       rewrite He in Hf; discriminate Hf). }
  split; [exact Hano|].
  destruct (gerar_escala_anual_spec st Hl Hano) as (st1 & He1 & _ & Hinv & Hf & Ho).
  rewrite He in He1. injection He1 as -> ->.
  split; [reflexivity|]. split; [exact Hinv|]. split; [exact Hf | exact Ho].
Qed.

Lemma weekday_domingo_apos_sabado (s : date) :
  weekday s = 5%Z -> weekday (s + 1)%Z = 6%Z /\ sabado_de (s + 1)%Z = Some s.
Proof.
  unfold sabado_de, weekday. intros H.
  assert (H6 : ((s + 1 + 6) mod 7 = 6)%Z) by (Z.div_mod_to_equations; lia).
  rewrite H6. cbn. split; [reflexivity|].
  now replace (s + 1 - 1)%Z with s by lia.
Qed.

Lemma weekday_quarta_apos_sabado (s : date) :
  weekday s = 5%Z -> weekday (s + 4)%Z = 2%Z /\ sabado_de (s + 4)%Z = Some s.
Proof.
  unfold sabado_de, weekday. intros H.
  assert (H2 : ((s + 4 + 6) mod 7 = 2)%Z) by (Z.div_mod_to_equations; lia).
  rewrite H2. cbn. split; [reflexivity|].
  now replace (s + 4 - 4)%Z with s by lia.
Qed.

(** The link of a service week, read off the invariant: a Sunday or
    Wednesday whose Saturday is in the weekly map carries the primary of that
    Saturday. *)
Lemma chave_ligada_ao_sabado (b : date) g (s d : date) (dia_semana n m : string) :
  invariante b g ->
  dia_semana <> "sabado" ->
  sabado_de d = Some s ->
  registros_da_data d (escala_gerada g) = [registro n "chave" dia_semana d] ->
  dict_get Z.eqb s (_chave_semanal g) = Ok m ->
  n = m.
Proof.
  intros (_ & _ & I3) Hdia Hs Hreg Hget.
  assert (Hin : In (registro n "chave" dia_semana d) (escala_gerada g)).
  { apply (registros_da_data_In d). rewrite Hreg. now left. }
  exact (I3 _ d s m Hin Hdia eq_refl Hs Hget).
Qed.

(** In a returned annual schedule the Sunday and the Wednesday after a
    Saturday of the year carry that Saturday's primary, each as far as it
    lies in the year. *)
Lemma semana_do_sabado (ano : Z) st esc st' (s : date) :
  lista_diaconos (self st) <> [] ->
  gerar_escala_anual ano st = (Ok esc, st') ->
  no_ano ano s -> weekday s = 5%Z ->
  exists n,
    chaves_da_data s esc = [n] /\
    (no_ano ano (s + 1)%Z -> chaves_da_data (s + 1)%Z esc = [n]) /\
    (no_ano ano (s + 4)%Z -> chaves_da_data (s + 4)%Z esc = [n]).
Proof.
  intros Hl He Hs Hw.
  destruct (gerar_escala_anual_retorno ano st Hl He) as (_ & -> & Hinv & Hf & _).
  destruct (Hf (s, "sabado")) as [Hforma Hin]; cbn [fst snd].
  { left. now split. }
  { assumption. }
  cbn [fst snd] in *. specialize (Hin eq_refl).
  destruct Hinv as (I1 & I2 & I3).
  destruct (I2 s Hin) as [_ (n & o1 & o2 & Hreg & Hget)].
  exists n. split; [|split].
  - unfold chaves_da_data. rewrite Hreg. reflexivity.
  - intros Hd. destruct (weekday_domingo_apos_sabado s Hw) as [Hw1 Hs1].
    destruct (Hf ((s + 1)%Z, "domingo")) as [Hforma1 _]; cbn [fst snd].
    { right; left. now split. }
    { assumption. }
    cbn [fst snd] in Hforma1. unfold forma_do_dia in Hforma1. cbn in Hforma1.
    destruct Hforma1 as [m Hm].
    assert (E : m = n).
    { eapply (@chave_ligada_ao_sabado (ultimo_dia ano + 1)%Z (self st'));
        try eassumption; [now split | discriminate]. }
    subst m. unfold chaves_da_data. rewrite Hm. reflexivity.
  - intros Hd. destruct (weekday_quarta_apos_sabado s Hw) as [Hw1 Hs1].
    destruct (Hf ((s + 4)%Z, "quarta")) as [Hforma1 _]; cbn [fst snd].
    { right; right. now split. }
    { assumption. }
    cbn [fst snd] in Hforma1. unfold forma_do_dia in Hforma1. cbn in Hforma1.
    destruct Hforma1 as [m Hm].
    assert (E : m = n).
    { eapply (@chave_ligada_ao_sabado (ultimo_dia ano + 1)%Z (self st'));
        try eassumption; [now split | discriminate]. }
    subst m. unfold chaves_da_data. rewrite Hm. reflexivity.
Qed.

(** In a returned annual schedule every secondary record is a Saturday
    record. *)
Lemma oferta_so_no_sabado (ano : Z) st esc st' r :
  lista_diaconos (self st) <> [] ->
  gerar_escala_anual ano st = (Ok esc, st') ->
  In r esc -> funcao r = "oferta" -> dia r = "sabado".
Proof.
  intros Hl He Hr Hfun.
  destruct (gerar_escala_anual_retorno ano st Hl He) as (_ & _ & _ & Hf & Ho).
  destruct (Ho r Hr) as (e & Hv & Hn & Hd).
  destruct (Hf e Hv Hn) as [Hforma _].
  assert (Hin : In r (registros_da_data (fst e) esc)) by now apply registros_da_data_In.
  unfold forma_do_dia in Hforma.
  destruct (String.eqb (snd e) "sabado").
  - destruct Hforma as (n & o1 & o2 & E). rewrite E in Hin.
    destruct Hin as [<- | [<- | [<- | []]]]; reflexivity.
  - destruct Hforma as (n & E). rewrite E in Hin.
    destruct Hin as [<- | []]. discriminate Hfun.
Qed.

(* ================================================================== *)
(** ** Grouping queries *)

Lemma agrupar_dia_spec (esc : list DiaconoEscala) : forall a b c,
  Forall (fun r => In (dia r) DIAS_ESCALA) esc ->
  agrupar dia esc [("domingo", a); ("quarta", b); ("sabado", c)] =
  Ok [("domingo", a ++ grupo dia "domingo" esc);
      ("quarta", b ++ grupo dia "quarta" esc);
      ("sabado", c ++ grupo dia "sabado" esc)].
Proof.
  induction esc as [|r q IH]; intros a b c Hall.
  - cbn. now rewrite !app_nil_r.
  - apply Forall_cons_iff in Hall. destruct Hall as [Hr Hq].
    unfold grupo. cbn [agrupar filter].
    destruct Hr as [E | [E | [E | []]]]; rewrite <- E;
      cbn [dict_append String.eqb Ascii.eqb Bool.eqb];
      rewrite IH by assumption; unfold grupo; rewrite <- ?app_assoc; reflexivity.
Qed.

Lemma agrupar_funcao_spec (esc : list DiaconoEscala) : forall a b,
  Forall (fun r => In (funcao r) ["chave"; "oferta"]) esc ->
  agrupar funcao esc [("chave", a); ("oferta", b)] =
  Ok [("chave", a ++ grupo funcao "chave" esc);
      ("oferta", b ++ grupo funcao "oferta" esc)].
Proof.
  induction esc as [|r q IH]; intros a b Hall.
  - cbn. now rewrite !app_nil_r.
  - apply Forall_cons_iff in Hall. destruct Hall as [Hr Hq].
    unfold grupo. cbn [agrupar filter].
    destruct Hr as [E | [E | []]]; rewrite <- E;
      cbn [dict_append String.eqb Ascii.eqb Bool.eqb];
      rewrite IH by assumption; unfold grupo; rewrite <- ?app_assoc; reflexivity.
Qed.

Lemma grupos_dia_particao (esc : list DiaconoEscala) :
  Forall (fun r => In (dia r) DIAS_ESCALA) esc ->
  Permutation (grupo dia "domingo" esc ++ grupo dia "quarta" esc ++ grupo dia "sabado" esc)
              esc.
Proof.
  induction 1 as [|r q Hr Hq IH]; [constructor|].
  unfold grupo in *. cbn [filter].
  destruct Hr as [E | [E | [E | []]]]; rewrite <- E;
    cbn [String.eqb Ascii.eqb Bool.eqb].
  - cbn [app]. now constructor.
  - apply Permutation_sym, Permutation_cons_app, Permutation_sym. exact IH.
  - rewrite app_assoc.
    apply Permutation_sym, Permutation_cons_app, Permutation_sym.
    rewrite <- app_assoc. exact IH.
Qed.

Lemma grupos_funcao_particao (esc : list DiaconoEscala) :
  Forall (fun r => In (funcao r) ["chave"; "oferta"]) esc ->
  Permutation (grupo funcao "chave" esc ++ grupo funcao "oferta" esc) esc.
Proof.
  induction 1 as [|r q Hr Hq IH]; [constructor|].
  unfold grupo in *. cbn [filter].
  destruct Hr as [E | [E | []]]; rewrite <- E;
    cbn [String.eqb Ascii.eqb Bool.eqb].
  - cbn [app]. now constructor.
  - apply Permutation_sym, Permutation_cons_app, Permutation_sym. exact IH.
Qed.

(** The two queries on a state whose schedule carries valid tags: no key is
    missing, and the groups are the records of each key. *)
Lemma consultas_spec st :
  Forall valido (escala_gerada (self st)) ->
  let esc := escala_gerada (self st) in
  obter_escala_por_dia st =
    (Ok [("domingo", grupo dia "domingo" esc); ("quarta", grupo dia "quarta" esc);
         ("sabado", grupo dia "sabado" esc)], st) /\
  Permutation (grupo dia "domingo" esc ++ grupo dia "quarta" esc ++ grupo dia "sabado" esc)
              esc /\
  obter_escala_por_funcao st =
    (Ok [("chave", grupo funcao "chave" esc); ("oferta", grupo funcao "oferta" esc)], st) /\
  Permutation (grupo funcao "chave" esc ++ grupo funcao "oferta" esc) esc.
Proof.
  intros Hv esc.
  assert (Hd : Forall (fun r => In (dia r) DIAS_ESCALA) esc).
  { eapply Forall_impl; [|exact Hv]. now intros r [H _]. }
  assert (Hf : Forall (fun r => In (funcao r) ["chave"; "oferta"]) esc).
  { eapply Forall_impl; [|exact Hv]. now intros r [_ H]. }
  split; [|split; [|split]].
  - unfold obter_escala_por_dia, bind, get_self, lift. fold esc.
    cbn [map DIAS_ESCALA]. now rewrite agrupar_dia_spec.
  - now apply grupos_dia_particao.
  - unfold obter_escala_por_funcao, bind, get_self, lift. fold esc.
    now rewrite agrupar_funcao_spec.
  - now apply grupos_funcao_particao.
Qed.

Lemma gerar_escala_anual_ano1_escala st :
  escala_gerada (self (snd (gerar_escala_anual 1 st))) = [].
Proof. destruct st as [[l e u c] g]. vm_compute. reflexivity. Qed.

(** Whatever the year and the outcome, the annual generation leaves a
    schedule of records with valid tags. *)
Lemma gerar_escala_anual_validos (ano : Z) st :
  lista_diaconos (self st) <> [] ->
  Forall valido (escala_gerada (self (snd (gerar_escala_anual ano st)))).
Proof.
  intros Hl.
  destruct (Z_le_dec 2 ano) as [H2|H2]; [destruct (Z_le_dec ano 9998) as [H3|H3]|].
  - destruct (@gerar_escala_anual_spec ano st Hl (conj H2 H3))
      as (st' & He & _ & _ & Hf & Ho).
    rewrite He. cbn [snd]. apply Forall_forall. intros r Hr.
    destruct (Ho r Hr) as (e & Hv & Hn & Hd).
    destruct (Hf e Hv Hn) as [Hforma _].
    assert (Hin : In r (registros_da_data (fst e) (escala_gerada (self st'))))
      by now apply registros_da_data_In.
    assert (Hdia : In (snd e) DIAS_ESCALA).
    { destruct Hv as [[-> _] | [[-> _] | [-> _]]]; cbn; auto. }
    unfold forma_do_dia in Hforma. unfold valido.
    destruct (String.eqb (snd e) "sabado").
    + destruct Hforma as (n & o1 & o2 & E). rewrite E in Hin.
      destruct Hin as [<- | [<- | [<- | []]]]; cbn; auto.
    + destruct Hforma as (n & E). rewrite E in Hin.
      destruct Hin as [<- | []]; cbn [registro dia funcao]; split; [exact Hdia | cbn; auto].
  - assert (E : escala_gerada (self (snd (gerar_escala_anual ano st))) = []).
    { unfold gerar_escala_anual.
      unfold bind at 1, set_escala_gerada at 1.
      unfold bind at 1, set_chaves_usadas at 1.
      unfold bind at 1, set_chave_semanal at 1.
      match goal with |- context [bind (_calcular_datas_ano ano) _ ?s] =>
        destruct (_calcular_datas_ano_casos ano s) as [[Hr _] | [[_ He] | [_ He]]];
        [lia | |]; rewrite (bind_raise _ _ _ He); reflexivity end. }
    rewrite E. constructor.
  - assert (E : escala_gerada (self (snd (gerar_escala_anual ano st))) = []).
    { destruct (Z.eq_dec ano 1) as [->|H1]; [apply gerar_escala_anual_ano1_escala|].
      unfold gerar_escala_anual.
      unfold bind at 1, set_escala_gerada at 1.
      unfold bind at 1, set_chaves_usadas at 1.
      unfold bind at 1, set_chave_semanal at 1.
      match goal with |- context [bind (_calcular_datas_ano ano) _ ?s] =>
        destruct (_calcular_datas_ano_casos ano s) as [[Hr _] | [[Hr He] | [_ He]]];
        [lia | lia |]; rewrite (bind_raise _ _ _ He); reflexivity end. }
    rewrite E. constructor.
Qed.

(** Whatever the flag and the outcome, the legacy week leaves a schedule of
    records with valid tags. *)
Lemma gerar_escala_semanal_validos (ev : bool) st :
  lista_diaconos (self st) <> [] ->
  Forall valido (escala_gerada (self (snd (gerar_escala_semanal ev st)))).
Proof.
  intros Hl.
  destruct (gerar_escala_semanal_spec ev st Hl) as (r & st' & He & _ & Hall & _).
  rewrite He. cbn [snd]. eapply Forall_impl; [|exact Hall].
  intros x (_ & H1 & _ & H2). now split.
Qed.

(* ================================================================== *)
(** ** The legacy week under a source that always draws the first candidate *)

Lemma _sortear_diacono_nulo (h : string) (t : list string) st :
  fonte_nula st ->
  exists st',
    _sortear_diacono (h :: t) st = (Ok h, st') /\
    self st' = self st /\ fonte_nula st'.
Proof.
  intros Hz. unfold _sortear_diacono, random_choice, randbelow.
  rewrite Hz. rewrite Nat.Div0.mod_0_l. cbn [nth].
  eexists. split; [reflexivity|]. split; [reflexivity|]. exact Hz.
Qed.

Lemma _remover_diacono_cabeca (d : string) (t : list string) :
  ~ In d t -> _remover_diacono (d :: t) d = t.
Proof.
  intros Hn. unfold _remover_diacono. cbn [filter].
  rewrite String.eqb_refl. cbn [negb].
  induction t as [|x t IH]; [reflexivity|].
  cbn [filter]. destruct (String.eqb_spec x d) as [->|Hne].
  - exfalso. apply Hn. now left.
  - cbn [negb]. f_equal. apply IH. intros H. apply Hn. now right.
Qed.

Lemma _adicionar_escala_dia_nulo (dia_semana d a : string) (t : list string) st :
  fonte_nula st -> ~ In d (a :: t) ->
  exists st',
    _adicionar_escala_dia dia_semana (d :: a :: t) true st = (Ok tt, st') /\
    lista_diaconos (self st') = lista_diaconos (self st) /\
    escala_gerada (self st') =
      escala_gerada (self st) ++
      [registro_semanal d "chave" dia_semana; registro_semanal a "oferta" dia_semana] /\
    fonte_nula st'.
Proof.
  intros Hz Hd. unfold _adicionar_escala_dia.
  destruct (_sortear_diacono_nulo d (a :: t) Hz) as (st1 & He1 & Hs1 & Hz1).
  rewrite (bind_ok _ _ _ He1).
  rewrite (bind_ok _ _ _ (escala_append_spec _ _)).
  rewrite _remover_diacono_cabeca by assumption.
  match goal with |- context [bind (_sortear_diacono (a :: t)) _ ?s] =>
    destruct (@_sortear_diacono_nulo a t s) as (st2 & He2 & Hs2 & Hz2) end.
  { exact Hz1. }
  rewrite (bind_ok _ _ _ He2).
  rewrite (bind_ok _ _ _ (escala_append_spec _ _)).
  unfold bind, lift, ret. cbn [list_remove]. rewrite String.eqb_refl.
  eexists. split; [reflexivity|].
  cbn [self lista_diaconos escala_gerada random]. rewrite Hs2.
  cbn [self lista_diaconos escala_gerada random]. rewrite Hs1, <- app_assoc.
  repeat split. exact Hz2.
Qed.

Lemma _adicionar_escala_sabado_nulo (d a b : string) (t : list string) st :
  fonte_nula st -> ~ In d (a :: b :: t) -> ~ In a (b :: t) ->
  exists st',
    _adicionar_escala_sabado (d :: a :: b :: t) true st = (Ok tt, st') /\
    lista_diaconos (self st') = lista_diaconos (self st) /\
    escala_gerada (self st') =
      escala_gerada (self st) ++
      [registro_semanal d "chave" "sabado"; registro_semanal a "oferta" "sabado";
       registro_semanal b "oferta" "sabado"] /\
    fonte_nula st'.
Proof.
  intros Hz Hd Ha. unfold _adicionar_escala_sabado.
  destruct (_sortear_diacono_nulo d (a :: b :: t) Hz) as (st1 & He1 & Hs1 & Hz1).
  rewrite (bind_ok _ _ _ He1).
  rewrite (bind_ok _ _ _ (escala_append_spec _ _)).
  rewrite _remover_diacono_cabeca by assumption.
  cbn [laco_ofertas_sabado].
  match goal with |- context [bind (_sortear_diacono (a :: b :: t)) _ ?s] =>
    destruct (@_sortear_diacono_nulo a (b :: t) s) as (st2 & He2 & Hs2 & Hz2) end.
  { exact Hz1. }
  rewrite (bind_ok _ _ _ He2).
  rewrite (bind_ok _ _ _ (escala_append_spec _ _)).
  rewrite _remover_diacono_cabeca by assumption.
  match goal with |- context [bind (_sortear_diacono (b :: t)) _ ?s] =>
    destruct (@_sortear_diacono_nulo b t s) as (st3 & He3 & Hs3 & Hz3) end.
  { exact Hz2. }
  rewrite (bind_ok _ _ _ He3).
  rewrite (bind_ok _ _ _ (escala_append_spec _ _)).
  unfold ret.
  eexists. split; [reflexivity|].
  cbn [self lista_diaconos escala_gerada random]. rewrite Hs3.
  cbn [self lista_diaconos escala_gerada random]. rewrite Hs2.
  cbn [self lista_diaconos escala_gerada random]. rewrite Hs1, <- !app_assoc.
  repeat split. exact Hz3.
Qed.

(** For every roster of at least three distinct names there is a random
    source under which the legacy week with [evitar_repeticao] schedules the
    same names on all three days. *)
Lemma gerar_escala_semanal_nulo (d a b : string) (t : list string) st :
  lista_diaconos (self st) = d :: a :: b :: t ->
  NoDup (d :: a :: b :: t) ->
  fonte_nula st ->
  fst (gerar_escala_semanal true st) =
    Ok [registro_semanal d "chave" "domingo"; registro_semanal a "oferta" "domingo";
        registro_semanal d "chave" "quarta"; registro_semanal a "oferta" "quarta";
        registro_semanal d "chave" "sabado"; registro_semanal a "oferta" "sabado";
        registro_semanal b "oferta" "sabado"].
Proof.
  intros Hl Hnd Hz.
  apply NoDup_cons_iff in Hnd. destruct Hnd as [Hd Hnd].
  apply NoDup_cons_iff in Hnd. destruct Hnd as [Ha _].
  unfold gerar_escala_semanal.
  unfold bind at 1, set_escala_gerada at 1.
  unfold bind at 1, set_chaves_usadas at 1.
  unfold bind at 1, get_self at 1.
  cbn [self lista_diaconos escala_gerada _chaves_usadas _chave_semanal random].
  rewrite Hl.
  match goal with |- context [bind (_adicionar_escala_dia "domingo" _ true) _ ?s] =>
    destruct (@_adicionar_escala_dia_nulo "domingo" d a (b :: t) s)
      as (st1 & He1 & _ & Hesc1 & Hz1) end.
  { exact Hz. }
  { exact Hd. }
  rewrite (bind_ok _ _ _ He1).
  destruct (@_adicionar_escala_dia_nulo "quarta" d a (b :: t) st1 Hz1 Hd)
    as (st2 & He2 & _ & Hesc2 & Hz2).
  rewrite (bind_ok _ _ _ He2).
  destruct (@_adicionar_escala_sabado_nulo d a b t st2 Hz2 Hd Ha)
    as (st3 & He3 & _ & Hesc3 & _).
  rewrite (bind_ok _ _ _ He3).
  unfold bind, get_self, ret. cbn [fst].
  rewrite Hesc3, Hesc2, Hesc1. reflexivity.
Qed.

(* ================================================================== *)
(** * The claims *)

Ltac prova_nodup :=
  repeat (constructor; [cbn; intuition discriminate|]); constructor.

(** ** C4: rotation fairness *)

(** C4, as stated, fails: with the roster A, B the first pass can end with A
    and the second pass can start with A, so the run made of the second and
    third picks holds A twice and B never.  (The stream 1, 0, 0 holds the
    indices CPython's generator draws for seed 0.) *)
Lemma C4_janela_entre_passes :
  fst (sortear_chaves 3 (novo_estado ["A"; "B"] (fluxo_de [1; 0; 0]%nat)))
    = Ok ["B"; "A"; "A"] /\
  janela 1 2 ["B"; "A"; "A"] = ["A"; "A"] /\
  ~ Permutation (janela 1 2 ["B"; "A"; "A"]) ["A"; "B"].
Proof.
  split; [vm_compute; reflexivity|]. split; [reflexivity|].
  intros H. apply Permutation_sym in H.
  assert (Hin : In "B" (janela 1 2 ["B"; "A"; "A"])).
  { apply (Permutation_in _ H). right. left. reflexivity. }
  cbn in Hin. intuition discriminate.
Qed.

(** C4 (amended): for a roster of distinct names and a generator at the start
    of a pass (fresh, just reset, or with a full used list), the picks of any
    number of consecutive passes succeed, and each pass-aligned run of as many
    picks as the roster has names is a permutation of the roster: every member
    appears in it exactly once. *)
Theorem C4_rotacao_justa_por_passe (st : Estado) (j : nat) :
  NoDup (lista_diaconos (self st)) ->
  lista_diaconos (self st) <> [] ->
  inicio_de_passe (self st) ->
  exists nomes st',
    sortear_chaves (j * List.length (lista_diaconos (self st))) st = (Ok nomes, st') /\
    forall p, (p < j)%nat ->
      let w := janela (p * List.length (lista_diaconos (self st)))
                      (List.length (lista_diaconos (self st))) nomes in
      Permutation w (lista_diaconos (self st)) /\
      forall x, In x (lista_diaconos (self st)) -> count_occ string_dec w x = 1%nat.
Proof.
  intros Hnd Hl Hini.
  destruct (sortear_chaves_passes j st Hnd Hl Hini) as (nomes & st' & He & Hp).
  exists nomes, st'. split; [assumption|].
  intros p Hlt w. specialize (Hp p Hlt). fold w in Hp. split; [assumption|].
  intros x Hx.
  assert (Hndw : NoDup w) by (apply (Permutation_NoDup (Permutation_sym Hp)); assumption).
  assert (Hinw : In x w) by (apply (Permutation_in _ (Permutation_sym Hp)); assumption).
  pose proof (proj1 (NoDup_count_occ string_dec w) Hndw x) as Hle.
  pose proof (proj1 (count_occ_In string_dec w x) Hinw) as Hge.
  lia.
Qed.

Lemma C4_rotacao_justa_por_passe_witness :
  exists nomes st',
    sortear_chaves (2 * 3) (novo_estado ["A"; "B"; "C"] (fluxo_de [2; 0; 0; 1]%nat))
      = (Ok nomes, st') /\
    forall p, (p < 2)%nat ->
      let w := janela (p * 3) 3 nomes in
      Permutation w ["A"; "B"; "C"] /\
      forall x, In x ["A"; "B"; "C"] -> count_occ string_dec w x = 1%nat.
Proof.
  apply (@C4_rotacao_justa_por_passe
           (novo_estado ["A"; "B"; "C"] (fluxo_de [2; 0; 0; 1]%nat)) 2).
  - cbn. prova_nodup.
  - cbn. discriminate.
  - left. reflexivity.
Defined.

(** ** C7: the rotation pick never fails *)

(** C7: for every non-empty roster, duplicates included, and every prior
    rotation state, [_obter_proximo_chave_circular] returns a roster member and
    raises nothing.  The used list is cleared when it has reached the roster
    size, cleared again by the fallback when no roster member is left unused,
    and the pick is appended to it; roster, schedule and weekly map are left
    as they were. *)
Theorem C7_rotacao_nunca_falha (st : Estado) :
  lista_diaconos (self st) <> [] ->
  exists n base st',
    _obter_proximo_chave_circular st = (Ok n, st') /\
    In n (lista_diaconos (self st)) /\
    rodada (lista_diaconos (self st)) (_chaves_usadas (self st)) base n /\
    lista_diaconos (self st') = lista_diaconos (self st) /\
    escala_gerada (self st') = escala_gerada (self st) /\
    _chaves_usadas (self st') = base ++ [n] /\
    _chave_semanal (self st') = _chave_semanal (self st).
Proof. apply _obter_proximo_chave_circular_spec. Qed.

Lemma C7_rotacao_nunca_falha_witness :
  exists n base st',
    _obter_proximo_chave_circular estado_com_repetidos = (Ok n, st') /\
    In n ["A"; "A"] /\
    rodada ["A"; "A"] ["A"] base n /\
    lista_diaconos (self st') = ["A"; "A"] /\
    escala_gerada (self st') = [] /\
    _chaves_usadas (self st') = base ++ [n] /\
    _chave_semanal (self st') = [].
Proof.
  apply (@C7_rotacao_nunca_falha estado_com_repetidos).
  cbn. discriminate.
Defined.

(** ** C8: construction *)

(** C8: the constructor raises [ValueError] (the spec's ConfigurationError) on
    an empty roster, before it touches the random generator; no instance
    exists, so whatever method calls follow are not run and no schedule is
    produced.  On every non-empty roster it succeeds, with a copy of the
    roster and an empty schedule, used list and weekly map. *)
Theorem C8_construcao (semear : Z -> Random) (seed : option Z) (g : Random) :
  __init__ semear [] seed g = (Raise (ValueError msg_lista_vazia), g) /\
  (forall A (m : M A),
     executar semear [] seed g m = (Raise (ValueError msg_lista_vazia), g)) /\
  (forall d r, exists g',
     __init__ semear (d :: r) seed g =
       (Ok {| lista_diaconos := d :: r; escala_gerada := [];
              _chaves_usadas := []; _chave_semanal := [] |}, g') /\
     g' = match seed with Some s => semear s | None => g end).
Proof.
  split; [reflexivity|]. split; [reflexivity|].
  intros d r. eexists. split; reflexivity.
Qed.

(** ** C6: determinism under a seed *)

(** C6: two independent runs that construct a generator with the same roster
    and the same seed and generate the same year give the same outcome (the
    same records in the same order, or the same exception) whatever state the
    process-wide random generator was in before each construction; in
    particular when the second run starts from the generator state the first
    run left behind. *)
Theorem C6_determinismo (semear : Z -> Random) (lista : list string) (s ano : Z) :
  (forall g1 g2 : Random,
     fst (executar semear lista (Some s) g1 (gerar_escala_anual ano)) =
     fst (executar semear lista (Some s) g2 (gerar_escala_anual ano))) /\
  (forall g : Random,
     let run1 := executar semear lista (Some s) g (gerar_escala_anual ano) in
     let run2 := executar semear lista (Some s) (snd run1) (gerar_escala_anual ano) in
     fst run1 = fst run2).
Proof.
  assert (H : forall g1 g2 : Random,
             fst (executar semear lista (Some s) g1 (gerar_escala_anual ano)) =
             fst (executar semear lista (Some s) g2 (gerar_escala_anual ano))).
  { intros g1 g2. unfold executar, __init__. destruct lista as [|d r]; reflexivity. }
  split; [exact H|]. intros g run1 run2. apply H.
Qed.

(** Without a seed the outcome does depend on the state the random generator
    is in, so the seed is what makes the runs agree: the first name of the
    2026 schedule follows the first raw number of the generator. *)
Remark sem_semente_depende_do_gerador (semear : Z -> Random) :
  primeiro_nome (fst (executar semear ["A"; "B"] None (fluxo_de [0%nat])
                        (gerar_escala_anual 2026))) = Some "A" /\
  primeiro_nome (fst (executar semear ["A"; "B"] None (fluxo_de [1%nat])
                        (gerar_escala_anual 2026))) = Some "B".
Proof. split; vm_compute; reflexivity. Qed.

(** ** C5: failure of the legacy week *)

(** C5, as stated, fails: with the one-name roster and [evitar_repeticao] the
    second draw finds an empty pool and raises, but the record of the first
    draw has already been appended and stays in [escala_gerada]. *)
Lemma C5_escala_parcial_apos_falha :
  fst (gerar_escala_semanal true (novo_estado ["A"] fluxo_zero))
    = Raise (ValueError msg_sem_disponiveis) /\
  escala_gerada (self (snd (gerar_escala_semanal true (novo_estado ["A"] fluxo_zero))))
    = [{| nome := "A"; funcao := "chave"; dia := "domingo"; data := None |}].
Proof. split; vm_compute; reflexivity. Qed.

(** C5 (amended): on a generator with a non-empty roster the legacy week
    either returns the complete schedule of seven records, which is also the
    generator's [escala_gerada], or raises [ValueError] (the spec's
    EmptyPoolError) and returns nothing; it raises only with
    [evitar_repeticao], and then the one to six records appended before the
    failing draw remain in [escala_gerada]. *)
Theorem C5_semana_completa_ou_parcial (ev : bool) (st : Estado) :
  lista_diaconos (self st) <> [] ->
  exists r st',
    gerar_escala_semanal ev st = (r, st') /\
    ((r = Ok (escala_gerada (self st')) /\
      List.length (escala_gerada (self st')) = 7%nat) \/
     (r = Raise (ValueError msg_sem_disponiveis) /\ ev = true /\
      (1 <= List.length (escala_gerada (self st')) <= 6)%nat)).
Proof.
  intros Hl.
  destruct (gerar_escala_semanal_spec ev st Hl) as (r & st' & He & _ & _ & Hres & _).
  exists r, st'. split; assumption.
Qed.

Lemma C5_semana_completa_ou_parcial_witness :
  exists r st',
    gerar_escala_semanal true (novo_estado ["A"; "B"] fluxo_zero) = (r, st') /\
    ((r = Ok (escala_gerada (self st')) /\
      List.length (escala_gerada (self st')) = 7%nat) \/
     (r = Raise (ValueError msg_sem_disponiveis) /\ true = true /\
      (1 <= List.length (escala_gerada (self st')) <= 6)%nat)).
Proof.
  apply (@C5_semana_completa_ou_parcial true (novo_estado ["A"; "B"] fluxo_zero)).
  cbn. discriminate.
Defined.

(** ** C1: repeats in the legacy week *)

(** C1 fails on the code: each day of the legacy week draws from the whole
    roster again, because the pool a day shrinks is a local copy.  With five
    distinct names and [evitar_repeticao] the week succeeds for every random
    source, and its seven names cannot be distinct. *)
Theorem C1_semana_repete_nomes (g : Random) :
  exists esc st',
    gerar_escala_semanal true (novo_estado ["A"; "B"; "C"; "D"; "E"] g) = (Ok esc, st') /\
    List.length esc = 7%nat /\
    ~ NoDup (map nome esc).
Proof.
  set (st := novo_estado ["A"; "B"; "C"; "D"; "E"] g).
  assert (Hl : lista_diaconos (self st) <> []) by (cbn; discriminate).
  destruct (gerar_escala_semanal_spec true st Hl) as (r & st' & He & _ & Hall & Hres & Hok).
  assert (Hr : r = Ok (escala_gerada (self st'))).
  { apply Hok; cbn; [prova_nodup | lia]. }
  subst r. destruct Hres as [[_ Hlen] | [H _]]; [|discriminate H].
  exists (escala_gerada (self st')), st'. split; [assumption|]. split; [assumption|].
  intros Hnd.
  assert (Hinc : incl (map nome (escala_gerada (self st'))) (lista_diaconos (self st))).
  { intros x Hx. apply in_map_iff in Hx. destruct Hx as [y [<- Hy]].
    rewrite Forall_forall in Hall. now apply Hall. }
  pose proof (NoDup_incl_length Hnd Hinc) as Hle.
  rewrite length_map, Hlen in Hle. cbn in Hle. lia.
Qed.

(** The same happens with the eight-name roster of the repository's disabled
    test [test_evitar_repeticao_ativa]; the stream below holds the indices
    CPython's generator draws for that test's seed 999.  Sofia is scheduled on
    Sunday, on Wednesday and on Saturday. *)
Remark semana_repete_com_oito_nomes :
  map nome
    (escala_gerada (self (snd (gerar_escala_semanal true
       (novo_estado ["Joao"; "Maria"; "Pedro"; "Ana"; "Carlos"; "Julia"; "Paulo"; "Sofia"]
                    (fluxo_de [1; 6; 7; 3; 2; 6; 5]%nat))))))
  = ["Maria"; "Sofia"; "Sofia"; "Ana"; "Pedro"; "Sofia"; "Paulo"].
Proof. vm_compute. reflexivity. Qed.

(** ** C9: the dates of a year *)

(** What [_calcular_datas_ano] does on the years 1 to 9998, as C9 describes
    it: three lists keyed domingo, quarta, sabado, each strictly ascending and
    holding exactly the dates of the year that fall on its weekday, with the
    state untouched. *)
Lemma _calcular_datas_ano_correto (ano : Z) st :
  (1 <= ano <= 9998)%Z ->
  exists dom qua sab,
    _calcular_datas_ano ano st =
      (Ok [("domingo", dom); ("quarta", qua); ("sabado", sab)], st) /\
    crescente dom /\ crescente qua /\ crescente sab /\
    (forall d, In d dom <-> no_ano ano d /\ weekday d = 6%Z) /\
    (forall d, In d qua <-> no_ano ano d /\ weekday d = 2%Z) /\
    (forall d, In d sab <-> no_ano ano d /\ weekday d = 5%Z).
Proof.
  intros H. rewrite _calcular_datas_ano_spec by assumption. unfold datas_do_ano.
  do 3 eexists. split; [reflexivity|].
  assert (Hdias : forall d, In d (dias_desde (primeiro_dia ano) (dias_do_ano ano))
                            <-> no_ano ano d).
  { intros d. unfold no_ano, ultimo_dia. rewrite In_dias_desde. lia. }
  assert (Hmem : forall w d,
             In d (no_dia_da_semana w (dias_desde (primeiro_dia ano) (dias_do_ano ano)))
             <-> no_ano ano d /\ weekday d = w).
  { intros w d. rewrite In_no_dia_da_semana, Hdias. reflexivity. }
  split; [apply crescente_filter, crescente_dias_desde|].
  split; [apply crescente_filter, crescente_dias_desde|].
  split; [apply crescente_filter, crescente_dias_desde|].
  split; [apply Hmem|]. split; apply Hmem.
Qed.

(** C9 fails on the code for the year 9999: after December 31 is visited
    the loop adds one day to [date.max], which raises [OverflowError], so the
    three lists are never returned (the state is still untouched). *)
Theorem C9_ano_9999_estoura (st : Estado) :
  mk_date 9999 1 1 = Ok 3651695%Z /\
  mk_date 9999 12 31 = Ok MAXORDINAL /\
  add_days MAXORDINAL 1 = Raise (OverflowError msg_fora_do_intervalo) /\
  _calcular_datas_ano 9999 st = (Raise (OverflowError msg_fora_do_intervalo), st).
Proof.
  split; [reflexivity|]. split; [reflexivity|]. split; [reflexivity|].
  apply _calcular_datas_ano_9999.
Qed.

(** ** C3: records per date in the annual schedule *)

(** C3: on a generator with a non-empty roster the annual generation returns
    a schedule for the years 2 to 9998, and whatever schedule it returns for a
    year holds, for every Saturday of the year, exactly three records with
    that date (one 'chave' then two 'oferta'), for every Sunday and every
    Wednesday of the year exactly one record with that date, a 'chave' of that
    day, and no 'oferta' record on a day other than 'sabado'. *)
Theorem C3_registros_por_data (ano : Z) (st : Estado) :
  lista_diaconos (self st) <> [] ->
  ((2 <= ano <= 9998)%Z ->
   exists esc st', gerar_escala_anual ano st = (Ok esc, st')) /\
  forall esc st', gerar_escala_anual ano st = (Ok esc, st') ->
    (forall d, no_ano ano d -> weekday d = 5%Z ->
       exists n o1 o2,
         registros_da_data d esc =
           [registro n "chave" "sabado" d; registro o1 "oferta" "sabado" d;
            registro o2 "oferta" "sabado" d]) /\
    (forall d, no_ano ano d -> weekday d = 6%Z ->
       exists n, registros_da_data d esc = [registro n "chave" "domingo" d]) /\
    (forall d, no_ano ano d -> weekday d = 2%Z ->
       exists n, registros_da_data d esc = [registro n "chave" "quarta" d]) /\
    (forall r, In r esc -> funcao r = "oferta" -> dia r = "sabado").
Proof.
  intros Hl. split.
  - intros Hano. destruct (gerar_escala_anual_spec st Hl Hano) as (st' & He & _).
    now exists (escala_gerada (self st')), st'.
  - intros esc st' He.
    destruct (gerar_escala_anual_retorno ano st Hl He) as (_ & _ & _ & Hf & _).
    split; [|split; [|split]].
    + intros d Hd Hw. destruct (Hf (d, "sabado")) as [H _]; cbn [fst snd]; auto.
      left. now split.
    + intros d Hd Hw. destruct (Hf (d, "domingo")) as [H _]; cbn [fst snd]; auto.
      right; left. now split.
    + intros d Hd Hw. destruct (Hf (d, "quarta")) as [H _]; cbn [fst snd]; auto.
      right; right. now split.
    + intros r Hr Hfun. eapply oferta_so_no_sabado; eassumption.
Qed.

(** January 3, 2026 is a Saturday ([date(2026, 1, 3).toordinal() = 739619]). *)
Lemma C3_registros_por_data_witness :
  exists esc st',
    gerar_escala_anual 2026 estado_exemplo = (Ok esc, st') /\
    (exists n o1 o2,
       registros_da_data 739619%Z esc =
         [registro n "chave" "sabado" 739619%Z; registro o1 "oferta" "sabado" 739619%Z;
          registro o2 "oferta" "sabado" 739619%Z]) /\
    (exists n, registros_da_data 739620%Z esc = [registro n "chave" "domingo" 739620%Z]) /\
    (exists n, registros_da_data 739623%Z esc = [registro n "chave" "quarta" 739623%Z]).
Proof.
  assert (Hl : lista_diaconos (self estado_exemplo) <> []) by (cbn; discriminate).
  destruct (@C3_registros_por_data 2026 estado_exemplo Hl) as [Hex Hall].
  destruct Hex as (esc & st' & He); [lia|].
  destruct (Hall esc st' He) as (Hs & Hd & Hq & _).
  exists esc, st'. split; [exact He|]. split; [|split].
  - apply Hs; [unfold no_ano; vm_compute; split; discriminate | reflexivity].
  - apply Hd; [unfold no_ano; vm_compute; split; discriminate | reflexivity].
  - apply Hq; [unfold no_ano; vm_compute; split; discriminate | reflexivity].
Defined.

(** ** C2: the weekly link *)

(** C2: on a generator with a non-empty roster the annual generation returns
    a schedule for the years 2 to 9998, and in whatever schedule it returns
    for a year, every Saturday of the year whose following Sunday and
    Wednesday lie in the year has one primary, and that Sunday (one day
    later) and that Wednesday (four days later) have this same name as their
    one primary. *)
Theorem C2_chave_da_semana (ano : Z) (st : Estado) :
  lista_diaconos (self st) <> [] ->
  ((2 <= ano <= 9998)%Z ->
   exists esc st', gerar_escala_anual ano st = (Ok esc, st')) /\
  forall esc st', gerar_escala_anual ano st = (Ok esc, st') ->
    forall s, no_ano ano s -> weekday s = 5%Z ->
      no_ano ano (s + 1)%Z -> no_ano ano (s + 4)%Z ->
      exists n,
        chaves_da_data s esc = [n] /\
        chaves_da_data (s + 1)%Z esc = [n] /\
        chaves_da_data (s + 4)%Z esc = [n].
Proof.
  intros Hl. split.
  - intros Hano. destruct (gerar_escala_anual_spec st Hl Hano) as (st' & He & _).
    now exists (escala_gerada (self st')), st'.
  - intros esc st' He s Hs Hw H1 H4.
    destruct (@semana_do_sabado ano st esc st' s Hl He Hs Hw) as (n & Hn & Hd & Hq).
    exists n. auto.
Qed.

Lemma C2_chave_da_semana_witness :
  exists esc st' n,
    gerar_escala_anual 2026 estado_exemplo = (Ok esc, st') /\
    chaves_da_data 739619%Z esc = [n] /\
    chaves_da_data (739619 + 1)%Z esc = [n] /\
    chaves_da_data (739619 + 4)%Z esc = [n].
Proof.
  assert (Hl : lista_diaconos (self estado_exemplo) <> []) by (cbn; discriminate).
  destruct (@C2_chave_da_semana 2026 estado_exemplo Hl) as [Hex Hall].
  destruct Hex as (esc & st' & He); [lia|].
  assert (H0 : no_ano 2026 739619%Z) by (unfold no_ano; vm_compute; split; discriminate).
  assert (H1 : no_ano 2026 (739619 + 1)%Z) by (unfold no_ano; vm_compute; split; discriminate).
  assert (H4 : no_ano 2026 (739619 + 4)%Z) by (unfold no_ano; vm_compute; split; discriminate).
  destruct (Hall esc st' He 739619%Z H0 eq_refl H1 H4) as (n & Hn).
  exists esc, st', n. split; [exact He | exact Hn].
Defined.

(** ** C10: tags and grouping queries *)

(** C10: after either generation mode, on a generator with a non-empty
    roster and whatever the outcome of the generation, every record of
    [escala_gerada] has its day among domingo, quarta, sabado and its role
    among chave, oferta; so [obter_escala_por_dia] and
    [obter_escala_por_funcao] raise no [KeyError], leave the state as it was,
    and return under each key the records of that key in schedule order: the
    groups together are a rearrangement of the schedule, each record in the
    one group of its key. *)
Theorem C10_consultas_particionam (st st' : Estado) :
  lista_diaconos (self st) <> [] ->
  (exists ano, st' = snd (gerar_escala_anual ano st)) \/
  (exists ev, st' = snd (gerar_escala_semanal ev st)) ->
  let esc := escala_gerada (self st') in
  Forall valido esc /\
  obter_escala_por_dia st' =
    (Ok [("domingo", grupo dia "domingo" esc); ("quarta", grupo dia "quarta" esc);
         ("sabado", grupo dia "sabado" esc)], st') /\
  Permutation (grupo dia "domingo" esc ++ grupo dia "quarta" esc ++ grupo dia "sabado" esc)
              esc /\
  obter_escala_por_funcao st' =
    (Ok [("chave", grupo funcao "chave" esc); ("oferta", grupo funcao "oferta" esc)], st') /\
  Permutation (grupo funcao "chave" esc ++ grupo funcao "oferta" esc) esc.
Proof.
  intros Hl Hst esc.
  assert (Hv : Forall valido (escala_gerada (self st'))).
  { destruct Hst as [[ano ->] | [ev ->]].
    - now apply gerar_escala_anual_validos.
    - now apply gerar_escala_semanal_validos. }
  split; [exact Hv|]. now apply consultas_spec.
Qed.

Lemma C10_consultas_particionam_witness :
  let st' := snd (gerar_escala_semanal true (novo_estado ["A"; "B"] fluxo_zero)) in
  let esc := escala_gerada (self st') in
  Forall valido esc /\
  obter_escala_por_dia st' =
    (Ok [("domingo", grupo dia "domingo" esc); ("quarta", grupo dia "quarta" esc);
         ("sabado", grupo dia "sabado" esc)], st') /\
  Permutation (grupo dia "domingo" esc ++ grupo dia "quarta" esc ++ grupo dia "sabado" esc)
              esc /\
  obter_escala_por_funcao st' =
    (Ok [("chave", grupo funcao "chave" esc); ("oferta", grupo funcao "oferta" esc)], st') /\
  Permutation (grupo funcao "chave" esc ++ grupo funcao "oferta" esc) esc.
Proof.
  apply (@C10_consultas_particionam (novo_estado ["A"; "B"] fluxo_zero)).
  - cbn. discriminate.
  - right. exists true. reflexivity.
Defined.

(* ================================================================== *)
(** * Further properties of the code *)

(** ** The draw primitives *)

(** X1 ([_remover_diacono]): the result holds no occurrence of the removed
    name, keeps every other name as often as the list had it, is the list
    itself when the name does not occur, and is shorter than the list by the
    number of occurrences of the name. *)
Theorem X_remover_diacono (lista : list string) (n : string) :
  ~ In n (_remover_diacono lista n) /\
  (forall x, x <> n ->
     count_occ string_dec (_remover_diacono lista n) x = count_occ string_dec lista x) /\
  (~ In n lista -> _remover_diacono lista n = lista) /\
  (List.length (_remover_diacono lista n) + count_occ string_dec lista n
   = List.length lista)%nat.
Proof.
  split; [|split; [|split]].
  - intros H. apply _remover_diacono_In in H. now destruct H.
  - intros x Hx. unfold _remover_diacono.
    induction lista as [|y r IH]; [reflexivity|]. cbn [filter].
    destruct (String.eqb_spec y n) as [->|Hne]; cbn [negb].
    + rewrite IH. cbn [count_occ]. destruct (string_dec n x); [congruence | reflexivity].
    + cbn [count_occ]. rewrite IH. reflexivity.
  - intros Hn. unfold _remover_diacono.
    induction lista as [|y r IH]; [reflexivity|]. cbn [filter].
    destruct (String.eqb_spec y n) as [->|Hne].
    + exfalso. apply Hn. now left.
    + cbn [negb]. f_equal. apply IH. intros H. apply Hn. now right.
  - unfold _remover_diacono.
    induction lista as [|y r IH]; [reflexivity|]. cbn [filter count_occ].
    destruct (String.eqb_spec y n) as [->|Hne]; cbn [negb].
    + destruct (string_dec n n); [|congruence]. cbn [List.length]. lia.
    + destruct (string_dec y n); [congruence|]. cbn [List.length]. lia.
Qed.

(** X2 ([_sortear_diacono]): on an empty list it raises [ValueError] and
    touches nothing; on any other list it returns a member of the list, leaves
    the instance as it was and advances the random generator by one draw. *)
Theorem X_sortear_diacono (pool : list string) (st : Estado) :
  (pool = [] ->
   _sortear_diacono pool st = (Raise (ValueError msg_sem_disponiveis), st)) /\
  (pool <> [] ->
   exists n st',
     _sortear_diacono pool st = (Ok n, st') /\ In n pool /\
     self st' = self st /\
     fluxo (random st') = fluxo (random st) /\
     posicao (random st') = S (posicao (random st))).
Proof.
  split.
  - intros ->. reflexivity.
  - intros Hp. destruct (_sortear_diacono_ok st Hp) as [n [Hn He]].
    exists n. eexists. split; [exact He|]. repeat split. exact Hn.
Qed.

(** ** Dates *)

(** X3 ([_encontrar_sabado_semana]): on every date but January 3 of year 1
    it raises nothing; for a Sunday or a Wednesday it returns a Saturday, the
    last one before the date (one and four days earlier), and for any other
    weekday it returns [None].  On January 3 of year 1, a Wednesday, the
    Saturday would be before [date.min] and it raises [OverflowError]. *)
Theorem X_encontrar_sabado_semana (d : date) (st : Estado) :
  (1 <= d <= MAXORDINAL)%Z ->
  (d = 3%Z /\
   _encontrar_sabado_semana d st = (Raise (OverflowError msg_fora_do_intervalo), st)) \/
  (d <> 3%Z /\
   _encontrar_sabado_semana d st = (Ok (sabado_de d), st) /\
   (forall s, sabado_de d = Some s ->
      weekday s = 5%Z /\ (s < d <= s + 4)%Z /\ (weekday d = 6%Z \/ weekday d = 2%Z)) /\
   (sabado_de d = None <-> weekday d <> 6%Z /\ weekday d <> 2%Z)).
Proof.
  intros Hd. destruct (Z.eq_dec d 3) as [->|Hne].
  - left. split; reflexivity.
  - right. split; [exact Hne|].
    assert (Hs : forall s, sabado_de d = Some s ->
              weekday s = 5%Z /\ (s < d <= s + 4)%Z /\ (weekday d = 6%Z \/ weekday d = 2%Z)).
    { unfold sabado_de, weekday. intros s.
      destruct (Z.eqb_spec ((d + 6) mod 7) 6) as [E|E].
      - intros [= <-]. split; [|split; [lia | now left]].
        Z.div_mod_to_equations; lia.
      - destruct (Z.eqb_spec ((d + 6) mod 7) 2) as [E2|E2]; [|discriminate].
        intros [= <-]. split; [|split; [lia | now right]].
        Z.div_mod_to_equations; lia. }
    split; [|split; [exact Hs|]].
    + destruct (sabado_de d) as [s|] eqn:E.
      * apply _encontrar_sabado_semana_spec; [exact E | | lia].
        destruct (Hs s eq_refl) as (Hw & Hlt & Hwd).
        unfold sabado_de, weekday in *.
        destruct (Z.eqb_spec ((d + 6) mod 7) 6) as [E6|E6].
        -- injection E as <-. Z.div_mod_to_equations; lia.
        -- destruct (Z.eqb_spec ((d + 6) mod 7) 2) as [E2|E2]; [|discriminate].
           injection E as <-. Z.div_mod_to_equations; lia.
      * unfold sabado_de in E. unfold _encontrar_sabado_semana.
        destruct (weekday d =? 6)%Z; [discriminate|].
        destruct (weekday d =? 2)%Z; [discriminate | reflexivity].
    + unfold sabado_de.
      destruct (Z.eqb_spec (weekday d) 6) as [E6|E6]; [split; [discriminate | tauto]|].
      destruct (Z.eqb_spec (weekday d) 2) as [E2|E2]; [split; [discriminate | tauto]|].
      tauto.
Qed.

(** January 4, 2026 is a Sunday ([date(2026, 1, 4).toordinal() = 739620]). *)
Lemma X_encontrar_sabado_semana_witness :
  (739620%Z = 3%Z /\
   _encontrar_sabado_semana 739620%Z estado_exemplo
     = (Raise (OverflowError msg_fora_do_intervalo), estado_exemplo)) \/
  (739620%Z <> 3%Z /\
   _encontrar_sabado_semana 739620%Z estado_exemplo
     = (Ok (sabado_de 739620%Z), estado_exemplo) /\
   (forall s, sabado_de 739620%Z = Some s ->
      weekday s = 5%Z /\ (s < 739620 <= s + 4)%Z /\
      (weekday 739620%Z = 6%Z \/ weekday 739620%Z = 2%Z)) /\
   (sabado_de 739620%Z = None <-> weekday 739620%Z <> 6%Z /\ weekday 739620%Z <> 2%Z)).
Proof.
  apply (@X_encontrar_sabado_semana 739620%Z estado_exemplo).
  unfold MAXORDINAL. lia.
Defined.

(** X4 ([_calcular_datas_ano], years 1 to 9998, leap years included): it
    returns three lists under the keys domingo, quarta, sabado, in this order;
    each list is strictly ascending and holds exactly the dates of the year
    that fall on its weekday; the state is left as it was. *)
Theorem X_calcular_datas_ano (ano : Z) (st : Estado) :
  (1 <= ano <= 9998)%Z ->
  exists dom qua sab,
    _calcular_datas_ano ano st =
      (Ok [("domingo", dom); ("quarta", qua); ("sabado", sab)], st) /\
    crescente dom /\ crescente qua /\ crescente sab /\
    (forall d, In d dom <-> no_ano ano d /\ weekday d = 6%Z) /\
    (forall d, In d qua <-> no_ano ano d /\ weekday d = 2%Z) /\
    (forall d, In d sab <-> no_ano ano d /\ weekday d = 5%Z).
Proof. apply _calcular_datas_ano_correto. Qed.

Lemma X_calcular_datas_ano_witness :
  exists dom qua sab,
    _calcular_datas_ano 2024 estado_exemplo =
      (Ok [("domingo", dom); ("quarta", qua); ("sabado", sab)], estado_exemplo) /\
    crescente dom /\ crescente qua /\ crescente sab /\
    (forall d, In d dom <-> no_ano 2024 d /\ weekday d = 6%Z) /\
    (forall d, In d qua <-> no_ano 2024 d /\ weekday d = 2%Z) /\
    (forall d, In d sab <-> no_ano 2024 d /\ weekday d = 5%Z).
Proof.
  apply (@X_calcular_datas_ano 2024 estado_exemplo). lia.
Defined.

Lemma _calcular_datas_ano_estado (ano : Z) st :
  snd (_calcular_datas_ano ano st) = st.
Proof.
  destruct (_calcular_datas_ano_casos ano st) as [[H ->] | [[H ->] | [H ->]]];
    reflexivity.
Qed.


Lemma weekday_succ (d : date) : weekday (d + 1)%Z = ((weekday d + 1) mod 7)%Z.
Proof. unfold weekday. Z.div_mod_to_equations; lia. Qed.

(** Seven consecutive days hold each weekday once. *)
Lemma uma_vez_por_semana (w : Z) (ini : date) :
  (0 <= w < 7)%Z ->
  List.length (no_dia_da_semana w (dias_desde ini 7)) = 1%nat.
Proof.
  intros Hw. cbn [dias_desde]. unfold no_dia_da_semana. cbn [filter].
  rewrite !weekday_succ.
  assert (Hk : (0 <= weekday ini < 7)%Z) by (unfold weekday; apply Z.mod_pos_bound; lia).
  remember (weekday ini) as k eqn:Ek. clear Ek.
  assert (Hk' : (k = 0 \/ k = 1 \/ k = 2 \/ k = 3 \/ k = 4 \/ k = 5 \/ k = 6)%Z) by lia.
  assert (Hw' : (w = 0 \/ w = 1 \/ w = 2 \/ w = 3 \/ w = 4 \/ w = 5 \/ w = 6)%Z) by lia.
  clear Hk Hw.
  destruct Hk' as [-> | [-> | [-> | [-> | [-> | [-> | ->]]]]]];
    destruct Hw' as [-> | [-> | [-> | [-> | [-> | [-> | ->]]]]]];
    reflexivity.
Qed.

Lemma dias_desde_app (a b : nat) : forall ini,
  dias_desde ini (a + b) = dias_desde ini a ++ dias_desde (ini + Z.of_nat a)%Z b.
Proof.
  induction a as [|a IH]; intros ini.
  - cbn. now rewrite Z.add_0_r.
  - cbn [Nat.add dias_desde app]. rewrite IH. do 3 f_equal. lia.
Qed.

(** Among [7 * q + r] consecutive days, with [r < 7], a weekday occurs [q]
    or [q + 1] times. *)
Lemma conta_dia_da_semana (w : Z) (q r : nat) : forall ini,
  (0 <= w < 7)%Z -> (r < 7)%nat ->
  (q <= List.length (no_dia_da_semana w (dias_desde ini (7 * q + r))) <= q + 1)%nat.
Proof.
  induction q as [|q IH]; intros ini Hw Hr.
  - cbn [Nat.mul Nat.add]. split; [lia|].
    pose proof (uma_vez_por_semana ini Hw) as H7.
    replace 7%nat with (r + (7 - r))%nat in H7 by lia.
    rewrite dias_desde_app in H7. unfold no_dia_da_semana in *.
    rewrite filter_app, length_app in H7. lia.
  - replace (7 * S q + r)%nat with (7 + (7 * q + r))%nat by lia.
    rewrite dias_desde_app. unfold no_dia_da_semana in *.
    rewrite filter_app, length_app.
    pose proof (uma_vez_por_semana ini Hw) as H7. unfold no_dia_da_semana in H7.
    rewrite H7. specialize (IH (ini + Z.of_nat 7)%Z Hw Hr). lia.
Qed.

Lemma conta_dia_no_ano (w ano : Z) :
  (0 <= w < 7)%Z ->
  (52 <= List.length (no_dia_da_semana w (dias_desde (primeiro_dia ano) (dias_do_ano ano)))
   <= 53)%nat.
Proof.
  intros Hw. unfold dias_do_ano. destruct (is_leap ano).
  - change 366%nat with (7 * 52 + 2)%nat.
    pose proof (@conta_dia_da_semana w 52 2 (primeiro_dia ano) Hw). lia.
  - change 365%nat with (7 * 52 + 1)%nat.
    pose proof (@conta_dia_da_semana w 52 1 (primeiro_dia ano) Hw). lia.
Qed.

(** X6 ([_calcular_datas_ano], sizes): for the years 1 to 9998 each of the
    three lists holds 52 or 53 dates. *)
Theorem X_calcular_datas_ano_tamanhos (ano : Z) (st : Estado) :
  (1 <= ano <= 9998)%Z ->
  exists dom qua sab,
    _calcular_datas_ano ano st =
      (Ok [("domingo", dom); ("quarta", qua); ("sabado", sab)], st) /\
    (52 <= List.length dom <= 53)%nat /\
    (52 <= List.length qua <= 53)%nat /\
    (52 <= List.length sab <= 53)%nat.
Proof.
  intros H. rewrite _calcular_datas_ano_spec by assumption. unfold datas_do_ano.
  do 3 eexists. split; [reflexivity|].
  split; [|split]; apply conta_dia_no_ano; lia.
Qed.

Lemma X_calcular_datas_ano_tamanhos_witness :
  exists dom qua sab,
    _calcular_datas_ano 2026 estado_exemplo =
      (Ok [("domingo", dom); ("quarta", qua); ("sabado", sab)], estado_exemplo) /\
    (52 <= List.length dom <= 53)%nat /\
    (52 <= List.length qua <= 53)%nat /\
    (52 <= List.length sab <= 53)%nat.
Proof.
  apply (@X_calcular_datas_ano_tamanhos 2026 estado_exemplo). lia.
Defined.

(* ================================================================== *)
(** ** Names and roster: what every method call keeps *)

Lemma seguro_ret {A} (L : list string) (Q : A -> Prop) (a : A) :
  Q a -> seguro L Q (ret a).
Proof. intros H st Hj. now split. Qed.

Lemma seguro_raise {A} (L : list string) (Q : A -> Prop) (e : excecao) :
  seguro L Q (raise e).
Proof. intros st Hj. now split. Qed.

Lemma seguro_lift {A} (L : list string) (Q : A -> Prop) (r : resultado A) :
  (forall a, r = Ok a -> Q a) -> seguro L Q (lift r).
Proof. intros H st Hj. split; [exact Hj|]. cbn. destruct r; auto. Qed.

Lemma seguro_bind {A B} (L : list string) (Q1 : A -> Prop) (Q2 : B -> Prop)
    (m : M A) (f : A -> M B) :
  seguro L Q1 m -> (forall a, Q1 a -> seguro L Q2 (f a)) -> seguro L Q2 (bind m f).
Proof.
  intros Hm Hf st Hj. destruct (Hm st Hj) as [Hj1 Hq]. unfold bind.
  destruct (m st) as [[a|e] st1]; cbn [fst snd] in *.
  - now apply Hf.
  - now split.
Qed.

Lemma seguro_fraco {A} (L : list string) (Q Q' : A -> Prop) (m : M A) :
  seguro L Q m -> (forall a, Q a -> Q' a) -> seguro L Q' m.
Proof.
  intros Hm Hq st Hj. destruct (Hm st Hj) as [Hj1 H]. split; [exact Hj1|].
  destruct (fst (m st)); auto.
Qed.

Lemma seguro_get_self (L : list string) :
  seguro L (nomes_da_lista L) get_self.
Proof. intros st Hj. now split. Qed.

Lemma seguro_set_chaves_usadas (L : list string) (u : list string) :
  seguro L (fun _ => True) (set_chaves_usadas u).
Proof. intros st Hj. split; [exact Hj | exact I]. Qed.

Lemma seguro_set_chave_semanal (L : list string) (c : dict date string) :
  (forall s m, dict_get Z.eqb s c = Ok m -> In m L) ->
  seguro L (fun _ => True) (set_chave_semanal c).
Proof.
  intros Hc st (H1 & H2 & H3). split; [|exact I]. repeat split; assumption.
Qed.

Lemma seguro_set_escala_gerada (L : list string) (v : list DiaconoEscala) :
  Forall (fun r => In (nome r) L) v ->
  seguro L (fun _ => True) (set_escala_gerada v).
Proof.
  intros Hv st (H1 & H2 & H3). split; [|exact I]. repeat split; assumption.
Qed.

Lemma seguro_escala_append (L : list string) (r : DiaconoEscala) :
  In (nome r) L -> seguro L (fun _ => True) (escala_append r).
Proof.
  intros Hr st (H1 & H2 & H3). split; [|exact I]. cbn.
  repeat split; try assumption. apply Forall_app. split; [assumption|].
  now repeat constructor.
Qed.

Lemma seguro_random_choice (L : list string) (seq : list string) :
  incl seq L -> seguro L (fun n => In n L) (random_choice seq).
Proof.
  intros Hs st Hj. destruct seq as [|d r]; [now split|].
  assert (Hne : d :: r <> []) by discriminate.
  destruct (random_choice_ok st Hne) as [n [Hn He]]. rewrite He. cbn.
  split; [exact Hj | now apply Hs].
Qed.

Lemma seguro__sortear_diacono (L : list string) (pool : list string) :
  incl pool L -> seguro L (fun n => In n L) (_sortear_diacono pool).
Proof.
  intros Hs. destruct pool as [|d r]; [apply seguro_raise|].
  now apply seguro_random_choice.
Qed.

Lemma seguro_para_cada {A} (L : list string) (l : list A) (f : A -> M unit) :
  (forall x, In x l -> seguro L (fun _ => True) (f x)) ->
  seguro L (fun _ => True) (para_cada l f).
Proof.
  induction l as [|x r IH]; intros Hf; cbn [para_cada].
  - now apply seguro_ret.
  - eapply seguro_bind; [apply Hf; now left|]. intros _ _. apply IH.
    intros y Hy. apply Hf. now right.
Qed.

Lemma incl__remover_diacono (L pool : list string) (n : string) :
  incl pool L -> incl (_remover_diacono pool n) L.
Proof. intros H x Hx. apply _remover_diacono_In in Hx. apply H. tauto. Qed.

Lemma seguro__obter_proximo_chave_circular (L : list string) :
  seguro L (fun n => In n L) _obter_proximo_chave_circular.
Proof.
  unfold _obter_proximo_chave_circular.
  eapply seguro_bind; [apply seguro_get_self|]. intros g Hg.
  eapply seguro_bind with (Q1 := fun _ => True).
  { destruct (_ <=? _)%nat; [apply seguro_set_chaves_usadas | now apply seguro_ret]. }
  intros _ _.
  eapply seguro_bind; [apply seguro_get_self|]. intros g' (Hl & _ & _).
  eapply seguro_bind with (Q1 := fun seq => incl seq L).
  { destruct (filter _ _) as [|d r] eqn:Ef.
    - eapply seguro_bind; [apply seguro_set_chaves_usadas|]. intros _ _.
      apply seguro_ret. rewrite Hl. apply incl_refl.
    - apply seguro_ret. rewrite <- Ef. intros x Hx. apply filter_In in Hx.
      rewrite <- Hl. tauto. }
  intros seq Hseq.
  eapply seguro_bind; [now apply seguro_random_choice|]. intros n Hn.
  eapply seguro_bind; [apply seguro_get_self|]. intros g'' _.
  eapply seguro_bind; [apply seguro_set_chaves_usadas|]. intros _ _.
  now apply seguro_ret.
Qed.

Lemma seguro__adicionar_escala_sabado_anual (L : list string) (d : date) :
  seguro L (fun _ => True) (_adicionar_escala_sabado_anual d).
Proof.
  unfold _adicionar_escala_sabado_anual.
  eapply seguro_bind; [apply seguro__obter_proximo_chave_circular|]. intros n Hn.
  eapply seguro_bind; [apply seguro_get_self|]. intros g (Hl & _ & Hc).
  eapply seguro_bind.
  { apply seguro_set_chave_semanal. intros s m Hm.
    destruct (Z.eq_dec s d) as [->|Hne].
    - rewrite dict_get_set in Hm. injection Hm as <-. exact Hn.
    - rewrite dict_get_set_outro in Hm by assumption. eapply Hc; eassumption. }
  intros _ _.
  eapply seguro_bind; [now apply seguro_escala_append|]. intros _ _.
  apply seguro_para_cada. intros x _.
  eapply seguro_bind; [apply seguro_get_self|]. intros g' (Hl' & _ & _).
  eapply seguro_bind.
  { apply seguro__sortear_diacono. rewrite Hl'. apply incl_refl. }
  intros o Ho. now apply seguro_escala_append.
Qed.

Lemma seguro__adicionar_escala_dia_anual (L : list string) (dia_semana : string) (d : date) :
  seguro L (fun _ => True) (_adicionar_escala_dia_anual dia_semana d).
Proof.
  unfold _adicionar_escala_dia_anual.
  eapply seguro_bind with (Q1 := fun _ => True).
  { unfold _encontrar_sabado_semana.
    destruct (_ =? 6)%Z; [|destruct (_ =? 2)%Z].
    - eapply seguro_bind with (Q1 := fun _ => True); [now apply seguro_lift|].
      intros; now apply seguro_ret.
    - eapply seguro_bind with (Q1 := fun _ => True); [now apply seguro_lift|].
      intros; now apply seguro_ret.
    - now apply seguro_ret. }
  intros sab _.
  eapply seguro_bind; [apply seguro_get_self|]. intros g (Hl & _ & Hc).
  eapply seguro_bind with (Q1 := fun n => In n L).
  { destruct sab as [s|]; [|apply seguro__obter_proximo_chave_circular].
    destruct (dict_in Z.eqb s (_chave_semanal g)).
    - apply seguro_lift. intros m Hm. eapply Hc; eassumption.
    - apply seguro__obter_proximo_chave_circular. }
  intros n Hn. now apply seguro_escala_append.
Qed.

(** The annual generation after its first assignment. *)
Lemma seguro_gerar_escala_anual (L : list string) (ano : Z) :
  seguro L (fun esc => Forall (fun r => In (nome r) L) esc)
    (set_chaves_usadas [] ;;;
     set_chave_semanal [] ;;;
     datas_por_dia <- _calcular_datas_ano ano ;;
     para_cada (sort_por_data (juntar_datas datas_por_dia)) processar_data ;;;
     g <- get_self ;; ret (escala_gerada g)).
Proof.
  eapply seguro_bind; [apply seguro_set_chaves_usadas|]. intros _ _.
  eapply seguro_bind; [apply seguro_set_chave_semanal; intros s m H; discriminate H|].
  intros _ _.
  eapply seguro_bind with (Q1 := fun _ => True).
  { intros s Hj. rewrite (_calcular_datas_ano_estado ano s) at 1.
    split; [exact Hj|]. destruct (fst _); exact I. }
  intros datas _.
  eapply seguro_bind.
  { apply seguro_para_cada. intros [d dia_semana] _. unfold processar_data.
    destruct (String.eqb dia_semana "sabado").
    - apply seguro__adicionar_escala_sabado_anual.
    - apply seguro__adicionar_escala_dia_anual. }
  intros _ _.
  eapply seguro_bind; [apply seguro_get_self|]. intros g (_ & Hesc & _).
  now apply seguro_ret.
Qed.

(** X7 ([gerar_escala_anual], names and roster): whatever the generator
    held before, whatever the year and whether the call returns or raises,
    the roster is left as it was, and every name of the schedule and of the
    weekly map the call leaves behind, and of the schedule it returns, is a
    name of the roster. *)
Theorem X_gerar_escala_anual_nomes (ano : Z) (st : Estado) :
  let g' := self (snd (gerar_escala_anual ano st)) in
  lista_diaconos g' = lista_diaconos (self st) /\
  Forall (fun r => In (nome r) (lista_diaconos (self st))) (escala_gerada g') /\
  (forall s m, dict_get Z.eqb s (_chave_semanal g') = Ok m ->
     In m (lista_diaconos (self st))) /\
  (forall esc, fst (gerar_escala_anual ano st) = Ok esc ->
     Forall (fun r => In (nome r) (lista_diaconos (self st))) esc).
Proof.
  set (L := lista_diaconos (self st)).
  set (st1 := {| self := {| lista_diaconos := L; escala_gerada := [];
                            _chaves_usadas := []; _chave_semanal := [] |};
                 random := random st |}).
  assert (E : gerar_escala_anual ano st =
              (set_chaves_usadas [] ;;;
               set_chave_semanal [] ;;;
               datas_por_dia <- _calcular_datas_ano ano ;;
               para_cada (sort_por_data (juntar_datas datas_por_dia)) processar_data ;;;
               g <- get_self ;; ret (escala_gerada g)) st1) by reflexivity.
  assert (Hj : nomes_da_lista L (self st1)).
  { split; [reflexivity|]. split; [constructor|]. intros s m H. discriminate H. }
  destruct (@seguro_gerar_escala_anual L ano st1 Hj) as [(H1 & H2 & H3) H4].
  cbv zeta. rewrite E.
  split; [exact H1|]. split; [exact H2|]. split; [exact H3|].
  intros esc Hesc. rewrite Hesc in H4. exact H4.
Qed.

(** X8 ([gerar_escala_semanal], names and roster): whatever the flag and
    whether the call returns or raises, the roster is left as it was and every
    record of the schedule the call leaves behind carries a roster name, no
    date, a day among domingo, quarta, sabado and a role among chave,
    oferta. *)
Theorem X_gerar_escala_semanal_nomes (ev : bool) (st : Estado) :
  let g' := self (snd (gerar_escala_semanal ev st)) in
  lista_diaconos g' = lista_diaconos (self st) /\
  Forall (fun r => In (nome r) (lista_diaconos (self st)) /\ data r = None /\
                   In (dia r) DIAS_ESCALA /\ In (funcao r) ["chave"; "oferta"])
         (escala_gerada g').
Proof.
  cbv zeta. destruct (lista_diaconos (self st)) as [|d l] eqn:El.
  - unfold gerar_escala_semanal, bind, set_escala_gerada, set_chaves_usadas, get_self.
    cbn [self lista_diaconos escala_gerada fst snd]. rewrite El.
    unfold _adicionar_escala_dia, bind. cbn. split; [reflexivity | constructor].
  - assert (Hl : lista_diaconos (self st) <> []) by (rewrite El; discriminate).
    destruct (gerar_escala_semanal_spec ev st Hl) as (r & st' & He & Hl' & Hall & _).
    rewrite He. cbn [snd]. rewrite El in *. split; [exact Hl'|].
    eapply Forall_impl; [|exact Hall]. cbn beta. tauto.
Qed.

(* ================================================================== *)
(** ** Order and size of the annual schedule *)

Lemma datas_de_app (a b : list DiaconoEscala) :
  datas_de (a ++ b) = datas_de a ++ datas_de b.
Proof. apply flat_map_app. Qed.

Lemma In_datas_de (d : date) (esc : list DiaconoEscala) :
  In d (datas_de esc) <-> exists r, In r esc /\ data r = Some d.
Proof.
  unfold datas_de. rewrite in_flat_map. split.
  - intros (r & Hr & Hd). exists r. split; [assumption|].
    destruct (data r); [|destruct Hd]. destruct Hd as [-> | []]. reflexivity.
  - intros (r & Hr & Hd). exists r. split; [assumption|]. rewrite Hd. now left.
Qed.

Lemma nao_decrescente_app (a b : list date) :
  nao_decrescente a -> nao_decrescente b ->
  (forall x y, In x a -> In y b -> (x <= y)%Z) ->
  nao_decrescente (a ++ b).
Proof.
  induction a as [|x a IH]; intros Ha Hb Hab; [exact Hb|].
  destruct Ha as [Hx Ha]. cbn [app nao_decrescente]. split.
  - apply Forall_app. split; [exact Hx|].
    apply Forall_forall. intros y Hy. apply Hab; [now left | assumption].
  - apply IH; try assumption. intros u v Hu Hv. apply Hab; [now right | assumption].
Qed.

Lemma nao_decrescente_constante (d : date) (l : list date) :
  (forall x, In x l -> x = d) -> nao_decrescente l.
Proof.
  induction l as [|x l IH]; intros H; [exact I|]. split.
  - apply Forall_forall. intros y Hy.
    rewrite (H x (or_introl eq_refl)), (H y (or_intror Hy)). lia.
  - apply IH. intros y Hy. apply H. now right.
Qed.

Lemma forma_do_dia_tamanho (e : date * string) (bloco : list DiaconoEscala) :
  forma_do_dia (snd e) (fst e) bloco -> List.length bloco = registros_do_evento e.
Proof.
  unfold forma_do_dia, registros_do_evento.
  destruct (String.eqb (snd e) "sabado").
  - intros (n & o1 & o2 & ->). reflexivity.
  - intros (n & ->). reflexivity.
Qed.

(** The annual loop appends the records of its events in their order: the
    dates of the schedule stay in non-decreasing order and the schedule grows
    by three records for a Saturday and by one for any other event. *)
Lemma para_cada_processar_ordem (l : list (date * string)) : forall (b : date) st,
  lista_diaconos (self st) <> [] ->
  invariante b (self st) ->
  crescente (map fst l) ->
  (forall e, In e l -> evento_valido e /\ (b <= fst e)%Z /\ (4 < fst e <= MAXORDINAL)%Z) ->
  nao_decrescente (datas_de (escala_gerada (self st))) ->
  let st' := snd (para_cada l processar_data st) in
  nao_decrescente (datas_de (escala_gerada (self st'))) /\
  List.length (escala_gerada (self st')) =
    (List.length (escala_gerada (self st)) + list_sum (map registros_do_evento l))%nat.
Proof.
  induction l as [|e l IH]; intros b st Hl Hinv Hcr Hev Hord.
  - cbn. split; [assumption | lia].
  - cbn [map crescente] in Hcr. destruct Hcr as [Hmenor Hcr].
    destruct (Hev e (or_introl eq_refl)) as (Hve & Hbe & Hde).
    destruct (@processar_data_spec b e st Hl Hinv Hve Hbe Hde)
      as (st1 & bloco & He1 & Hl1 & Hesc1 & Hforma & Hdatas & Hinv1 & _).
    cbv zeta. cbn [para_cada]. rewrite (bind_ok _ _ _ He1).
    assert (Hl1' : lista_diaconos (self st1) <> []) by now rewrite Hl1.
    assert (Hord1 : nao_decrescente (datas_de (escala_gerada (self st1)))).
    { rewrite Hesc1, datas_de_app. apply nao_decrescente_app.
      - exact Hord.
      - apply (@nao_decrescente_constante (fst e)). intros x Hx.
        apply In_datas_de in Hx. destruct Hx as (r & Hr & Hd).
        rewrite (Hdatas r Hr) in Hd. now injection Hd.
      - intros x y Hx Hy. apply In_datas_de in Hx, Hy.
        destruct Hx as (r & Hr & Hd), Hy as (r' & Hr' & Hd').
        rewrite (Hdatas r' Hr') in Hd'. injection Hd' as <-.
        destruct Hinv as (I1 & _). destruct (I1 r Hr) as (d' & Hd'' & Hlt).
        rewrite Hd in Hd''. injection Hd'' as <-. lia. }
    destruct (IH (fst e + 1)%Z st1 Hl1' Hinv1 Hcr) as [Ho Hlen]; [|exact Hord1|].
    { intros e' He'. destruct (Hev e' (or_intror He')) as (H1 & _ & H3).
      repeat split; try assumption; try lia.
      rewrite Forall_forall in Hmenor. specialize (Hmenor (fst e') (in_map fst _ _ He')).
      lia. }
    split; [exact Ho|].
    rewrite Hlen, Hesc1, length_app, (@forma_do_dia_tamanho e bloco Hforma).
    change (list_sum (map registros_do_evento (e :: l)))
      with (registros_do_evento e + list_sum (map registros_do_evento l))%nat.
    lia.
Qed.

(** The annual generation on the years 2 to 9998, as a run of the annual
    loop from the state the three first assignments leave. *)
Lemma gerar_escala_anual_laco (ano : Z) st :
  lista_diaconos (self st) <> [] ->
  (2 <= ano <= 9998)%Z ->
  let st0 := {| self := {| lista_diaconos := lista_diaconos (self st);
                           escala_gerada := []; _chaves_usadas := [];
                           _chave_semanal := [] |};
                random := random st |} in
  let st' := snd (para_cada (todas_datas_do_ano ano) processar_data st0) in
  gerar_escala_anual ano st = (Ok (escala_gerada (self st')), st') /\
  nao_decrescente (datas_de (escala_gerada (self st'))) /\
  List.length (escala_gerada (self st')) =
    list_sum (map registros_do_evento (todas_datas_do_ano ano)).
Proof.
  intros Hl Hano st0 st'.
  destruct (todas_datas_do_ano_spec ano) as [Hcr Hev].
  assert (Hlim : (0 < primeiro_dia ano /\ ultimo_dia ano < MAXORDINAL)%Z)
    by (apply primeiro_dia_limites; lia).
  assert (H366 : (366 <= primeiro_dia ano)%Z) by (apply primeiro_dia_ano2; lia).
  assert (Hevs : forall e, In e (todas_datas_do_ano ano) ->
            evento_valido e /\ (primeiro_dia ano <= fst e)%Z /\
            (4 < fst e <= MAXORDINAL)%Z).
  { intros e He. apply Hev in He. destruct He as [Hv Hn]. unfold no_ano in Hn.
    repeat split; try assumption; lia. }
  assert (Hinv0 : invariante (primeiro_dia ano) (self st0)) by apply invariante_inicial.
  destruct (@para_cada_processar_spec (todas_datas_do_ano ano) (primeiro_dia ano) st0
              Hl Hinv0 Hcr Hevs) as (st1 & He & _).
  destruct (@para_cada_processar_ordem (todas_datas_do_ano ano) (primeiro_dia ano) st0
              Hl Hinv0 Hcr Hevs I) as [Ho Hlen].
  fold st' in Ho, Hlen. cbn [escala_gerada self st0 List.length Nat.add] in Hlen.
  assert (Est : st' = st1) by (unfold st'; now rewrite He).
  split; [|split; assumption].
  unfold gerar_escala_anual.
  unfold bind at 1, set_escala_gerada at 1.
  unfold bind at 1, set_chaves_usadas at 1.
  unfold bind at 1, set_chave_semanal at 1.
  cbn [self lista_diaconos escala_gerada _chaves_usadas _chave_semanal random].
  assert (Hano1 : (1 <= ano <= 9998)%Z) by lia.
  match goal with |- context [bind (_calcular_datas_ano ano) _ ?s] =>
    rewrite (bind_ok _ _ _ (@_calcular_datas_ano_spec ano s Hano1)) end.
  fold (todas_datas_do_ano ano). fold st0.
  rewrite (bind_ok _ _ _ He). rewrite Est. reflexivity.
Qed.

Lemma inserir_por_data_perm (x : date * string) (l : list (date * string)) :
  Permutation (inserir_por_data x l) (x :: l).
Proof.
  induction l as [|y r IH]; cbn [inserir_por_data]; [reflexivity|].
  destruct (fst x <=? fst y)%Z; [reflexivity|].
  rewrite IH. apply perm_swap.
Qed.

Lemma sort_por_data_perm (l : list (date * string)) :
  Permutation (sort_por_data l) l.
Proof.
  induction l as [|x r IH]; [reflexivity|].
  change (sort_por_data (x :: r)) with (inserir_por_data x (sort_por_data r)).
  rewrite inserir_por_data_perm. now constructor.
Qed.

Lemma list_sum_perm (a b : list nat) : Permutation a b -> list_sum a = list_sum b.
Proof. induction 1; simpl; lia. Qed.

Lemma list_sum_eventos (s : string) (k : nat) (l : list date) :
  registros_do_evento (0%Z, s) = k ->
  list_sum (map registros_do_evento (map (fun d => (d, s)) l)) = (k * List.length l)%nat.
Proof.
  intros Hk. induction l as [|d r IH]; [cbn; lia|].
  change (list_sum (map registros_do_evento (map (fun d0 => (d0, s)) (d :: r))))
    with (registros_do_evento (d, s)
          + list_sum (map registros_do_evento (map (fun d0 => (d0, s)) r)))%nat.
  rewrite IH. cbn [List.length].
  unfold registros_do_evento in *. cbn [snd] in *. lia.
Qed.

(** The number of records the events of a year produce. *)
Lemma registros_do_ano (ano : Z) :
  let dias := dias_desde (primeiro_dia ano) (dias_do_ano ano) in
  list_sum (map registros_do_evento (todas_datas_do_ano ano)) =
    (List.length (no_dia_da_semana 6 dias) + List.length (no_dia_da_semana 2 dias)
     + 3 * List.length (no_dia_da_semana 5 dias))%nat.
Proof.
  cbv zeta. unfold todas_datas_do_ano.
  rewrite (list_sum_perm (Permutation_map _ (sort_por_data_perm _))).
  rewrite juntar_datas_do_ano. cbv zeta.
  rewrite !map_app, !list_sum_app.
  rewrite (@list_sum_eventos "domingo" 1), (@list_sum_eventos "quarta" 1),
          (@list_sum_eventos "sabado" 3) by reflexivity.
  lia.
Qed.

(** X9 ([gerar_escala_anual], chronological order): on the years 2 to 9998
    every record of the returned schedule carries a date of the year, and the
    dates follow each other in non-decreasing order. *)
Theorem X_gerar_escala_anual_ordem (ano : Z) (st : Estado) :
  lista_diaconos (self st) <> [] ->
  (2 <= ano <= 9998)%Z ->
  exists esc st',
    gerar_escala_anual ano st = (Ok esc, st') /\
    (forall r, In r esc -> exists d, data r = Some d /\ no_ano ano d) /\
    nao_decrescente (datas_de esc).
Proof.
  intros Hl Hano.
  destruct (gerar_escala_anual_laco st Hl Hano) as (He & Ho & _).
  do 2 eexists. split; [exact He|]. split; [|exact Ho].
  intros r Hr.
  destruct (gerar_escala_anual_retorno ano st Hl He) as (_ & _ & _ & _ & Horig).
  destruct (Horig r Hr) as (e & _ & Hn & Hd). now exists (fst e).
Qed.

Lemma X_gerar_escala_anual_ordem_witness :
  exists esc st',
    gerar_escala_anual 2026 estado_exemplo = (Ok esc, st') /\
    (forall r, In r esc -> exists d, data r = Some d /\ no_ano 2026 d) /\
    nao_decrescente (datas_de esc).
Proof.
  apply (@X_gerar_escala_anual_ordem 2026 estado_exemplo); [cbn; discriminate | lia].
Defined.

(** X10 ([gerar_escala_anual], size): on the years 2 to 9998 the returned
    schedule has one record for each Sunday and each Wednesday of the year and
    three for each Saturday, with the dates as [_calcular_datas_ano] lists
    them; that is between 260 and 265 records. *)
Theorem X_gerar_escala_anual_tamanho (ano : Z) (st : Estado) :
  lista_diaconos (self st) <> [] ->
  (2 <= ano <= 9998)%Z ->
  exists esc st' dom qua sab,
    gerar_escala_anual ano st = (Ok esc, st') /\
    fst (_calcular_datas_ano ano st) =
      Ok [("domingo", dom); ("quarta", qua); ("sabado", sab)] /\
    List.length esc = (List.length dom + List.length qua + 3 * List.length sab)%nat /\
    (260 <= List.length esc <= 265)%nat.
Proof.
  intros Hl Hano.
  destruct (gerar_escala_anual_laco st Hl Hano) as (He & _ & Hlen).
  rewrite registros_do_ano in Hlen. cbv zeta in Hlen.
  do 5 eexists. split; [exact He|]. split.
  { rewrite _calcular_datas_ano_spec by lia. reflexivity. }
  split; [exact Hlen|]. rewrite Hlen.
  pose proof (@conta_dia_no_ano 6 ano ltac:(lia)).
  pose proof (@conta_dia_no_ano 2 ano ltac:(lia)).
  pose proof (@conta_dia_no_ano 5 ano ltac:(lia)).
  lia.
Qed.

Lemma X_gerar_escala_anual_tamanho_witness :
  exists esc st' dom qua sab,
    gerar_escala_anual 2026 estado_exemplo = (Ok esc, st') /\
    fst (_calcular_datas_ano 2026 estado_exemplo) =
      Ok [("domingo", dom); ("quarta", qua); ("sabado", sab)] /\
    List.length esc = (List.length dom + List.length qua + 3 * List.length sab)%nat /\
    (260 <= List.length esc <= 265)%nat.
Proof.
  apply (@X_gerar_escala_anual_tamanho 2026 estado_exemplo); [cbn; discriminate | lia].
Defined.

(* ================================================================== *)
(** ** The weekly map, the day tags and the failing years *)

(** X11 ([gerar_escala_anual], weekly map): on the years 2 to 9998 the
    weekly map the call leaves behind has exactly the Saturdays of the year as
    its keys, and the name under a Saturday is the one primary of that
    Saturday in the returned schedule. *)
Theorem X_gerar_escala_anual_chave_semanal (ano : Z) (st : Estado) :
  lista_diaconos (self st) <> [] ->
  (2 <= ano <= 9998)%Z ->
  exists esc st',
    gerar_escala_anual ano st = (Ok esc, st') /\
    (forall s, dict_in Z.eqb s (_chave_semanal (self st')) = true <->
               no_ano ano s /\ weekday s = 5%Z) /\
    (forall s n, dict_get Z.eqb s (_chave_semanal (self st')) = Ok n ->
                 chaves_da_data s esc = [n]).
Proof.
  intros Hl Hano.
  destruct (gerar_escala_anual_spec st Hl Hano) as (st' & He & _).
  destruct (gerar_escala_anual_retorno ano st Hl He) as (_ & _ & Hinv & Hf & Horig).
  destruct Hinv as (I1 & I2 & I3).
  exists (escala_gerada (self st')), st'. split; [exact He|]. split.
  - intros s. split.
    + intros Hin. destruct (I2 s Hin) as [_ (n & o1 & o2 & Hreg & _)].
      assert (Hr : In (registro n "chave" "sabado" s) (escala_gerada (self st'))).
      { apply (registros_da_data_In s). rewrite Hreg. now left. }
      destruct (Horig _ Hr) as (e & Hv & Hn & Hd). cbn in Hd. injection Hd as ->.
      split; [exact Hn|].
      destruct (Hf e Hv Hn) as [Hforma _]. rewrite Hreg in Hforma.
      unfold forma_do_dia in Hforma.
      destruct Hv as [[Hs Hw] | [[Hs Hw] | [Hs Hw]]]; [exact Hw | |];
        rewrite Hs in Hforma; cbn in Hforma; destruct Hforma as [m Hm]; discriminate Hm.
    + intros [Hn Hw]. destruct (Hf (s, "sabado")) as [_ H]; cbn [fst snd]; auto.
      left. now split.
  - intros s n Hget. pose proof (dict_get_in _ _ Hget) as Hin.
    destruct (I2 s Hin) as [_ (n' & o1 & o2 & Hreg & Hget')].
    rewrite Hget in Hget'. injection Hget' as <-.
    unfold chaves_da_data. rewrite Hreg. reflexivity.
Qed.

Lemma X_gerar_escala_anual_chave_semanal_witness :
  exists esc st',
    gerar_escala_anual 2026 estado_exemplo = (Ok esc, st') /\
    (forall s, dict_in Z.eqb s (_chave_semanal (self st')) = true <->
               no_ano 2026 s /\ weekday s = 5%Z) /\
    (forall s n, dict_get Z.eqb s (_chave_semanal (self st')) = Ok n ->
                 chaves_da_data s esc = [n]).
Proof.
  apply (@X_gerar_escala_anual_chave_semanal 2026 estado_exemplo);
    [cbn; discriminate | lia].
Defined.

(** X12 ([gerar_escala_anual] and [_obter_nome_dia_semana]): in every
    schedule the annual generation returns, the day tag of a record is the
    name [_obter_nome_dia_semana] gives to the weekday of the record's date,
    which is how [exibir_escala] labels that date. *)
Theorem X_dia_do_registro (ano : Z) (st : Estado) (esc : list DiaconoEscala)
    (st' : Estado) :
  lista_diaconos (self st) <> [] ->
  gerar_escala_anual ano st = (Ok esc, st') ->
  forall r, In r esc ->
    exists d, data r = Some d /\ dia r = _obter_nome_dia_semana (weekday d).
Proof.
  intros Hl He r Hr.
  destruct (gerar_escala_anual_retorno ano st Hl He) as (_ & _ & _ & Hf & Horig).
  destruct (Horig r Hr) as (e & Hv & Hn & Hd).
  exists (fst e). split; [exact Hd|].
  destruct (Hf e Hv Hn) as [Hforma _].
  assert (Hin : In r (registros_da_data (fst e) esc)) by now apply registros_da_data_In.
  unfold forma_do_dia in Hforma.
  destruct Hv as [[Hs Hw] | [[Hs Hw] | [Hs Hw]]]; rewrite Hs in Hforma; cbn in Hforma;
    rewrite Hw.
  - destruct Hforma as (n & o1 & o2 & E). rewrite E in Hin.
    destruct Hin as [<- | [<- | [<- | []]]]; reflexivity.
  - destruct Hforma as (n & E). rewrite E in Hin. destruct Hin as [<- | []]. reflexivity.
  - destruct Hforma as (n & E). rewrite E in Hin. destruct Hin as [<- | []]. reflexivity.
Qed.

Lemma X_dia_do_registro_witness :
  exists esc st',
    gerar_escala_anual 2026 estado_exemplo = (Ok esc, st') /\
    forall r, In r esc ->
      exists d, data r = Some d /\ dia r = _obter_nome_dia_semana (weekday d).
Proof.
  assert (Hl : lista_diaconos (self estado_exemplo) <> []) by (cbn; discriminate).
  destruct (@gerar_escala_anual_spec 2026 estado_exemplo Hl ltac:(lia)) as (st' & He & _).
  exists (escala_gerada (self st')), st'. split; [exact He|].
  exact (@X_dia_do_registro 2026 estado_exemplo _ st' Hl He).
Defined.




(** X14 ([gerar_escala_anual], fresh start): the call clears the schedule,
    the used list and the weekly map before anything else, so its outcome and
    the state it leaves depend on the roster and on the random generator only,
    not on what earlier calls left in the generator. *)
Theorem X_gerar_escala_anual_reinicia (ano : Z) (st1 st2 : Estado) :
  lista_diaconos (self st1) = lista_diaconos (self st2) ->
  random st1 = random st2 ->
  gerar_escala_anual ano st1 = gerar_escala_anual ano st2.
Proof.
  intros Hl Hr.
  assert (E : forall st,
            gerar_escala_anual ano st =
            (datas_por_dia <- _calcular_datas_ano ano ;;
             para_cada (sort_por_data (juntar_datas datas_por_dia)) processar_data ;;;
             g <- get_self ;; ret (escala_gerada g))
              {| self := {| lista_diaconos := lista_diaconos (self st);
                            escala_gerada := []; _chaves_usadas := [];
                            _chave_semanal := [] |};
                 random := random st |}) by reflexivity.
  rewrite (E st1), (E st2), Hl, Hr. reflexivity.
Qed.

Lemma X_gerar_escala_anual_reinicia_witness :
  gerar_escala_anual 2026 estado_usado = gerar_escala_anual 2026 estado_exemplo.
Proof.
  apply (@X_gerar_escala_anual_reinicia 2026 estado_usado estado_exemplo); reflexivity.
Defined.

(* ================================================================== *)
(** ** The shape of the legacy week *)

Lemma pelo_menos_remover (k : nat) (l : list string) (n : string) :
  pelo_menos (S k) l -> pelo_menos k (_remover_diacono l n).
Proof.
  intros (xs & Hnd & Hinc & Hlen). exists (_remover_diacono xs n).
  split; [now apply _remover_diacono_NoDup|]. split.
  - intros x Hx. apply _remover_diacono_In in Hx. apply _remover_diacono_In.
    split; [apply Hinc|]; tauto.
  - pose proof (_remover_diacono_length n Hnd). lia.
Qed.

Lemma pelo_menos_nao_vazia (l : list string) : pelo_menos 1 l -> l <> [].
Proof.
  intros (xs & _ & Hinc & Hlen) ->. destruct xs as [|x xs]; [cbn in Hlen; lia|].
  destruct (Hinc x (or_introl eq_refl)).
Qed.

Lemma pelo_menos_menos (k k' : nat) (l : list string) :
  (k' <= k)%nat -> pelo_menos k l -> pelo_menos k' l.
Proof. intros Hk (xs & H1 & H2 & H3). exists xs. repeat split; auto; lia. Qed.

(** A legacy Sunday or Wednesday, case by case. *)
Lemma _adicionar_escala_dia_forma (d : string) (pool : list string) (ev : bool) st :
  pool <> [] ->
  exists n1, In n1 pool /\
    ((exists n2 st',
        In n2 pool /\ (ev = true -> n2 <> n1) /\
        _adicionar_escala_dia d pool ev st = (Ok tt, st') /\
        lista_diaconos (self st') = lista_diaconos (self st) /\
        escala_gerada (self st') =
          escala_gerada (self st) ++
          [registro_semanal n1 "chave" d; registro_semanal n2 "oferta" d]) \/
     (exists st',
        ev = true /\ _remover_diacono pool n1 = [] /\
        _adicionar_escala_dia d pool ev st =
          (Raise (ValueError msg_sem_disponiveis), st') /\
        lista_diaconos (self st') = lista_diaconos (self st) /\
        escala_gerada (self st') =
          escala_gerada (self st) ++ [registro_semanal n1 "chave" d])).
Proof.
  intros Hp. unfold _adicionar_escala_dia.
  destruct (_sortear_diacono_ok st Hp) as [n1 [Hn1 He1]].
  exists n1. split; [exact Hn1|].
  rewrite (bind_ok _ _ _ He1).
  rewrite (bind_ok _ _ _ (escala_append_spec _ _)).
  cbn [self lista_diaconos escala_gerada _chaves_usadas _chave_semanal random].
  destruct ev.
  - destruct (_remover_diacono pool n1) as [|y q] eqn:Ep.
    + right. rewrite (bind_raise _ _ _ (_sortear_diacono_vazio _)).
      eexists. repeat split.
    + left. assert (Hq : y :: q <> []) by discriminate.
      match goal with |- context [bind (_sortear_diacono (y :: q)) _ ?s] =>
        destruct (_sortear_diacono_ok s Hq) as [n2 [Hn2 He2]] end.
      rewrite (bind_ok _ _ _ He2).
      rewrite (bind_ok _ _ _ (escala_append_spec _ _)).
      cbn [self lista_diaconos escala_gerada _chaves_usadas _chave_semanal random].
      destruct (list_remove_ok _ _ Hn2) as [l' Hl'].
      unfold bind at 1, lift. rewrite Hl'. unfold ret.
      rewrite <- Ep in Hn2. apply _remover_diacono_In in Hn2. destruct Hn2 as [Hn2 Hne].
      exists n2. eexists. split; [exact Hn2|]. split; [intros _; exact Hne|].
      split; [reflexivity|]. cbn [self lista_diaconos escala_gerada].
      split; [reflexivity|]. now rewrite <- app_assoc.
  - left.
    match goal with |- context [bind (_sortear_diacono pool) _ ?s] =>
      destruct (_sortear_diacono_ok s Hp) as [n2 [Hn2 He2]] end.
    rewrite (bind_ok _ _ _ He2).
    rewrite (bind_ok _ _ _ (escala_append_spec _ _)).
    cbn [self lista_diaconos escala_gerada _chaves_usadas _chave_semanal random].
    unfold ret.
    exists n2. eexists. split; [exact Hn2|]. split; [intros H; discriminate H|].
    split; [reflexivity|]. cbn [self lista_diaconos escala_gerada].
    split; [reflexivity|]. now rewrite <- app_assoc.
Qed.

(** A legacy Saturday, case by case. *)
Lemma _adicionar_escala_sabado_forma (pool : list string) (ev : bool) st :
  pool <> [] ->
  exists n1, In n1 pool /\
    ((exists n2 n3 st',
        In n2 pool /\ In n3 pool /\
        (ev = true -> n2 <> n1 /\ n3 <> n1 /\ n3 <> n2) /\
        _adicionar_escala_sabado pool ev st = (Ok tt, st') /\
        lista_diaconos (self st') = lista_diaconos (self st) /\
        escala_gerada (self st') =
          escala_gerada (self st) ++
          [registro_semanal n1 "chave" "sabado"; registro_semanal n2 "oferta" "sabado";
           registro_semanal n3 "oferta" "sabado"]) \/
     (exists st',
        ev = true /\
        (_remover_diacono pool n1 = [] \/
         exists n2, _remover_diacono (_remover_diacono pool n1) n2 = []) /\
        _adicionar_escala_sabado pool ev st =
          (Raise (ValueError msg_sem_disponiveis), st') /\
        lista_diaconos (self st') = lista_diaconos (self st))).
Proof.
  intros Hp. unfold _adicionar_escala_sabado.
  destruct (_sortear_diacono_ok st Hp) as [n1 [Hn1 He1]].
  exists n1. split; [exact Hn1|].
  rewrite (bind_ok _ _ _ He1).
  rewrite (bind_ok _ _ _ (escala_append_spec _ _)).
  cbn [self lista_diaconos escala_gerada _chaves_usadas _chave_semanal random
       laco_ofertas_sabado].
  destruct ev.
  - destruct (_remover_diacono pool n1) as [|y q] eqn:Ep.
    + right. rewrite (bind_raise _ _ _ (_sortear_diacono_vazio _)).
      eexists. split; [reflexivity|]. split; [now left|]. split; reflexivity.
    + assert (Hq : y :: q <> []) by discriminate.
      match goal with |- context [bind (_sortear_diacono (y :: q)) _ ?s] =>
        destruct (_sortear_diacono_ok s Hq) as [n2 [Hn2 He2]] end.
      rewrite (bind_ok _ _ _ He2).
      rewrite (bind_ok _ _ _ (escala_append_spec _ _)).
      cbn [self lista_diaconos escala_gerada _chaves_usadas _chave_semanal random].
      destruct (_remover_diacono (y :: q) n2) as [|z w] eqn:Ep2.
      * right. rewrite (bind_raise _ _ _ (_sortear_diacono_vazio _)).
        eexists. split; [reflexivity|]. split; [right; now exists n2|].
        split; reflexivity.
      * left. assert (Hw : z :: w <> []) by discriminate.
        match goal with |- context [bind (_sortear_diacono (z :: w)) _ ?s] =>
          destruct (_sortear_diacono_ok s Hw) as [n3 [Hn3 He3]] end.
        rewrite (bind_ok _ _ _ He3).
        rewrite (bind_ok _ _ _ (escala_append_spec _ _)).
        cbn [self lista_diaconos escala_gerada _chaves_usadas _chave_semanal random].
        unfold ret.
        rewrite <- Ep2 in Hn3. apply _remover_diacono_In in Hn3.
        destruct Hn3 as [Hn3 Hne32].
        rewrite <- Ep in Hn2, Hn3. apply _remover_diacono_In in Hn2, Hn3.
        destruct Hn2 as [Hn2 Hne21], Hn3 as [Hn3 Hne31].
        exists n2, n3. eexists. split; [exact Hn2|]. split; [exact Hn3|].
        split; [intros _; repeat split; assumption|].
        split; [reflexivity|]. cbn [self lista_diaconos escala_gerada].
        split; [reflexivity|]. now rewrite <- !app_assoc.
  - left.
    match goal with |- context [bind (_sortear_diacono pool) _ ?s] =>
      destruct (_sortear_diacono_ok s Hp) as [n2 [Hn2 He2]] end.
    rewrite (bind_ok _ _ _ He2).
    rewrite (bind_ok _ _ _ (escala_append_spec _ _)).
    cbn [self lista_diaconos escala_gerada _chaves_usadas _chave_semanal random].
    match goal with |- context [bind (_sortear_diacono pool) _ ?s] =>
      destruct (_sortear_diacono_ok s Hp) as [n3 [Hn3 He3]] end.
    rewrite (bind_ok _ _ _ He3).
    rewrite (bind_ok _ _ _ (escala_append_spec _ _)).
    cbn [self lista_diaconos escala_gerada _chaves_usadas _chave_semanal random].
    unfold ret.
    exists n2, n3. eexists. split; [exact Hn2|]. split; [exact Hn3|].
    split; [intros H; discriminate H|].
    split; [reflexivity|]. cbn [self lista_diaconos escala_gerada].
    split; [reflexivity|]. now rewrite <- !app_assoc.
Qed.

Lemma nao_pelo_menos_2 (pool : list string) (n : string) :
  _remover_diacono pool n = [] -> ~ pelo_menos 2 pool.
Proof.
  intros E H. apply (pelo_menos_remover n) in H. rewrite E in H.
  now apply pelo_menos_nao_vazia in H.
Qed.

Lemma nao_pelo_menos_3 (pool : list string) (n1 n2 : string) :
  _remover_diacono (_remover_diacono pool n1) n2 = [] -> ~ pelo_menos 3 pool.
Proof.
  intros E H. apply (pelo_menos_remover n1) in H.
  now apply (nao_pelo_menos_2 _ E) in H.
Qed.

(** The legacy week, case by case: seven records in the fixed order of days
    and roles, or an empty pool on a roster with fewer than three different
    names. *)
Lemma gerar_escala_semanal_forma (ev : bool) st :
  lista_diaconos (self st) <> [] ->
  (exists n1 n2 n3 n4 n5 n6 n7 st',
     Forall (fun n => In n (lista_diaconos (self st))) [n1; n2; n3; n4; n5; n6; n7] /\
     (ev = true -> n2 <> n1 /\ n4 <> n3 /\ n6 <> n5 /\ n7 <> n5 /\ n7 <> n6) /\
     gerar_escala_semanal ev st = (Ok (semana_completa n1 n2 n3 n4 n5 n6 n7), st') /\
     escala_gerada (self st') = semana_completa n1 n2 n3 n4 n5 n6 n7) \/
  (exists st',
     ev = true /\ ~ pelo_menos 3 (lista_diaconos (self st)) /\
     gerar_escala_semanal ev st = (Raise (ValueError msg_sem_disponiveis), st')).
Proof.
  intros Hp.
  set (pool := lista_diaconos (self st)) in *.
  set (st0 := {| self := {| lista_diaconos := pool; escala_gerada := [];
                            _chaves_usadas := [];
                            _chave_semanal := _chave_semanal (self st) |};
                 random := random st |}).
  assert (E : gerar_escala_semanal ev st =
              (_adicionar_escala_dia "domingo" pool ev ;;;
               _adicionar_escala_dia "quarta" pool ev ;;;
               _adicionar_escala_sabado pool ev ;;;
               g <- get_self ;; ret (escala_gerada g)) st0) by reflexivity.
  rewrite E. clear E.
  assert (Hn3 : forall n, _remover_diacono pool n = [] -> ~ pelo_menos 3 pool).
  { intros n E H. apply (nao_pelo_menos_2 _ E). eapply pelo_menos_menos; [|exact H]. lia. }
  destruct (@_adicionar_escala_dia_forma "domingo" pool ev st0 Hp)
    as (n1 & Hn1 & [(n2 & st1 & Hn2 & Hd1 & He1 & _ & Hesc1)
                   | (st1 & Hev & Hvz & He1 & _)]).
  2:{ right. exists st1. rewrite (bind_raise _ _ _ He1). repeat split; auto.
      eapply Hn3; eassumption. }
  cbn [self escala_gerada app st0] in Hesc1.
  rewrite (bind_ok _ _ _ He1).
  destruct (@_adicionar_escala_dia_forma "quarta" pool ev st1 Hp)
    as (n3 & Hn3' & [(n4 & st2 & Hn4 & Hd2 & He2 & _ & Hesc2)
                    | (st2 & Hev & Hvz & He2 & _)]).
  2:{ right. exists st2. rewrite (bind_raise _ _ _ He2). repeat split; auto.
      eapply Hn3; eassumption. }
  rewrite (bind_ok _ _ _ He2).
  destruct (@_adicionar_escala_sabado_forma pool ev st2 Hp)
    as (n5 & Hn5 & [(n6 & n7 & st3 & Hn6 & Hn7 & Hd3 & He3 & _ & Hesc3)
                   | (st3 & Hev & Hvz & He3 & _)]).
  2:{ right. exists st3. rewrite (bind_raise _ _ _ He3). repeat split; auto.
      destruct Hvz as [Hvz | [n Hvz]].
      - eapply Hn3; eassumption.
      - eapply nao_pelo_menos_3; eassumption. }
  rewrite (bind_ok _ _ _ He3).
  left. exists n1, n2, n3, n4, n5, n6, n7, st3.
  assert (Hesc : escala_gerada (self st3) = semana_completa n1 n2 n3 n4 n5 n6 n7).
  { rewrite Hesc3, Hesc2, Hesc1. reflexivity. }
  split; [repeat constructor; assumption|].
  split.
  { intros Hev. specialize (Hd1 Hev). specialize (Hd2 Hev).
    destruct (Hd3 Hev) as (H65 & H75 & H76). repeat split; assumption. }
  split; [|exact Hesc].
  unfold bind, get_self, ret. now rewrite Hesc.
Qed.

(** X15 ([gerar_escala_semanal], structure): whatever schedule the legacy
    week returns, it has seven undated records in this order: the primary and
    the secondary of domingo, the primary and the secondary of quarta, the
    primary and the two secondaries of sabado; each name is a roster name, and
    the schedule is also what the generator holds afterwards. *)
Theorem X_gerar_escala_semanal_estrutura (ev : bool) (st : Estado)
    (esc : list DiaconoEscala) (st' : Estado) :
  lista_diaconos (self st) <> [] ->
  gerar_escala_semanal ev st = (Ok esc, st') ->
  escala_gerada (self st') = esc /\
  exists n1 n2 n3 n4 n5 n6 n7,
    esc = semana_completa n1 n2 n3 n4 n5 n6 n7 /\
    Forall (fun n => In n (lista_diaconos (self st))) [n1; n2; n3; n4; n5; n6; n7].
Proof.
  intros Hl He.
  destruct (gerar_escala_semanal_forma ev st Hl)
    as [(n1 & n2 & n3 & n4 & n5 & n6 & n7 & st1 & Hin & _ & He1 & Hesc)
       | (st1 & _ & _ & He1)];
    rewrite He in He1; [|discriminate He1].
  injection He1 as -> ->. split; [exact Hesc|].
  now exists n1, n2, n3, n4, n5, n6, n7.
Qed.

Lemma X_gerar_escala_semanal_estrutura_witness :
  exists esc st',
    gerar_escala_semanal false (novo_estado ["A"] fluxo_zero) = (Ok esc, st') /\
    escala_gerada (self st') = esc /\
    exists n1 n2 n3 n4 n5 n6 n7,
      esc = semana_completa n1 n2 n3 n4 n5 n6 n7 /\
      Forall (fun n => In n ["A"]) [n1; n2; n3; n4; n5; n6; n7].
Proof.
  eexists. eexists. split; [vm_compute; reflexivity|].
  apply (@X_gerar_escala_semanal_estrutura false (novo_estado ["A"] fluxo_zero));
    [cbn; discriminate | vm_compute; reflexivity].
Defined.

(** X16 ([gerar_escala_semanal] with [evitar_repeticao]): in whatever
    schedule the call returns, the names of one day are different from each
    other: primary and secondary of domingo, primary and secondary of quarta,
    and the three names of sabado.  This holds for every roster, repeated
    names included; names of different days may coincide. *)
Theorem X_gerar_escala_semanal_nomes_do_dia (st : Estado)
    (n1 n2 n3 n4 n5 n6 n7 : string) (st' : Estado) :
  lista_diaconos (self st) <> [] ->
  gerar_escala_semanal true st = (Ok (semana_completa n1 n2 n3 n4 n5 n6 n7), st') ->
  n1 <> n2 /\ n3 <> n4 /\ NoDup [n5; n6; n7].
Proof.
  intros Hl He.
  destruct (gerar_escala_semanal_forma true st Hl)
    as [(m1 & m2 & m3 & m4 & m5 & m6 & m7 & st1 & _ & Hd & He1 & _)
       | (st1 & _ & _ & He1)];
    rewrite He in He1; [|discriminate He1].
  injection He1 as -> -> -> -> -> -> -> _.
  destruct (Hd eq_refl) as (H21 & H43 & H65 & H75 & H76).
  split; [congruence|]. split; [congruence|].
  repeat constructor; cbn; intuition congruence.
Qed.

Lemma X_gerar_escala_semanal_nomes_do_dia_witness :
  "A" <> "B" /\ "A" <> "B" /\ NoDup ["A"; "B"; "C"].
Proof.
  apply (@X_gerar_escala_semanal_nomes_do_dia
           (novo_estado ["A"; "B"; "C"] fluxo_zero) "A" "B" "A" "B" "A" "B" "C"
           (snd (gerar_escala_semanal true (novo_estado ["A"; "B"; "C"] fluxo_zero))));
    [cbn; discriminate | vm_compute; reflexivity].
Defined.

(** X17 ([gerar_escala_semanal], when it raises): on a non-empty roster,
    with [evitar_repeticao] the call returns a schedule exactly when the roster
    holds at least three different names, and raises the empty-pool
    [ValueError] otherwise; without [evitar_repeticao] it always returns. *)
Theorem X_gerar_escala_semanal_sucesso (st : Estado) :
  lista_diaconos (self st) <> [] ->
  ((exists esc, fst (gerar_escala_semanal true st) = Ok esc)
   <-> pelo_menos 3 (lista_diaconos (self st))) /\
  (~ pelo_menos 3 (lista_diaconos (self st)) ->
   fst (gerar_escala_semanal true st) = Raise (ValueError msg_sem_disponiveis)) /\
  (exists esc, fst (gerar_escala_semanal false st) = Ok esc).
Proof.
  intros Hl.
  assert (Hida : (exists esc, fst (gerar_escala_semanal true st) = Ok esc) ->
                 pelo_menos 3 (lista_diaconos (self st))).
  { intros [esc Hesc].
    destruct (gerar_escala_semanal_forma true st Hl)
      as [(m1 & m2 & m3 & m4 & m5 & m6 & m7 & st1 & Hin & Hd & He1 & _)
         | (st1 & _ & _ & He1)]; [|rewrite He1 in Hesc; discriminate Hesc].
    destruct (Hd eq_refl) as (_ & _ & H65 & H75 & H76).
    exists [m5; m6; m7]. split; [|split; [|cbn; lia]].
    - repeat constructor; cbn; intuition congruence.
    - repeat (apply Forall_cons_iff in Hin; destruct Hin as [? Hin]).
      intros x [<- | [<- | [<- | []]]]; assumption. }
  assert (Hfalha : ~ pelo_menos 3 (lista_diaconos (self st)) ->
                   fst (gerar_escala_semanal true st)
                   = Raise (ValueError msg_sem_disponiveis)).
  { intros Hn.
    destruct (gerar_escala_semanal_forma true st Hl)
      as [(m1 & m2 & m3 & m4 & m5 & m6 & m7 & st1 & Hin & Hd & He1 & _)
         | (st1 & _ & _ & He1)]; [|now rewrite He1].
    exfalso. apply Hn, Hida. rewrite He1. now eexists. }
  split; [split; [exact Hida|]|split; [exact Hfalha|]].
  - intros H3.
    destruct (gerar_escala_semanal_forma true st Hl)
      as [(m1 & m2 & m3 & m4 & m5 & m6 & m7 & st1 & _ & _ & He1 & _)
         | (st1 & _ & Hn & He1)]; [rewrite He1; now eexists | contradiction].
  - destruct (gerar_escala_semanal_forma false st Hl)
      as [(m1 & m2 & m3 & m4 & m5 & m6 & m7 & st1 & _ & _ & He1 & _)
         | (st1 & Hev & _)]; [rewrite He1; now eexists | discriminate Hev].
Qed.

Lemma X_gerar_escala_semanal_sucesso_witness :
  ((exists esc, fst (gerar_escala_semanal true estado_com_repetidos) = Ok esc)
   <-> pelo_menos 3 ["A"; "A"]) /\
  (~ pelo_menos 3 ["A"; "A"] ->
   fst (gerar_escala_semanal true estado_com_repetidos)
     = Raise (ValueError msg_sem_disponiveis)) /\
  (exists esc, fst (gerar_escala_semanal false estado_com_repetidos) = Ok esc).
Proof.
  apply (@X_gerar_escala_semanal_sucesso estado_com_repetidos). cbn. discriminate.
Defined.

(** X18 ([gerar_escala_semanal], few names): on a roster of fewer than seven
    names every schedule the call returns, with either flag, names somebody
    twice. *)
Theorem X_gerar_escala_semanal_repeticao (ev : bool) (st : Estado)
    (esc : list DiaconoEscala) (st' : Estado) :
  lista_diaconos (self st) <> [] ->
  (List.length (lista_diaconos (self st)) < 7)%nat ->
  gerar_escala_semanal ev st = (Ok esc, st') ->
  ~ NoDup (map nome esc).
Proof.
  intros Hl Hlen He Hnd.
  destruct (gerar_escala_semanal_forma ev st Hl)
    as [(n1 & n2 & n3 & n4 & n5 & n6 & n7 & st1 & Hin & _ & He1 & _)
       | (st1 & _ & _ & He1)];
    rewrite He in He1; [|discriminate He1].
  injection He1 as -> ->.
  assert (Hinc : incl (map nome (semana_completa n1 n2 n3 n4 n5 n6 n7))
                      (lista_diaconos (self st))).
  { intros x Hx. rewrite Forall_forall in Hin. apply Hin. exact Hx. }
  pose proof (NoDup_incl_length Hnd Hinc) as Hle. cbn in Hle. lia.
Qed.

Lemma X_gerar_escala_semanal_repeticao_witness :
  ~ NoDup (map nome (escala_gerada (self (snd (gerar_escala_semanal false
             (novo_estado ["A"; "B"; "C"] fluxo_zero)))))).
Proof.
  apply (@X_gerar_escala_semanal_repeticao false (novo_estado ["A"; "B"; "C"] fluxo_zero)
           _ (snd (gerar_escala_semanal false (novo_estado ["A"; "B"; "C"] fluxo_zero))));
    [cbn; discriminate | cbn; lia | vm_compute; reflexivity].
Defined.

(* ================================================================== *)
(** ** The grouping queries on any schedule *)

Lemma dict_append_dia_invalido (k : string) (x : DiaconoEscala)
    (a b c : list DiaconoEscala) :
  ~ In k DIAS_ESCALA ->
  dict_append String.eqb k x [("domingo", a); ("quarta", b); ("sabado", c)]
    = Raise KeyError.
Proof.
  intros Hk. cbn [dict_append].
  destruct (String.eqb_spec "domingo" k) as [E|_]; [exfalso; apply Hk; cbn; auto|].
  destruct (String.eqb_spec "quarta" k) as [E|_]; [exfalso; apply Hk; cbn; auto|].
  destruct (String.eqb_spec "sabado" k) as [E|_]; [exfalso; apply Hk; cbn; auto|].
  reflexivity.
Qed.

Lemma dict_append_funcao_invalida (k : string) (x : DiaconoEscala)
    (a b : list DiaconoEscala) :
  ~ In k ["chave"; "oferta"] ->
  dict_append String.eqb k x [("chave", a); ("oferta", b)] = Raise KeyError.
Proof.
  intros Hk. cbn [dict_append].
  destruct (String.eqb_spec "chave" k) as [E|_]; [exfalso; apply Hk; cbn; auto|].
  destruct (String.eqb_spec "oferta" k) as [E|_]; [exfalso; apply Hk; cbn; auto|].
  reflexivity.
Qed.

Lemma agrupar_dia_invalido (esc : list DiaconoEscala) : forall a b c,
  Exists (fun r => ~ In (dia r) DIAS_ESCALA) esc ->
  agrupar dia esc [("domingo", a); ("quarta", b); ("sabado", c)] = Raise KeyError.
Proof.
  induction esc as [|r q IH]; intros a b c Hex; [inversion Hex|].
  cbn [agrupar].
  destruct (in_dec string_dec (dia r) DIAS_ESCALA) as [Hin|Hnin].
  - assert (Hq : Exists (fun r => ~ In (dia r) DIAS_ESCALA) q).
    { inversion Hex; [contradiction | assumption]. }
    destruct Hin as [E | [E | [E | []]]]; rewrite <- E;
      cbn [dict_append String.eqb Ascii.eqb Bool.eqb]; now apply IH.
  - now rewrite dict_append_dia_invalido.
Qed.

Lemma agrupar_funcao_invalida (esc : list DiaconoEscala) : forall a b,
  Exists (fun r => ~ In (funcao r) ["chave"; "oferta"]) esc ->
  agrupar funcao esc [("chave", a); ("oferta", b)] = Raise KeyError.
Proof.
  induction esc as [|r q IH]; intros a b Hex; [inversion Hex|].
  cbn [agrupar].
  destruct (in_dec string_dec (funcao r) ["chave"; "oferta"]) as [Hin|Hnin].
  - assert (Hq : Exists (fun r => ~ In (funcao r) ["chave"; "oferta"]) q).
    { inversion Hex; [contradiction | assumption]. }
    destruct Hin as [E | [E | []]]; rewrite <- E;
      cbn [dict_append String.eqb Ascii.eqb Bool.eqb]; now apply IH.
  - now rewrite dict_append_funcao_invalida.
Qed.

(** X19 ([obter_escala_por_dia], [obter_escala_por_funcao] on any
    schedule): neither query changes the generator, and a query raises
    [KeyError] exactly when the schedule holds a record whose tag is not a
    key of its dictionary: a day other than domingo, quarta, sabado for
    [obter_escala_por_dia], a role other than chave, oferta for
    [obter_escala_por_funcao]. *)
Theorem X_consultas_em_qualquer_escala (st : Estado) :
  let esc := escala_gerada (self st) in
  snd (obter_escala_por_dia st) = st /\
  snd (obter_escala_por_funcao st) = st /\
  (fst (obter_escala_por_dia st) = Raise KeyError <->
   Exists (fun r => ~ In (dia r) DIAS_ESCALA) esc) /\
  (fst (obter_escala_por_funcao st) = Raise KeyError <->
   Exists (fun r => ~ In (funcao r) ["chave"; "oferta"]) esc).
Proof.
  cbv zeta. unfold obter_escala_por_dia, obter_escala_por_funcao, bind, get_self, lift.
  cbn [fst snd map DIAS_ESCALA].
  split; [reflexivity|]. split; [reflexivity|]. split; split.
  - intros H.
    destruct (Forall_Exists_dec (fun r => In (dia r) ["domingo"; "quarta"; "sabado"])
                (fun r => in_dec string_dec (dia r) ["domingo"; "quarta"; "sabado"])
                (escala_gerada (self st))) as [Hall | Hex]; [|exact Hex].
    rewrite (agrupar_dia_spec [] [] [] Hall) in H. discriminate H.
  - intros H. now rewrite agrupar_dia_invalido.
  - intros H.
    destruct (Forall_Exists_dec (fun r => In (funcao r) ["chave"; "oferta"])
                (fun r => in_dec string_dec (funcao r) ["chave"; "oferta"])
                (escala_gerada (self st))) as [Hall | Hex]; [|exact Hex].
    rewrite (agrupar_funcao_spec [] [] Hall) in H. discriminate H.
  - intros H. now rewrite agrupar_funcao_invalida.
Qed.

(** X20 (the queries after a legacy week): once [gerar_escala_semanal] has
    returned, [obter_escala_por_dia] gives two records for domingo, two for
    quarta and three for sabado, and [obter_escala_por_funcao] gives the three
    primaries and the four secondaries, all in schedule order. *)
Theorem X_consultas_apos_semana (ev : bool) (st : Estado)
    (esc : list DiaconoEscala) (st' : Estado) :
  lista_diaconos (self st) <> [] ->
  gerar_escala_semanal ev st = (Ok esc, st') ->
  exists r1 r2 r3 r4 r5 r6 r7,
    esc = [r1; r2; r3; r4; r5; r6; r7] /\
    obter_escala_por_dia st' =
      (Ok [("domingo", [r1; r2]); ("quarta", [r3; r4]); ("sabado", [r5; r6; r7])], st') /\
    obter_escala_por_funcao st' =
      (Ok [("chave", [r1; r3; r5]); ("oferta", [r2; r4; r6; r7])], st').
Proof.
  intros Hl He.
  destruct (gerar_escala_semanal_forma ev st Hl)
    as [(n1 & n2 & n3 & n4 & n5 & n6 & n7 & st1 & _ & _ & He1 & Hesc)
       | (st1 & _ & _ & He1)];
    rewrite He in He1; [|discriminate He1].
  injection He1 as -> ->.
  do 7 eexists. split; [reflexivity|].
  unfold obter_escala_por_dia, obter_escala_por_funcao, bind, get_self, lift.
  rewrite Hesc. split; reflexivity.
Qed.

Lemma X_consultas_apos_semana_witness :
  exists esc st' r1 r2 r3 r4 r5 r6 r7,
    gerar_escala_semanal true (novo_estado ["A"; "B"; "C"] fluxo_zero) = (Ok esc, st') /\
    esc = [r1; r2; r3; r4; r5; r6; r7] /\
    obter_escala_por_dia st' =
      (Ok [("domingo", [r1; r2]); ("quarta", [r3; r4]); ("sabado", [r5; r6; r7])], st') /\
    obter_escala_por_funcao st' =
      (Ok [("chave", [r1; r3; r5]); ("oferta", [r2; r4; r6; r7])], st').
Proof.
  assert (He : gerar_escala_semanal true (novo_estado ["A"; "B"; "C"] fluxo_zero)
               = (fst (gerar_escala_semanal true (novo_estado ["A"; "B"; "C"] fluxo_zero)),
                  snd (gerar_escala_semanal true (novo_estado ["A"; "B"; "C"] fluxo_zero))))
    by apply surjective_pairing.
  assert (Hok : fst (gerar_escala_semanal true (novo_estado ["A"; "B"; "C"] fluxo_zero))
                = Ok (semana_completa "A" "B" "A" "B" "A" "B" "C"))
    by (vm_compute; reflexivity).
  rewrite Hok in He.
  destruct (@X_consultas_apos_semana true (novo_estado ["A"; "B"; "C"] fluxo_zero) _ _
              ltac:(cbn; discriminate) He)
    as (r1 & r2 & r3 & r4 & r5 & r6 & r7 & H).
  exists (semana_completa "A" "B" "A" "B" "A" "B" "C"),
    (snd (gerar_escala_semanal true (novo_estado ["A"; "B"; "C"] fluxo_zero))),
    r1, r2, r3, r4, r5, r6, r7.
  split; [exact He | exact H].
Defined.

(* ================================================================== *)
(** ** The text rendering *)

Lemma dict_in_chaves {V} (k : date) (D : dict date V) :
  dict_in Z.eqb k D = true <-> In k (map fst D).
Proof.
  induction D as [|[k' v] r IH]; cbn [dict_in map fst In].
  - split; [discriminate | tauto].
  - rewrite Bool.orb_true_iff, IH, Z.eqb_eq. tauto.
Qed.

Lemma dict_get_valor (k : date) (D : dict date (list DiaconoEscala)) :
  In k (map fst D) -> dict_get Z.eqb k D = Ok (valor k D).
Proof.
  unfold valor. induction D as [|[k' v] r IH]; cbn [dict_get map fst In]; [tauto|].
  intros [-> | H].
  - now rewrite Z.eqb_refl.
  - destruct (Z.eqb k' k); [reflexivity | now apply IH].
Qed.

Lemma valor_ausente (k : date) (D : dict date (list DiaconoEscala)) :
  ~ In k (map fst D) -> valor k D = [].
Proof.
  unfold valor. induction D as [|[k' v] r IH]; cbn [dict_get map fst In]; [reflexivity|].
  intros H. destruct (Z.eqb_spec k' k) as [E|E]; [tauto|]. apply IH. tauto.
Qed.

(** Filing an empty list under a new date. *)
Lemma dict_set_novo (k : date) (D : dict date (list DiaconoEscala)) :
  ~ In k (map fst D) ->
  map fst (dict_set Z.eqb k [] D) = map fst D ++ [k] /\
  forall d, valor d (dict_set Z.eqb k [] D) = valor d D.
Proof.
  unfold valor. induction D as [|[k' v] r IH]; cbn [dict_set dict_get map fst In app]; intros H.
  - split; [reflexivity|]. intros d. now destruct (Z.eqb k d).
  - destruct (Z.eqb_spec k' k) as [E|E]; [tauto|].
    destruct IH as [IH1 IH2]; [tauto|].
    cbn [map fst dict_get]. rewrite IH1. split; [reflexivity|].
    intros d. destruct (Z.eqb k' d); [reflexivity | apply IH2].
Qed.

(** Appending under a date that is a key. *)
Lemma dict_append_presente (k : date) (x : DiaconoEscala)
    (D : dict date (list DiaconoEscala)) :
  In k (map fst D) ->
  exists D', dict_append Z.eqb k x D = Ok D' /\
    map fst D' = map fst D /\
    forall d, valor d D' = if Z.eqb d k then valor d D ++ [x] else valor d D.
Proof.
  unfold valor. induction D as [|[k' v] r IH]; cbn [dict_append map fst In]; [tauto|].
  intros H. destruct (Z.eqb_spec k' k) as [E|E].
  - subst k'. eexists. split; [reflexivity|]. split; [reflexivity|].
    intros d. cbn [dict_get]. rewrite (Z.eqb_sym d k).
    now destruct (Z.eqb k d).
  - destruct IH as (D' & -> & Hk & Hv); [tauto|].
    eexists. split; [reflexivity|]. cbn [map fst]. rewrite Hk. split; [reflexivity|].
    intros d. cbn [dict_get]. destruct (Z.eqb_spec k' d) as [E'|E'].
    + subst d. destruct (Z.eqb_spec k' k); [contradiction | reflexivity].
    + apply Hv.
Qed.

(** What the filing loop of [exibir_escala] builds: it never fails, its keys
    are the dates met, each once, and under each date lie the records of
    that date in schedule order. *)
Lemma agrupar_por_data_spec (esc : list DiaconoEscala) :
  forall acc, NoDup (map fst acc) ->
  exists D, agrupar_por_data esc acc = Ok D /\
    NoDup (map fst D) /\
    (forall d, In d (map fst D) <-> In d (map fst acc) \/ In d (datas_de esc)) /\
    (forall d, valor d D = valor d acc ++ registros_da_data d esc).
Proof.
  induction esc as [|r q IH]; intros acc Hnd.
  - exists acc. cbn. split; [reflexivity|]. split; [exact Hnd|].
    split; [tauto|]. intros d. now rewrite app_nil_r.
  - cbn [agrupar_por_data]. unfold registros_da_data, datas_de.
    cbn [filter flat_map]. fold (datas_de q).
    destruct (data r) as [dt|].
    + cbv zeta.
      match goal with |- context [dict_append _ dt r ?a] => set (acc1 := a) end.
      assert (H1 : NoDup (map fst acc1) /\
                   (forall d, In d (map fst acc1) <-> In d (map fst acc) \/ d = dt) /\
                   (forall d, valor d acc1 = valor d acc)).
      { subst acc1. destruct (dict_in Z.eqb dt acc) eqn:Ein.
        - apply dict_in_chaves in Ein. split; [exact Hnd|]. split; [|reflexivity].
          intros d. split; [tauto|]. intros [H | ->]; assumption.
        - assert (Hn : ~ In dt (map fst acc)).
          { intros H. apply dict_in_chaves in H. congruence. }
          destruct (@dict_set_novo dt acc Hn) as [Hk Hv].
          split; [|split; [|exact Hv]].
          + refine (eq_ind_r (@NoDup _) _ Hk).
            apply NoDup_app; [exact Hnd | repeat constructor; cbn; tauto |].
            intros x Hx [<- | []]. contradiction.
          + intros d. refine (eq_ind_r (fun l => In d l <-> _) _ Hk).
            rewrite in_app_iff. cbn [In]. intuition congruence. }
      destruct H1 as (Hnd1 & Hk1 & Hv1).
      destruct (@dict_append_presente dt r acc1) as (D1 & -> & Hk2 & Hv2).
      { apply Hk1. now right. }
      destruct (IH D1) as (D & He & HndD & HkD & HvD).
      { unfold date in *. now rewrite Hk2. }
      exists D. split; [exact He|]. split; [exact HndD|]. split.
      * intros d. unfold date in *. rewrite HkD, Hk2, Hk1. cbn [app In].
        intuition congruence.
      * intros d. rewrite HvD, Hv2, Hv1. rewrite (Z.eqb_sym dt d).
        fold (registros_da_data d q).
        destruct (Z.eqb d dt); [now rewrite <- app_assoc | reflexivity].
    + destruct (IH acc Hnd) as (D & He & HndD & HkD & HvD).
      exists D. split; [exact He|]. split; [exact HndD|]. split.
      * intros d. rewrite HkD. cbn [app]. tauto.
      * exact HvD.
Qed.

Lemma In_inserir_data (x y : date) (l : list date) :
  In y (inserir_data x l) <-> y = x \/ In y l.
Proof.
  induction l as [|z r IH]; cbn [inserir_data In]; [intuition congruence|].
  destruct (x <=? z)%Z; cbn [In]; [intuition congruence|].
  rewrite IH. intuition congruence.
Qed.

Lemma In_sorted_datas (y : date) (l : list date) : In y (sorted_datas l) <-> In y l.
Proof.
  unfold sorted_datas. induction l as [|x r IH]; cbn [fold_right In]; [tauto|].
  rewrite In_inserir_data, IH. intuition congruence.
Qed.

Lemma inserir_data_crescente (x : date) (l : list date) :
  crescente l -> ~ In x l -> crescente (inserir_data x l).
Proof.
  induction l as [|z r IH]; cbn [inserir_data crescente In].
  - intros _ _. split; [constructor | exact I].
  - intros [Hz Hr] Hx. destruct (Z.leb_spec x z) as [Hle|Hgt]; cbn [crescente].
    + assert (Hlt : (x < z)%Z) by (assert (z <> x) by tauto; lia).
      split; [|split; assumption].
      constructor; [exact Hlt|].
      eapply Forall_impl; [|exact Hz]. cbn. intros; lia.
    + split; [|apply IH; [assumption | tauto]].
      apply Forall_forall. intros y Hy. apply In_inserir_data in Hy.
      destruct Hy as [-> | Hy]; [lia|].
      rewrite Forall_forall in Hz. now apply Hz.
Qed.

(** Sorting distinct dates gives them strictly ascending. *)
Lemma sorted_datas_crescente (l : list date) : NoDup l -> crescente (sorted_datas l).
Proof.
  unfold sorted_datas. induction 1 as [|x r Hx Hnd IH]; cbn [fold_right]; [exact I|].
  apply inserir_data_crescente; [exact IH|].
  intros H. apply Hx. exact (proj1 (In_sorted_datas x r) H).
Qed.

Lemma linhas_por_data_spec (strftime_dmy : date -> string) (esc : list DiaconoEscala)
    (D : dict date (list DiaconoEscala)) (ds : list date) :
  (forall d, In d ds -> In d (map fst D)) ->
  (forall d, valor d D = registros_da_data d esc) ->
  linhas_por_data strftime_dmy ds D = Ok (flat_map (bloco_da_data strftime_dmy esc) ds).
Proof.
  intros Hk Hv. induction ds as [|d r IH]; [reflexivity|].
  cbn [linhas_por_data flat_map].
  rewrite (dict_get_valor d D) by (apply Hk; now left).
  rewrite IH by (intros d' H; apply Hk; now right).
  unfold bloco_da_data at 2. now rewrite Hv.
Qed.

(** The dated rendering of any schedule whose first record is dated. *)
Lemma exibir_escala_datada (strftime_dmy : date -> string) (st : Estado)
    (r : DiaconoEscala) (q : list DiaconoEscala) :
  escala_gerada (self st) = r :: q ->
  data r <> None ->
  exists ds,
    crescente ds /\
    (forall d, In d ds <-> In d (datas_de (r :: q))) /\
    exibir_escala strftime_dmy st =
      (Ok (String.concat nl (flat_map (bloco_da_data strftime_dmy (r :: q)) ds)), st).
Proof.
  intros Hesc Hr. unfold exibir_escala, bind, get_self, ret, lift.
  rewrite Hesc. destruct (data r) as [d0|] eqn:Ed; [|congruence].
  destruct (@agrupar_por_data_spec (r :: q) [] (NoDup_nil _)) as (D & -> & Hnd & Hk & Hv).
  exists (sorted_datas (map fst D)).
  split; [now apply sorted_datas_crescente|].
  split.
  - intros d. rewrite In_sorted_datas, Hk. cbn [map In]. tauto.
  - rewrite (@linhas_por_data_spec strftime_dmy (r :: q)); [reflexivity| |].
    + intros d. apply In_sorted_datas.
    + intros d. rewrite Hv. reflexivity.
Qed.

Lemma linhas_por_dia_spec (a b c : list DiaconoEscala) :
  linhas_por_dia DIAS_ESCALA [("domingo", a); ("quarta", b); ("sabado", c)] =
  Ok (bloco_do_dia "domingo" a ++ bloco_do_dia "quarta" b ++ bloco_do_dia "sabado" c).
Proof.
  destruct a, b, c; cbn; rewrite ?app_nil_r; reflexivity.
Qed.

(** The legacy rendering of any schedule whose first record is undated. *)
Lemma exibir_escala_legado (strftime_dmy : date -> string) (st : Estado)
    (r : DiaconoEscala) (q : list DiaconoEscala) :
  escala_gerada (self st) = r :: q ->
  data r = None ->
  (Forall (fun x => In (dia x) DIAS_ESCALA) (r :: q) ->
   exibir_escala strftime_dmy st =
     (Ok (String.concat nl
            (bloco_do_dia "domingo" (grupo dia "domingo" (r :: q)) ++
             bloco_do_dia "quarta" (grupo dia "quarta" (r :: q)) ++
             bloco_do_dia "sabado" (grupo dia "sabado" (r :: q)))), st)) /\
  (Exists (fun x => ~ In (dia x) DIAS_ESCALA) (r :: q) ->
   exibir_escala strftime_dmy st = (Raise KeyError, st)).
Proof.
  intros Hesc Hr.
  unfold exibir_escala, obter_escala_por_dia, bind, get_self, ret, lift.
  rewrite Hesc. cbv beta iota. rewrite Hr. cbv beta iota.
  rewrite ?Hesc. cbn [map DIAS_ESCALA]. split; intros H.
  - rewrite (agrupar_dia_spec [] [] [] H). cbn [app].
    now rewrite linhas_por_dia_spec.
  - now rewrite agrupar_dia_invalido.
Qed.

Lemma concat_inicio (sep : string) (c : Ascii.ascii) (s : string) (rest : list string) :
  exists t, String.concat sep (String c s :: rest) = String c t.
Proof. destruct rest; cbn; eauto. Qed.

Lemma In_grupo (chave : DiaconoEscala -> string) (k : string) (x : DiaconoEscala)
    (esc : list DiaconoEscala) :
  In x (grupo chave k esc) <-> In x esc /\ chave x = k.
Proof.
  unfold grupo. rewrite filter_In, String.eqb_eq. intuition congruence.
Qed.

(** Two strictly ascending lists with the same members are the same list. *)
Lemma crescente_unico (l1 : list date) : forall l2,
  crescente l1 -> crescente l2 -> (forall d, In d l1 <-> In d l2) -> l1 = l2.
Proof.
  induction l1 as [|a l1 IH]; intros [|b l2] H1 H2 Hm.
  - reflexivity.
  - exfalso. apply (proj2 (Hm b)). now left.
  - exfalso. apply (proj1 (Hm a)). now left.
  - cbn [crescente] in H1, H2. destruct H1 as [Ha H1], H2 as [Hb H2].
    rewrite Forall_forall in Ha, Hb.
    assert (E : a = b).
    { destruct (proj1 (Hm a) (or_introl eq_refl)) as [E | Hin]; [congruence|].
      destruct (proj2 (Hm b) (or_introl eq_refl)) as [E | Hin']; [congruence|].
      apply Ha in Hin'. apply Hb in Hin. lia. }
    subst b. f_equal. apply IH; try assumption.
    intros d. split; intros Hd.
    + destruct (proj1 (Hm d) (or_intror Hd)) as [E | Hin]; [|exact Hin].
      apply Ha in Hd. lia.
    + destruct (proj2 (Hm d) (or_intror Hd)) as [E | Hin]; [|exact Hin].
      apply Hb in Hd. lia.
Qed.

(** X21 ([exibir_escala], dated format): when the first record of the
    schedule carries a date, the text is made of one block for each date of
    the schedule, the dates taken once each in ascending order whatever the
    order of the schedule; a block is the header of the date followed by one
    line for each record of that date in schedule order, and undated records
    are left out.  The call raises nothing and leaves the generator as it
    was. *)
Theorem X_exibir_escala_por_data (strftime_dmy : date -> string) (st : Estado)
    (r : DiaconoEscala) (q : list DiaconoEscala) :
  escala_gerada (self st) = r :: q ->
  data r <> None ->
  exists ds,
    crescente ds /\
    (forall d, In d ds <-> In d (datas_de (r :: q))) /\
    exibir_escala strftime_dmy st =
      (Ok (String.concat nl (flat_map (bloco_da_data strftime_dmy (r :: q)) ds)), st).
Proof. apply exibir_escala_datada. Qed.

Lemma X_exibir_escala_por_data_witness :
  exists ds,
    crescente ds /\
    (forall d, In d ds <->
       In d (datas_de [registro "A" "chave" "quarta" 739620%Z;
                       registro "B" "chave" "domingo" 739617%Z;
                       registro "C" "oferta" "quarta" 739620%Z])) /\
    exibir_escala strftime_exemplo estado_datado =
      (Ok (String.concat nl
             (flat_map (bloco_da_data strftime_exemplo
                          [registro "A" "chave" "quarta" 739620%Z;
                           registro "B" "chave" "domingo" 739617%Z;
                           registro "C" "oferta" "quarta" 739620%Z]) ds)),
       estado_datado).
Proof.
  apply (@X_exibir_escala_por_data strftime_exemplo estado_datado).
  - reflexivity.
  - cbn. discriminate.
Defined.

(** X22 ([exibir_escala], legacy format): when the first record of the
    schedule carries no date, the records are shown by day, dated or not:
    for domingo, quarta and sabado in this order, each day that has records
    gives its header and one line for each of its records in schedule order;
    a record with any other day makes the call raise [KeyError].  Either way
    the generator is left as it was. *)
Theorem X_exibir_escala_por_dia (strftime_dmy : date -> string) (st : Estado)
    (r : DiaconoEscala) (q : list DiaconoEscala) :
  escala_gerada (self st) = r :: q ->
  data r = None ->
  (Forall (fun x => In (dia x) DIAS_ESCALA) (r :: q) ->
   exibir_escala strftime_dmy st =
     (Ok (String.concat nl
            (bloco_do_dia "domingo" (grupo dia "domingo" (r :: q)) ++
             bloco_do_dia "quarta" (grupo dia "quarta" (r :: q)) ++
             bloco_do_dia "sabado" (grupo dia "sabado" (r :: q)))), st)) /\
  (Exists (fun x => ~ In (dia x) DIAS_ESCALA) (r :: q) ->
   exibir_escala strftime_dmy st = (Raise KeyError, st)).
Proof. apply exibir_escala_legado. Qed.

Lemma X_exibir_escala_por_dia_witness :
  exibir_escala strftime_exemplo estado_misto =
    (Ok (String.concat nl
           [(nl ++ "DOMINGO:")%string; "  - B (chave)";
            (nl ++ "SABADO:")%string; "  - A (chave)"; "  - C (oferta)"]),
     estado_misto).
Proof.
  refine (proj1 (@X_exibir_escala_por_dia strftime_exemplo estado_misto _ _
                   eq_refl eq_refl) _).
  repeat (apply Forall_cons || apply Forall_nil); cbn; auto 6.
Defined.

(** X23 ([exibir_escala], the empty schedule): the call never changes the
    generator, and it answers with the message that no schedule has been
    generated exactly when the schedule is empty: for any other schedule it
    raises [KeyError] or returns a text that begins with a line break. *)
Theorem X_exibir_escala_mensagem (strftime_dmy : date -> string) (st : Estado) :
  snd (exibir_escala strftime_dmy st) = st /\
  (fst (exibir_escala strftime_dmy st) = Ok msg_nenhuma_escala <->
   escala_gerada (self st) = []) /\
  (escala_gerada (self st) <> [] ->
   fst (exibir_escala strftime_dmy st) = Raise KeyError \/
   exists t, fst (exibir_escala strftime_dmy st) = Ok (nl ++ t)%string).
Proof.
  assert (Hcasos : escala_gerada (self st) = [] /\
                   exibir_escala strftime_dmy st = (Ok msg_nenhuma_escala, st) \/
                   escala_gerada (self st) <> [] /\
                   (exibir_escala strftime_dmy st = (Raise KeyError, st) \/
                    exists t, exibir_escala strftime_dmy st = (Ok (nl ++ t)%string, st))).
  { destruct (escala_gerada (self st)) as [|r q] eqn:Hesc.
    - left. split; [reflexivity|].
      unfold exibir_escala, bind, get_self, ret. now rewrite Hesc.
    - right. split; [discriminate|].
      destruct (data r) as [d0|] eqn:Hd.
      + right.
        destruct (@exibir_escala_datada strftime_dmy st r q Hesc) as (ds & _ & Hm & He).
        { congruence. }
        rewrite He. destruct ds as [|d ds].
        * exfalso. apply (proj2 (Hm d0)). unfold datas_de. cbn [flat_map].
          rewrite Hd. now left.
        * cbn [flat_map]. unfold bloco_da_data at 1, cabecalho_data, nl.
          cbn [app String.append].
          destruct (concat_inicio (String (Ascii.ascii_of_nat 10) EmptyString)
                      (Ascii.ascii_of_nat 10)
                      (strftime_dmy d ++ " (" ++
                       upper (_obter_nome_dia_semana (weekday d)) ++ "):")%string
                      (map linha_diacono (registros_da_data d (r :: q)) ++
                       flat_map (bloco_da_data strftime_dmy (r :: q)) ds)) as [t Ht].
          exists t. f_equal. f_equal. exact Ht.
      + destruct (@exibir_escala_legado strftime_dmy st r q Hesc Hd) as [Hok Hko].
        destruct (Forall_Exists_dec (fun x => In (dia x) DIAS_ESCALA)
                    (fun x => in_dec string_dec (dia x) DIAS_ESCALA) (r :: q))
          as [Hall | Hex]; [|left; now apply Hko].
        right. rewrite (Hok Hall).
        assert (Hr : In r (grupo dia (dia r) (r :: q))).
        { apply In_grupo. split; [now left | reflexivity]. }
        assert (Hdia : In (dia r) DIAS_ESCALA).
        { apply Forall_cons_iff in Hall. tauto. }
        destruct (grupo dia "domingo" (r :: q)) as [|x1 a] eqn:Ea;
        [destruct (grupo dia "quarta" (r :: q)) as [|x2 b] eqn:Eb;
         [destruct (grupo dia "sabado" (r :: q)) as [|x3 c] eqn:Ec|]|].
        * exfalso. destruct Hdia as [E | [E | [E | []]]]; rewrite <- E in Hr;
            rewrite ?Ea, ?Eb, ?Ec in Hr; destruct Hr.
        * cbn [bloco_do_dia app]. unfold cabecalho_dia at 1, nl.
          cbn [app String.append].
          match goal with |- context [String.concat ?s (String ?c ?u :: ?l)] =>
            destruct (concat_inicio s c u l) as [t Ht] end.
          exists t. f_equal. f_equal. exact Ht.
        * cbn [bloco_do_dia app]. unfold cabecalho_dia at 1, nl.
          cbn [app String.append].
          match goal with |- context [String.concat ?s (String ?c ?u :: ?l)] =>
            destruct (concat_inicio s c u l) as [t Ht] end.
          exists t. f_equal. f_equal. exact Ht.
        * cbn [bloco_do_dia app]. unfold cabecalho_dia at 1, nl.
          cbn [app String.append].
          match goal with |- context [String.concat ?s (String ?c ?u :: ?l)] =>
            destruct (concat_inicio s c u l) as [t Ht] end.
          exists t. f_equal. f_equal. exact Ht. }
  destruct Hcasos as [[Hesc He] | [Hesc [He | [t He]]]]; rewrite He; cbn [fst snd].
  - split; [reflexivity|]. split; [tauto|]. intros H. contradiction.
  - split; [reflexivity|]. split; [|intros _; now left].
    split; [discriminate | contradiction].
  - split; [reflexivity|]. split; [|intros _; right; now exists t].
    split; [|contradiction]. intros H. exfalso.
    unfold nl, msg_nenhuma_escala in H. cbn [String.append] in H.
    injection H as H _. vm_compute in H. discriminate H.
Qed.

(** X24 ([exibir_escala] after [gerar_escala_semanal]): once the legacy
    week has been generated the text is that of its seven records under the
    three day headers: two lines for Sunday, two for Wednesday and three for
    Saturday, each header after a line break, so the text starts with an
    empty line. *)
Theorem X_exibir_escala_da_semana (strftime_dmy : date -> string) (ev : bool)
    (st : Estado) (esc : list DiaconoEscala) (st' : Estado) :
  lista_diaconos (self st) <> [] ->
  gerar_escala_semanal ev st = (Ok esc, st') ->
  exists n1 n2 n3 n4 n5 n6 n7,
    esc = semana_completa n1 n2 n3 n4 n5 n6 n7 /\
    exibir_escala strftime_dmy st' =
      (Ok (String.concat nl
             [(nl ++ "DOMINGO:")%string;
              ("  - " ++ n1 ++ " (chave)")%string;
              ("  - " ++ n2 ++ " (oferta)")%string;
              (nl ++ "QUARTA:")%string;
              ("  - " ++ n3 ++ " (chave)")%string;
              ("  - " ++ n4 ++ " (oferta)")%string;
              (nl ++ "SABADO:")%string;
              ("  - " ++ n5 ++ " (chave)")%string;
              ("  - " ++ n6 ++ " (oferta)")%string;
              ("  - " ++ n7 ++ " (oferta)")%string]), st').
Proof.
  intros Hl He.
  destruct (gerar_escala_semanal_forma ev st Hl)
    as [(n1 & n2 & n3 & n4 & n5 & n6 & n7 & st1 & _ & _ & He1 & Hesc)
       | (st1 & _ & _ & He1)];
    rewrite He in He1; [|discriminate He1].
  injection He1 as -> ->.
  exists n1, n2, n3, n4, n5, n6, n7. split; [reflexivity|].
  destruct (@exibir_escala_legado strftime_dmy st1 _ _ Hesc eq_refl) as [Hok _].
  rewrite Hok; [reflexivity|].
  repeat (apply Forall_cons || apply Forall_nil); cbn; auto 6.
Qed.

Lemma X_exibir_escala_da_semana_witness :
  exists esc st' n1 n2 n3 n4 n5 n6 n7,
    gerar_escala_semanal true (novo_estado ["A"; "B"; "C"] fluxo_zero) = (Ok esc, st') /\
    esc = semana_completa n1 n2 n3 n4 n5 n6 n7 /\
    exibir_escala strftime_exemplo st' =
      (Ok (String.concat nl
             [(nl ++ "DOMINGO:")%string;
              ("  - " ++ n1 ++ " (chave)")%string;
              ("  - " ++ n2 ++ " (oferta)")%string;
              (nl ++ "QUARTA:")%string;
              ("  - " ++ n3 ++ " (chave)")%string;
              ("  - " ++ n4 ++ " (oferta)")%string;
              (nl ++ "SABADO:")%string;
              ("  - " ++ n5 ++ " (chave)")%string;
              ("  - " ++ n6 ++ " (oferta)")%string;
              ("  - " ++ n7 ++ " (oferta)")%string]), st').
Proof.
  assert (He : gerar_escala_semanal true (novo_estado ["A"; "B"; "C"] fluxo_zero)
               = (fst (gerar_escala_semanal true (novo_estado ["A"; "B"; "C"] fluxo_zero)),
                  snd (gerar_escala_semanal true (novo_estado ["A"; "B"; "C"] fluxo_zero))))
    by apply surjective_pairing.
  assert (Hok : fst (gerar_escala_semanal true (novo_estado ["A"; "B"; "C"] fluxo_zero))
                = Ok (semana_completa "A" "B" "A" "B" "A" "B" "C"))
    by (vm_compute; reflexivity).
  rewrite Hok in He.
  destruct (@X_exibir_escala_da_semana strftime_exemplo true
              (novo_estado ["A"; "B"; "C"] fluxo_zero) _ _
              ltac:(cbn; discriminate) He)
    as (n1 & n2 & n3 & n4 & n5 & n6 & n7 & H).
  exists (semana_completa "A" "B" "A" "B" "A" "B" "C"),
    (snd (gerar_escala_semanal true (novo_estado ["A"; "B"; "C"] fluxo_zero))),
    n1, n2, n3, n4, n5, n6, n7.
  split; [exact He | exact H].
Defined.

Lemma todas_datas_do_ano_nao_vazia (ano : Z) : todas_datas_do_ano ano <> [].
Proof.
  intros H. pose proof (registros_do_ano ano) as Hs. cbv zeta in Hs.
  rewrite H in Hs. change (list_sum (map registros_do_evento [])) with 0%nat in Hs.
  pose proof (@conta_dia_no_ano 6 ano ltac:(lia)). lia.
Qed.

Lemma forma_do_dia_registro (e : date * string) (rs : list DiaconoEscala) :
  forma_do_dia (snd e) (fst e) rs -> exists x, In x rs /\ data x = Some (fst e).
Proof.
  unfold forma_do_dia. destruct (String.eqb (snd e) "sabado").
  - intros (n & o1 & o2 & ->). eexists. split; [now left | reflexivity].
  - intros (n & ->). eexists. split; [now left | reflexivity].
Qed.

(** X25 ([exibir_escala] after [gerar_escala_anual]): on the years 2 to
    9998 the text of the annual schedule has one block for each Sunday,
    Wednesday and Saturday of the year, in calendar order; the block of a
    Saturday is its header and three lines, primary first, the block of a
    Sunday or a Wednesday its header and the line of the primary. *)
Theorem X_exibir_escala_do_ano (strftime_dmy : date -> string) (ano : Z) (st : Estado) :
  lista_diaconos (self st) <> [] ->
  (2 <= ano <= 9998)%Z ->
  exists esc st',
    gerar_escala_anual ano st = (Ok esc, st') /\
    exibir_escala strftime_dmy st' =
      (Ok (String.concat nl
             (flat_map (bloco_da_data strftime_dmy esc)
                (map fst (todas_datas_do_ano ano)))), st') /\
    (forall e, In e (todas_datas_do_ano ano) ->
       forma_do_dia (snd e) (fst e) (registros_da_data (fst e) esc)).
Proof.
  intros Hl Hano.
  destruct (gerar_escala_anual_spec st Hl Hano) as (st' & He & _ & _ & Hformas & Horigem).
  destruct (todas_datas_do_ano_spec ano) as [Hcr Hev].
  exists (escala_gerada (self st')), st'. split; [exact He|].
  assert (Hf : forall e, In e (todas_datas_do_ano ano) ->
                 forma_do_dia (snd e) (fst e)
                   (registros_da_data (fst e) (escala_gerada (self st')))).
  { intros e Hin. apply Hev in Hin. destruct Hin as [Hv Hn]. now apply Hformas. }
  split; [|exact Hf].
  assert (Hm : forall d, In d (datas_de (escala_gerada (self st'))) <->
                         In d (map fst (todas_datas_do_ano ano))).
  { intros d. rewrite In_datas_de, in_map_iff. split.
    - intros (x & Hx & Hd). destruct (Horigem x Hx) as (e & Hv & Hn & Hd').
      exists e. split; [congruence|]. apply Hev. now split.
    - intros (e & <- & Hin). destruct (forma_do_dia_registro _ _ (Hf e Hin)) as (x & Hx & Hd).
      exists x. split; [|exact Hd].
      unfold registros_da_data in Hx. apply filter_In in Hx. tauto. }
  destruct (escala_gerada (self st')) as [|r q] eqn:Hesc.
  { exfalso. destruct (todas_datas_do_ano ano) as [|e l] eqn:Et.
    - now apply (@todas_datas_do_ano_nao_vazia ano).
    - apply (proj2 (Hm (fst e))). now left. }
  destruct (@exibir_escala_datada strftime_dmy st' r q Hesc) as (ds & Hds & Hmd & Hex).
  { destruct (Horigem r (or_introl eq_refl)) as (e & _ & _ & Hd). congruence. }
  assert (Eds : ds = map fst (todas_datas_do_ano ano)).
  { apply crescente_unico; [exact Hds | exact Hcr |].
    intros d. now rewrite Hmd, Hm. }
  rewrite Hex, Eds. reflexivity.
Qed.

Lemma X_exibir_escala_do_ano_witness :
  exists esc st',
    gerar_escala_anual 2026 estado_exemplo = (Ok esc, st') /\
    exibir_escala strftime_exemplo st' =
      (Ok (String.concat nl
             (flat_map (bloco_da_data strftime_exemplo esc)
                (map fst (todas_datas_do_ano 2026)))), st') /\
    (forall e, In e (todas_datas_do_ano 2026) ->
       forma_do_dia (snd e) (fst e) (registros_da_data (fst e) esc)).
Proof.
  apply (@X_exibir_escala_do_ano strftime_exemplo 2026 estado_exemplo);
    [cbn; discriminate | lia].
Defined.
